(** * Tracking an Airflow workflow with SageMaker Experiments

    A shallow embedding of the code cells of
    [sagemaker-experiments/track-an-airflow-workflow/track-an-airflow-workflow.ipynb]:
    the listing cell that builds [execs_table], the two task callables
    [train] and [transform] of the DAG file, and [cleanup].

    The notebook talks to services whose code is not part of the repository
    (the SageMaker registry and job platform, the Airflow task runner).  The
    callables are therefore written once over an interface of service
    operations ([Platform]); every call is recorded in a trace, so that what
    the notebook code does can be stated for all implementations of the
    interface.  A reference implementation of the interface follows the
    contract of the specification and is used where a statement is about the
    services themselves. *)

From Stdlib Require Import ZArith List Lia Sorted Permutation.
From stdpp Require Import base option list strings gmap fin_maps pretty.

Open Scope string_scope.
Open Scope Z_scope.

(** ** Results of fallible code *)

(** A Python call either raises ([inl e]) or returns ([inr a]). *)
Definition ok {E A : Type} (a : A) : E + A := inr a.
Definition raise {E A : Type} (e : E) : E + A := inl e.

Definition is_ok {E A : Type} (r : E + A) : bool :=
  match r with inr _ => true | inl _ => false end.

(** ** Listing cell: [execs_table] *)

(** Exceptions the listing cell itself can raise: a dict subscript with a
    missing key, and the shape check of [pd.DataFrame]. *)
Inductive PyError : Type :=
| KeyError (key : string)
| ValueError (msg : string).

(** [creation_time] is a timestamp; it is only copied and compared. *)
Definition Timestamp : Type := Z.

(** What the notebook reads from a trial summary: [exe.trial_name],
    [exe.trial_source] (a dict, subscripted with ['SourceArn']) and
    [exe.creation_time].  Summaries whose [trial_source] is missing or [None]
    are those of [ListedTrial], further down. *)
Record TrialSummary : Type := mkTrialSummary {
  trial_name : string;
  trial_source : gmap string string;
  creation_time : Timestamp
}.

(** Cells of a data frame built from the listing. *)
Inductive Cell : Type :=
| CStr (s : string)
| CTime (t : Timestamp).

Record DataFrame : Type := mkDataFrame {
  columns : list string;
  rows : list (list Cell)
}.

(** [d[k]] on a dict. *)
Definition subscript (d : gmap string string) (k : string) : PyError + string :=
  match d !! k with
  | Some v => ok v
  | None => raise (KeyError k)
  end.

(** [pd.DataFrame(data, columns=cols)] on a list of rows: every row must have
    as many entries as there are columns. *)
Definition pd_DataFrame (data : list (list Cell)) (cols : list string)
  : PyError + DataFrame :=
  if forallb (fun row => Nat.eqb (length row) (length cols)) data
  then ok (mkDataFrame cols data)
  else raise (ValueError "columns passed do not match the data").

(** The body of [for exe in executions: execs_details.append([...])],
    threading the list [execs_details]. *)
Fixpoint collect_details (executions : list TrialSummary)
    (execs_details : list (list Cell)) : PyError + list (list Cell) :=
  match executions with
  | [] => ok execs_details
  | exe :: rest =>
      match subscript (trial_source exe) "SourceArn" with
      | inl e => raise e
      | inr arn =>
          collect_details rest
            (execs_details ++ [[CStr (trial_name exe); CStr arn;
                                CTime (creation_time exe)]])
      end
  end.

Definition tabulate (executions : list TrialSummary) : PyError + DataFrame :=
  match collect_details executions [] with
  | inl e => raise e
  | inr execs_details =>
      pd_DataFrame execs_details ["Name"; "Source"; "CreationTime"]
  end.

(** The row the listing cell builds for a summary that carries a source. *)
Definition row_of (exe : TrialSummary) (arn : string) : list Cell :=
  [CStr (trial_name exe); CStr arn; CTime (creation_time exe)].

Definition has_source (exe : TrialSummary) : Prop :=
  is_Some (trial_source exe !! "SourceArn").

(** ** The services the notebook calls *)

(** A Python value that travels through the orchestrator: a callable's return
    value and what [xcom_pull] yields.  Only [None] and strings occur. *)
Inductive PyVal : Type :=
| PyNone
| PyStr (s : string).

(** What [cleanup] reads from a trial component summary, together with what
    the analytics view reports for a component. *)
Record TrialComponentSummary : Type := mkTrialComponentSummary {
  trial_component_name : string;
  display_name : string;
  source_arn : string;
  component_creation_time : Timestamp
}.

(** Handles returned by [Experiment.create], [Trial.load] and
    [TrialComponent.load]: they carry the name the later calls are keyed by. *)
Record Experiment : Type := mkExperiment {
  experiment_name : string;
  experiment_description : string
}.

Record Trial : Type := mkTrial { trial_of : string }.

Record TrialComponent : Type := mkTrialComponent { component_of : string }.

(** The arguments of the [TensorFlow(...)] estimator of the DAG file. *)
Record TensorFlow : Type := mkTensorFlow {
  base_job_name_of : string;
  source_dir : string;
  entry_point : string;
  estimator_role : string;
  framework_version : string;
  py_version_of : string;
  hyperparameters : gmap string Z;
  train_instance_count : Z;
  train_instance_type : string
}.

(** The serving model built from an attached estimator, and the arguments of
    [.transformer(...)]. *)
Record Model : Type := mkModel {
  model_data : string;
  model_role : string;
  model_framework_version : string
}.

Record Transformer : Type := mkTransformer {
  transformer_model : Model;
  instance_count : Z;
  instance_type : string;
  max_concurrent_transforms : Z;
  max_payload : Z
}.

(** One service operation: it reads and updates the state of the outside
    world and either raises or returns. *)
Definition Op (W E A : Type) : Type := W -> (E + A) * W.

(** The service operations used by the notebook.  [W] is the state of the
    outside world, [E] the type of the exceptions the services raise. *)
Record Platform (W E : Type) : Type := mkPlatform {
  (* smexperiments *)
  experiment_create : string -> string -> Op W E unit;
  experiment_load : string -> Op W E string;
  experiment_delete : string -> Op W E unit;
  experiment_list_trials :
    string -> option string -> option string -> Op W E (list TrialSummary);
  trial_load : string -> Op W E unit;
  trial_list_trial_components : string -> Op W E (list TrialComponentSummary);
  trial_remove_trial_component : string -> string -> Op W E unit;
  trial_delete : string -> Op W E unit;
  trial_component_load : string -> Op W E unit;
  trial_component_delete : string -> Op W E unit;
  experiment_analytics :
    string -> option string -> option string
    -> Op W E (list TrialComponentSummary);
  (* sagemaker *)
  estimator_fit : TensorFlow -> string -> gmap string string -> Op W E string;
  estimator_attach : PyVal -> Op W E string;
  model_transformer : Transformer -> Op W E unit;
  transformer_transform :
    Transformer -> string -> string -> string -> string
    -> gmap string string -> Op W E unit;
  (* time *)
  time_time : W -> Z * W;
  time_sleep : Z -> W -> W
}.

Arguments experiment_create {W E}.
Arguments experiment_load {W E}.
Arguments experiment_delete {W E}.
Arguments experiment_list_trials {W E}.
Arguments trial_load {W E}.
Arguments trial_list_trial_components {W E}.
Arguments trial_remove_trial_component {W E}.
Arguments trial_delete {W E}.
Arguments trial_component_load {W E}.
Arguments trial_component_delete {W E}.
Arguments experiment_analytics {W E}.
Arguments estimator_fit {W E}.
Arguments estimator_attach {W E}.
Arguments model_transformer {W E}.
Arguments transformer_transform {W E}.
Arguments time_time {W E}.
Arguments time_sleep {W E}.

(** Every call that leaves the notebook, with what it was given and what came
    back.  [time.sleep] takes its delay in milliseconds. *)
Inductive Event (E : Type) : Type :=
| EvExperimentCreate (name desc : string) (r : E + unit)
| EvExperimentLoad (name : string) (r : E + string)
| EvExperimentDelete (name : string) (r : E + unit)
| EvListTrials (name : string) (sort_by sort_order : option string)
    (r : E + list TrialSummary)
| EvTrialLoad (trial : string) (r : E + unit)
| EvListTrialComponents (trial : string) (r : E + list TrialComponentSummary)
| EvRemoveTrialComponent (trial component : string) (r : E + unit)
| EvTrialDelete (trial : string) (r : E + unit)
| EvTrialComponentLoad (component : string) (r : E + unit)
| EvTrialComponentDelete (component : string) (r : E + unit)
| EvAnalytics (name : string) (sort_by sort_order : option string)
    (r : E + list TrialComponentSummary)
| EvFit (estimator : TensorFlow) (data : string)
    (experiment_config : gmap string string) (r : E + string)
| EvAttach (training_job : PyVal) (r : E + string)
| EvTransformer (t : Transformer) (r : E + unit)
| EvTransform (t : Transformer) (data job_name content_type split_type : string)
    (experiment_config : gmap string string) (r : E + unit)
| EvTime (now : Z)
| EvSleep (ms : Z)
| EvXcomPull (task_ids : string) (v : PyVal)
| EvXcomPush (task_id : string) (v : PyVal).

Arguments EvExperimentCreate {E}.
Arguments EvExperimentLoad {E}.
Arguments EvExperimentDelete {E}.
Arguments EvListTrials {E}.
Arguments EvTrialLoad {E}.
Arguments EvListTrialComponents {E}.
Arguments EvRemoveTrialComponent {E}.
Arguments EvTrialDelete {E}.
Arguments EvTrialComponentLoad {E}.
Arguments EvTrialComponentDelete {E}.
Arguments EvAnalytics {E}.
Arguments EvFit {E}.
Arguments EvAttach {E}.
Arguments EvTransformer {E}.
Arguments EvTransform {E}.
Arguments EvTime {E}.
Arguments EvSleep {E}.
Arguments EvXcomPull {E}.
Arguments EvXcomPush {E}.

(** ** The notebook's computations *)

(** The state a cell runs in: the outside world, the orchestrator's XCom store
    (return values of finished tasks, by task id) and the calls made so far. *)
Record St (W E : Type) : Type := mkSt {
  world : W;
  xcom : gmap string PyVal;
  trace : list (Event E)
}.

Arguments mkSt {W E}.
Arguments world {W E}.
Arguments xcom {W E}.
Arguments trace {W E}.

Definition M (W E A : Type) : Type := St W E -> (E + A) * St W E.

Definition ret {W E A} (a : A) : M W E A := fun s => (inr a, s).

Definition bind {W E A B} (m : M W E A) (k : A -> M W E B) : M W E B :=
  fun s =>
    match m s with
    | (inl e, s') => (inl e, s')
    | (inr a, s') => k a s'
    end.

Notation "'let!' x ':=' m 'in' k" := (bind m (fun x => k))
  (at level 10, x name, m at level 100, k at level 200).
Notation "m1 ;;; m2" := (bind m1 (fun _ => m2))
  (at level 100, m2 at level 200, right associativity).

(** [try: body except: handler] with a bare [except]: whatever [body] raises
    is handed to the handler. *)
Definition try_except {W E A} (body : M W E A) (handler : E -> M W E A)
  : M W E A :=
  fun s =>
    match body s with
    | (inl e, s') => handler e s'
    | (inr a, s') => (inr a, s')
    end.

(** A service call: run the operation on the world and record it. *)
Definition call {W E A} (ev : E + A -> Event E) (op : Op W E A) : M W E A :=
  fun s =>
    let '(r, w) := op (world s) in
    (r, mkSt w (xcom s) (trace s ++ [ev r])).

(** [for x in l: body x]. *)
Fixpoint for_each {W E A} (l : list A) (body : A -> M W E unit) : M W E unit :=
  match l with
  | [] => ret tt
  | x :: rest => body x ;;; for_each rest body
  end.

Section Notebook.

Context {W E : Type}.
Variable P : Platform W E.

Local Abbreviation Comp := (M W E).

(** *** smexperiments and sagemaker calls, as the notebook writes them

    Each SDK call is one service call.  [Experiment.create], [Trial.load] and
    [TrialComponent.load] return a handle on the record they were asked for;
    a listing is obtained in one call and then iterated. *)

Definition Experiment_create (name desc : string) : Comp Experiment :=
  call (EvExperimentCreate name desc) (experiment_create P name desc) ;;;
  ret (mkExperiment name desc).

Definition Experiment_load (name : string) : Comp Experiment :=
  let! desc := call (EvExperimentLoad name) (experiment_load P name) in
  ret (mkExperiment name desc).

Definition Experiment_delete (experiment : Experiment) : Comp unit :=
  call (EvExperimentDelete (experiment_name experiment))
       (experiment_delete P (experiment_name experiment)).

Definition Experiment_list_trials (experiment : Experiment)
    (sort_by sort_order : option string) : Comp (list TrialSummary) :=
  call (EvListTrials (experiment_name experiment) sort_by sort_order)
       (experiment_list_trials P (experiment_name experiment) sort_by sort_order).

Definition Trial_load (name : string) : Comp Trial :=
  call (EvTrialLoad name) (trial_load P name) ;;;
  ret (mkTrial name).

Definition Trial_list_trial_components (trial : Trial)
  : Comp (list TrialComponentSummary) :=
  call (EvListTrialComponents (trial_of trial))
       (trial_list_trial_components P (trial_of trial)).

Definition Trial_remove_trial_component (trial : Trial) (tc : TrialComponent)
  : Comp unit :=
  call (EvRemoveTrialComponent (trial_of trial) (component_of tc))
       (trial_remove_trial_component P (trial_of trial) (component_of tc)).

Definition Trial_delete (trial : Trial) : Comp unit :=
  call (EvTrialDelete (trial_of trial)) (trial_delete P (trial_of trial)).

Definition TrialComponent_load (name : string) : Comp TrialComponent :=
  call (EvTrialComponentLoad name) (trial_component_load P name) ;;;
  ret (mkTrialComponent name).

Definition TrialComponent_delete (tc : TrialComponent) : Comp unit :=
  call (EvTrialComponentDelete (component_of tc))
       (trial_component_delete P (component_of tc)).

Definition ExperimentAnalytics (name : string)
    (sort_by sort_order : option string) : Comp (list TrialComponentSummary) :=
  call (EvAnalytics name sort_by sort_order)
       (experiment_analytics P name sort_by sort_order).

(** [time.sleep(.5)], the delay counted in milliseconds. *)
Definition sleep (ms : Z) : Comp unit :=
  fun s => (inr tt, mkSt (time_sleep P ms (world s)) (xcom s)
                         (trace s ++ [EvSleep ms])).

(** [int(time.time())]: the platform's clock already yields whole seconds. *)
Definition int_time : Comp Z :=
  fun s =>
    let '(now, w) := time_time P (world s) in
    (inr now, mkSt w (xcom s) (trace s ++ [EvTime now])).

(** [context['ti'].xcom_pull(task_ids=...)]: the return value a finished task
    left in the XCom store, [None] when there is none. *)
Definition xcom_pull (task_ids : string) : Comp PyVal :=
  fun s =>
    let v := default PyNone (xcom s !! task_ids) in
    (inr v, mkSt (world s) (xcom s) (trace s ++ [EvXcomPull task_ids v])).

(** *** The cleanup cell *)

(** The body of the inner loop.  A failed [tc.delete()] is swallowed by the
    bare [except], whose [continue] skips the [time.sleep(.5)]. *)
Definition cleanup_component (trial : Trial)
    (trial_component_summary : TrialComponentSummary) : Comp unit :=
  let! tc := TrialComponent_load
               (trial_component_name trial_component_summary) in
  Trial_remove_trial_component trial tc ;;;
  let! deleted := try_except (TrialComponent_delete tc ;;; ret true)
                             (fun _ => ret false) in
  if (deleted : bool) then sleep 500 else ret tt.

(** The body of the outer loop. *)
Definition cleanup_trial (trial_summary : TrialSummary) : Comp unit :=
  let! trial := Trial_load (trial_name trial_summary) in
  let! components := Trial_list_trial_components trial in
  for_each components (cleanup_component trial) ;;;
  Trial_delete trial.

Definition cleanup (experiment : Experiment) : Comp unit :=
  let! trials := Experiment_list_trials experiment None None in
  for_each trials cleanup_trial ;;;
  Experiment_delete experiment.

(** *** The DAG file [fashion-mnist-dag.py] *)

(** What the DAG file reads from its environment: the session's region, the
    caller's account and the execution role. *)
Variables region_name account_id role : string.

Definition dag_experiment_name : string :=
  "fashion-mnist-classification-experiment".

Definition bucket_name : string :=
  "sagemaker-experiments-" ++ region_name ++ "-" ++ account_id.

Definition train_input : string :=
  "s3://" ++ bucket_name ++ "/fashion-mnist/data/train".

Definition test_input : string :=
  "s3://" ++ bucket_name ++ "/fashion-mnist/data/test/x_test.csv".

Definition base_job_name : string := "fashion-mnist-cnn".
Definition py_version : string := "py3".
Definition tf_framework_version : string := "1.13".

(** The [experiment_config] dicts of the two submissions. *)
Definition training_experiment_config : gmap string string :=
  <["ExperimentName" := dag_experiment_name]>
    (<["TrialComponentDisplayName" := "Training"]> ∅).

Definition transform_experiment_config : gmap string string :=
  <["ExperimentName" := dag_experiment_name]>
    (<["TrialComponentDisplayName" := "Transform"]> ∅).

(** The run context the orchestrator hands to a callable ([**context]); the
    callables only use [context['ti'].xcom_pull]. *)
Record Context : Type := mkContext {
  ti_task_id : string;
  execution_date : string
}.

Definition dag_estimator : TensorFlow :=
  {| base_job_name_of := base_job_name;
     source_dir := "code";
     entry_point := "train.py";
     estimator_role := role;
     framework_version := tf_framework_version;
     py_version_of := py_version;
     hyperparameters := <["epochs" := 10]> (<["batch-size" := 256]> ∅);
     train_instance_count := 1;
     train_instance_type := "ml.m4.xlarge" |}.

(** [def train(data, **context)]: [estimator.fit] yields the name of the
    training job it started ([estimator.latest_training_job.job_name]). *)
Definition train (data : string) (context : Context) : Comp PyVal :=
  let estimator := dag_estimator in
  let! job_name :=
    call (EvFit estimator data training_experiment_config)
         (estimator_fit P estimator data training_experiment_config) in
  ret (PyStr job_name).

(** [Model(model_data=estimator.model_data, role=role, ...)] and
    [.transformer(instance_count=1, ...)]. *)
Definition serving_model (estimator_model_data : string) : Model :=
  {| model_data := estimator_model_data;
     model_role := role;
     model_framework_version := tf_framework_version |}.

Definition dag_transformer (tensorflow_serving_model : Model) : Transformer :=
  {| transformer_model := tensorflow_serving_model;
     instance_count := 1;
     instance_type := "ml.m4.xlarge";
     max_concurrent_transforms := 5;
     max_payload := 1 |}.

(** The transform job's name, [f"{base_job_name}-{int(time.time())}"]. *)
Definition transform_job_name (now : Z) : string :=
  base_job_name ++ "-" ++ pretty now.

(** [def transform(data, **context)]: the function body ends after
    [transformer.transform(...)], so the call evaluates to [None]. *)
Definition transform (data : string) (context : Context) : Comp PyVal :=
  let! training_job := xcom_pull "training" in
  let! estimator_model_data :=
    call (EvAttach training_job) (estimator_attach P training_job) in
  let tensorflow_serving_model := serving_model estimator_model_data in
  let transformer := dag_transformer tensorflow_serving_model in
  call (EvTransformer transformer) (model_transformer P transformer) ;;;
  let! now := int_time in
  call (EvTransform transformer data (transform_job_name now) "text/csv" "Line"
                    transform_experiment_config)
       (transformer_transform P transformer data (transform_job_name now)
                              "text/csv" "Line" transform_experiment_config) ;;;
  ret PyNone.

(** Modelled from the spec: the orchestrator's inter-task data passing
    (sections 4.2 and 6); Airflow's code is not in the repository.  A
    [PythonOperator] applies its callable to [op_args] and the run context,
    and a return value other than [None] is kept in the XCom store under the
    task's id. *)
Definition xcom_push (task_id : string) (v : PyVal) : Comp unit :=
  fun s => (inr tt, mkSt (world s) (<[task_id := v]> (xcom s))
                         (trace s ++ [EvXcomPush task_id v])).

Definition PythonOperator (task_id : string)
    (python_callable : string -> Context -> Comp PyVal) (op_args : string)
    (execution_date : string) : Comp PyVal :=
  let! return_value := python_callable op_args (mkContext task_id execution_date) in
  match return_value with
  | PyNone => ret tt
  | PyStr _ => xcom_push task_id return_value
  end ;;;
  ret return_value.

Definition train_op : string -> Comp PyVal :=
  PythonOperator "training" train train_input.

Definition transform_op : string -> Comp PyVal :=
  PythonOperator "transform" transform test_input.

(** One run of the DAG: [transform_op.set_upstream(train_op)], so the
    transform task starts only after the training task has succeeded. *)
Definition dag_run (execution_date : string) : Comp unit :=
  train_op execution_date ;;;
  transform_op execution_date ;;;
  ret tt.

End Notebook.

(** ** A reference registry and job platform

    The registry and the job platform are services outside the repository.
    The definitions of this part follow the contract the specification gives
    for them (sections 3, 4 and 7). *)

(** Modelled from the spec: the error taxonomy of section 7; the code of the
    services that raise these errors is not in the repository. *)
Inductive Exn : Type :=
| NotFound
| AlreadyExists
| HasDependents
| AssociatedElsewhere
| SubmitFailed
| TransientPlatformError.

Global Instance Exn_eq_dec : EqDecision Exn.
Proof. solve_decision. Defined.

(** Modelled from the spec: a Trial belongs to one Experiment, has a creation
    timestamp, the source reference of the job that triggered it, and the
    Trial Components attached to it (the registry's storage is not in the
    repository). *)
Record TrialRecord : Type := mkTrialRecord {
  trial_experiment : string;
  trial_source_arn : string;
  trial_created : Timestamp;
  trial_components : list string
}.

(** Modelled from the spec: a Trial Component carries a display name and the
    source reference of its job. *)
Record ComponentRecord : Type := mkComponentRecord {
  component_display_name : string;
  component_source_arn : string;
  component_created : Timestamp
}.

(** Modelled from the spec: the state of the external registry and job
    platform.  [clock] counts milliseconds; [current_run] is the orchestrator
    run the platform attributes submissions to. *)
Record Registry : Type := mkRegistry {
  experiments : gmap string string;
  trials : gmap string TrialRecord;
  components : gmap string ComponentRecord;
  training_jobs : gmap string string;
  clock : Z;
  current_run : string
}.

Definition with_experiments (f : gmap string string -> gmap string string)
    (r : Registry) : Registry :=
  mkRegistry (f (experiments r)) (trials r) (components r) (training_jobs r)
             (clock r) (current_run r).

Definition with_trials (f : gmap string TrialRecord -> gmap string TrialRecord)
    (r : Registry) : Registry :=
  mkRegistry (experiments r) (f (trials r)) (components r) (training_jobs r)
             (clock r) (current_run r).

Definition with_components
    (f : gmap string ComponentRecord -> gmap string ComponentRecord)
    (r : Registry) : Registry :=
  mkRegistry (experiments r) (trials r) (f (components r)) (training_jobs r)
             (clock r) (current_run r).

Definition with_training_jobs (f : gmap string string -> gmap string string)
    (r : Registry) : Registry :=
  mkRegistry (experiments r) (trials r) (components r) (f (training_jobs r))
             (clock r) (current_run r).

Definition with_clock (f : Z -> Z) (r : Registry) : Registry :=
  mkRegistry (experiments r) (trials r) (components r) (training_jobs r)
             (f (clock r)) (current_run r).

(** *** Ordering by creation time *)

Fixpoint insert_by {A} (key : A -> Z) (x : A) (l : list A) : list A :=
  match l with
  | [] => [x]
  | y :: rest =>
      if Z.leb (key x) (key y) then x :: y :: rest
      else y :: insert_by key x rest
  end.

Fixpoint sort_by {A} (key : A -> Z) (l : list A) : list A :=
  match l with
  | [] => []
  | x :: rest => insert_by key x (sort_by key rest)
  end.

(** Modelled from the spec: [order={Ascending,Descending}]; anything but
    [Descending] lists oldest first. *)
Definition ordered {A} (key : A -> Z) (sort_order : option string)
    (l : list A) : list A :=
  match sort_order with
  | Some "Descending" => rev (sort_by key l)
  | _ => sort_by key l
  end.

(** *** Registry operations *)

(** Modelled from the spec: the trials that reference an experiment. *)
Definition trials_of (name : string) (r : Registry) : gmap string TrialRecord :=
  filter (fun kv => trial_experiment kv.2 = name) (trials r).

(** Modelled from the spec: the trials a component is attached to. *)
Definition trials_with (component : string) (r : Registry)
  : gmap string TrialRecord :=
  filter (fun kv => component ∈ trial_components kv.2) (trials r).

Definition summary_of_trial (kv : string * TrialRecord) : TrialSummary :=
  {| trial_name := kv.1;
     trial_source := {[ "SourceArn" := trial_source_arn kv.2 ]};
     creation_time := trial_created kv.2 |}.

Definition summary_of_component (r : Registry) (name : string)
  : option TrialComponentSummary :=
  rec ← components r !! name;
  Some {| trial_component_name := name;
          display_name := component_display_name rec;
          source_arn := component_source_arn rec;
          component_creation_time := component_created rec |}.

(** Modelled from the spec: [create(name, description)] fails with
    [AlreadyExists] if an experiment with that name exists. *)
Definition reg_experiment_create (name desc : string) : Op Registry Exn unit :=
  fun r =>
    match experiments r !! name with
    | Some _ => (inl AlreadyExists, r)
    | None => (inr tt, with_experiments (insert name desc) r)
    end.

(** Modelled from the spec: [load(name)] fails with [NotFound] if absent. *)
Definition reg_experiment_load (name : string) : Op Registry Exn string :=
  fun r =>
    match experiments r !! name with
    | Some desc => (inr desc, r)
    | None => (inl NotFound, r)
    end.

(** Modelled from the spec: [delete(experiment)] fails with [HasDependents]
    if any Trial still references the experiment, with [NotFound] if the
    experiment is absent. *)
Definition reg_experiment_delete (name : string) : Op Registry Exn unit :=
  fun r =>
    match experiments r !! name with
    | None => (inl NotFound, r)
    | Some _ =>
        if decide (trials_of name r = ∅)
        then (inr tt, with_experiments (delete name) r)
        else (inl HasDependents, r)
    end.

(** Modelled from the spec: [list_trials(experiment, sort_by, order)], the
    trials of the experiment ordered by creation time; [NotFound] if the
    experiment is absent. *)
Definition reg_list_trials (name : string) (sort_by_ sort_order : option string)
  : Op Registry Exn (list TrialSummary) :=
  fun r =>
    match experiments r !! name with
    | None => (inl NotFound, r)
    | Some _ =>
        (inr (ordered creation_time sort_order
                (summary_of_trial <$> map_to_list (trials_of name r))), r)
    end.

(** Modelled from the spec: registry lookups fail with [NotFound] when the
    referenced trial or component is absent. *)
Definition reg_trial_load (trial : string) : Op Registry Exn unit :=
  fun r =>
    match trials r !! trial with
    | Some _ => (inr tt, r)
    | None => (inl NotFound, r)
    end.

(** Modelled from the spec: a Trial owns an ordered-by-creation-time
    collection of Trial Components. *)
Definition reg_list_trial_components (trial : string)
  : Op Registry Exn (list TrialComponentSummary) :=
  fun r =>
    match trials r !! trial with
    | None => (inl NotFound, r)
    | Some rec =>
        (inr (sort_by component_creation_time
                (omap (summary_of_component r) (trial_components rec))), r)
    end.

(** Modelled from the spec: the association of a component with a trial can
    be removed without deleting the component. *)
Definition reg_remove_trial_component (trial component : string)
  : Op Registry Exn unit :=
  fun r =>
    match trials r !! trial, components r !! component with
    | Some rec, Some _ =>
        (inr tt,
         with_trials
           (insert trial
              (mkTrialRecord (trial_experiment rec) (trial_source_arn rec)
                 (trial_created rec)
                 (filter (fun c => c ≠ component) (trial_components rec)))) r)
    | _, _ => (inl NotFound, r)
    end.

(** Modelled from the spec: deleting a Trial that still has an attached Trial
    Component fails with [HasDependents] before any deletion occurs. *)
Definition reg_trial_delete (trial : string) : Op Registry Exn unit :=
  fun r =>
    match trials r !! trial with
    | None => (inl NotFound, r)
    | Some rec =>
        match trial_components rec with
        | [] => (inr tt, with_trials (delete trial) r)
        | _ :: _ => (inl HasDependents, r)
        end
    end.

(** Modelled from the spec: loading a component fails with [NotFound] when
    the component is absent. *)
Definition reg_trial_component_load (component : string)
  : Op Registry Exn unit :=
  fun r =>
    match components r !! component with
    | Some _ => (inr tt, r)
    | None => (inl NotFound, r)
    end.

(** Modelled from the spec: deleting a component that is still attached to a
    trial fails with [AssociatedElsewhere]. *)
Definition reg_trial_component_delete (component : string)
  : Op Registry Exn unit :=
  fun r =>
    match components r !! component with
    | None => (inl NotFound, r)
    | Some _ =>
        if decide (trials_with component r = ∅)
        then (inr tt, with_components (delete component) r)
        else (inl AssociatedElsewhere, r)
    end.

(** Modelled from the spec: [analytics(experiment, sort_by, order)] returns
    one row per Trial Component of the experiment. *)
Definition reg_analytics (name : string) (sort_by_ sort_order : option string)
  : Op Registry Exn (list TrialComponentSummary) :=
  fun r =>
    match experiments r !! name with
    | None => (inl NotFound, r)
    | Some _ =>
        (inr (ordered component_creation_time sort_order
                (omap (summary_of_component r)
                   (remove_dups
                      (concat ((fun kv => trial_components kv.2)
                                 <$> map_to_list (trials_of name r)))))), r)
    end.

(** *** Job submission *)

(** Modelled from the spec: a submission's [experiment_config] has exactly
    the two string fields [ExperimentName] and [TrialComponentDisplayName]. *)
Definition read_experiment_config (cfg : gmap string string)
  : option (string * string) :=
  if decide (dom cfg = {[ "ExperimentName"; "TrialComponentDisplayName" ]})
  then
    name ← cfg !! "ExperimentName";
    display ← cfg !! "TrialComponentDisplayName";
    Some (name, display)
  else None.

(** Modelled from the spec: the Trial that matches the current orchestrator
    run under an experiment; the platform names it after both. *)
Definition run_trial_name (name : string) (r : Registry) : string :=
  name ++ "-" ++ current_run r.

(** Modelled from the spec (section 4.2): on a submission the platform
    (a) creates a Trial if one matching the current orchestrator run does not
    exist, (b) creates a Trial Component for the submitted job, (c) associates
    it to the Trial.  A rejected submission creates nothing; the component's
    name, derived from the job name, is the uniqueness key. *)
Definition track (component arn : string) (cfg : gmap string string)
  : Op Registry Exn unit :=
  fun r =>
    match read_experiment_config cfg with
    | None => (inl SubmitFailed, r)
    | Some (name, display) =>
        match experiments r !! name, components r !! component with
        | Some _, None =>
            let trial := run_trial_name name r in
            let created := mkComponentRecord display arn (clock r) in
            match trials r !! trial with
            | None =>
                (inr tt,
                 with_clock (Z.add 1)
                   (with_components (insert component created)
                      (with_trials
                         (insert trial
                            (mkTrialRecord name arn (clock r) [component]))
                         r)))
            | Some rec =>
                if decide (trial_experiment rec = name)
                then
                  (inr tt,
                   with_clock (Z.add 1)
                     (with_components (insert component created)
                        (with_trials
                           (insert trial
                              (mkTrialRecord (trial_experiment rec)
                                 (trial_source_arn rec) (trial_created rec)
                                 (trial_components rec ++ [component])))
                           r)))
                else (inl SubmitFailed, r)
            end
        | _, _ => (inl SubmitFailed, r)
        end
    end.

(** Modelled from the spec: the training submission; the platform derives the
    job name from the estimator's base name and its clock, records the
    finished job's model artefact, and returns the job name. *)
Definition reg_fit (estimator : TensorFlow) (data : string)
    (cfg : gmap string string) : Op Registry Exn string :=
  fun r =>
    let job_name := base_job_name_of estimator ++ "-" ++ pretty (clock r) in
    match track (job_name ++ "-aws-training-job")
                ("arn:aws:sagemaker:training-job/" ++ job_name) cfg r with
    | (inl e, r') => (inl e, r')
    | (inr _, r') =>
        (inr job_name,
         with_training_jobs
           (insert job_name ("s3://output/" ++ job_name ++ "/model.tar.gz")) r')
    end.

(** Modelled from the spec: attaching to a training job by its identifier
    yields the job's model artefact; [NotFound] if there is no such job. *)
Definition reg_attach (training_job : PyVal) : Op Registry Exn string :=
  fun r =>
    match training_job with
    | PyNone => (inl NotFound, r)
    | PyStr job_name =>
        match training_jobs r !! job_name with
        | Some artefact => (inr artefact, r)
        | None => (inl NotFound, r)
        end
    end.

(** Modelled from the spec: preparing the transformer creates no tracking
    record. *)
Definition reg_transformer (t : Transformer) : Op Registry Exn unit :=
  fun r => (inr tt, r).

(** Modelled from the spec: the transform submission under a job name chosen
    by the caller. *)
Definition reg_transform (t : Transformer)
    (data job_name content_type split_type : string)
    (cfg : gmap string string) : Op Registry Exn unit :=
  track (job_name ++ "-aws-transform-job")
        ("arn:aws:sagemaker:transform-job/" ++ job_name) cfg.

(** Modelled from the spec: the platform's clock, read in whole seconds. *)
Definition reg_time (r : Registry) : Z * Registry := (clock r / 1000, r).

(** Modelled from the spec: the inter-deletion delay only lets time pass. *)
Definition reg_sleep (ms : Z) (r : Registry) : Registry :=
  with_clock (Z.add ms) r.

(** Modelled from the spec: the registry and job platform behind the
    notebook's calls. *)
Definition reference : Platform Registry Exn :=
  {| experiment_create := reg_experiment_create;
     experiment_load := reg_experiment_load;
     experiment_delete := reg_experiment_delete;
     experiment_list_trials := reg_list_trials;
     trial_load := reg_trial_load;
     trial_list_trial_components := reg_list_trial_components;
     trial_remove_trial_component := reg_remove_trial_component;
     trial_delete := reg_trial_delete;
     trial_component_load := reg_trial_component_load;
     trial_component_delete := reg_trial_component_delete;
     experiment_analytics := reg_analytics;
     estimator_fit := reg_fit;
     estimator_attach := reg_attach;
     model_transformer := reg_transformer;
     transformer_transform := reg_transform;
     time_time := reg_time;
     time_sleep := reg_sleep |}.

(** An empty registry at a given time, serving a given orchestrator run. *)
Definition empty_registry (now : Z) (run : string) : Registry :=
  mkRegistry ∅ ∅ ∅ ∅ now run.

Definition start (r : Registry) : St Registry Exn := mkSt r ∅ [].

(** A platform that behaves like [P] except that every deletion of a trial
    component is rejected with [e] (a throttled registry, for instance). *)
Definition rejecting_component_deletes {W E} (P : Platform W E) (e : E)
  : Platform W E :=
  {| experiment_create := experiment_create P;
     experiment_load := experiment_load P;
     experiment_delete := experiment_delete P;
     experiment_list_trials := experiment_list_trials P;
     trial_load := trial_load P;
     trial_list_trial_components := trial_list_trial_components P;
     trial_remove_trial_component := trial_remove_trial_component P;
     trial_delete := trial_delete P;
     trial_component_load := trial_component_load P;
     trial_component_delete := fun _ w => (inl e, w);
     experiment_analytics := experiment_analytics P;
     estimator_fit := estimator_fit P;
     estimator_attach := estimator_attach P;
     model_transformer := model_transformer P;
     transformer_transform := transformer_transform P;
     time_time := time_time P;
     time_sleep := time_sleep P |}.

(** A platform that behaves like [P] except that every removal of a
    component from a trial is rejected with [e]. *)
Definition rejecting_component_removals {W E} (P : Platform W E) (e : E)
  : Platform W E :=
  {| experiment_create := experiment_create P;
     experiment_load := experiment_load P;
     experiment_delete := experiment_delete P;
     experiment_list_trials := experiment_list_trials P;
     trial_load := trial_load P;
     trial_list_trial_components := trial_list_trial_components P;
     trial_remove_trial_component := fun _ _ w => (inl e, w);
     trial_delete := trial_delete P;
     trial_component_load := trial_component_load P;
     trial_component_delete := trial_component_delete P;
     experiment_analytics := experiment_analytics P;
     estimator_fit := estimator_fit P;
     estimator_attach := estimator_attach P;
     model_transformer := model_transformer P;
     transformer_transform := transformer_transform P;
     time_time := time_time P;
     time_sleep := time_sleep P |}.

(** ** Sample data *)

Definition sample_executions : list TrialSummary :=
  [ mkTrialSummary "run-1" {[ "SourceArn" := "arn:training-job/a" ]} 10;
    mkTrialSummary "run-2" {[ "SourceArn" := "arn:training-job/b" ]} 20 ].

(** ** Traces of runs *)

(** The error a recorded call failed with, if it failed. *)
Definition failed {E} (ev : Event E) : option E :=
  match ev with
  | EvExperimentCreate _ _ (inl e) | EvExperimentLoad _ (inl e)
  | EvExperimentDelete _ (inl e) | EvListTrials _ _ _ (inl e)
  | EvTrialLoad _ (inl e) | EvListTrialComponents _ (inl e)
  | EvRemoveTrialComponent _ _ (inl e) | EvTrialDelete _ (inl e)
  | EvTrialComponentLoad _ (inl e) | EvTrialComponentDelete _ (inl e)
  | EvAnalytics _ _ _ (inl e) | EvFit _ _ _ (inl e) | EvAttach _ (inl e)
  | EvTransformer _ (inl e) | EvTransform _ _ _ _ _ _ (inl e) => Some e
  | _ => None
  end.

Definition is_component_delete {E} (ev : Event E) : bool :=
  match ev with EvTrialComponentDelete _ _ => true | _ => false end.

Definition is_trial_delete {E} (ev : Event E) : bool :=
  match ev with EvTrialDelete _ _ => true | _ => false end.

Definition is_experiment_delete {E} (ev : Event E) : bool :=
  match ev with EvExperimentDelete _ _ => true | _ => false end.

Definition is_component_load {E} (ev : Event E) : bool :=
  match ev with EvTrialComponentLoad _ _ => true | _ => false end.

Definition is_component_listing {E} (ev : Event E) : bool :=
  match ev with EvListTrialComponents _ _ => true | _ => false end.

(** The calls that can follow a failed component deletion: the load of the
    next component, or the deletion of the trial once the loop is over. *)
Definition resumes {E} (ev : Event E) : bool :=
  match ev with
  | EvTrialComponentLoad _ _ | EvTrialDelete _ _ => true
  | _ => false
  end.

(** The name of a recorded call, for reading traces. *)
Definition call_name {E} (ev : Event E) : string :=
  match ev with
  | EvExperimentCreate _ _ _ => "Experiment.create"
  | EvExperimentLoad _ _ => "Experiment.load"
  | EvExperimentDelete _ _ => "experiment.delete"
  | EvListTrials _ _ _ _ => "experiment.list_trials"
  | EvTrialLoad _ _ => "Trial.load"
  | EvListTrialComponents _ _ => "trial.list_trial_components"
  | EvRemoveTrialComponent _ _ _ => "trial.remove_trial_component"
  | EvTrialDelete _ _ => "trial.delete"
  | EvTrialComponentLoad _ _ => "TrialComponent.load"
  | EvTrialComponentDelete _ _ => "tc.delete"
  | EvAnalytics _ _ _ _ => "ExperimentAnalytics"
  | EvFit _ _ _ _ => "estimator.fit"
  | EvAttach _ _ => "TensorFlow.attach"
  | EvTransformer _ _ => "model.transformer"
  | EvTransform _ _ _ _ _ _ _ => "transformer.transform"
  | EvTime _ => "time.time"
  | EvSleep _ => "time.sleep"
  | EvXcomPull _ _ => "xcom_pull"
  | EvXcomPush _ _ => "xcom_push"
  end.

(** [runs m s evs r s']: from [s], [m] makes the calls [evs], ends in [s']
    and returns or raises [r]. *)
Definition runs {W E A} (m : M W E A) (s : St W E) (evs : list (Event E))
    (r : E + A) (s' : St W E) : Prop :=
  m s = (r, s') /\ trace s' = (trace s ++ evs)%list.

Section RunShapes.

Context {E : Type}.

(** How a loop runs, given how its body runs. *)
Inductive loop_run {A} (body_run : A -> list (Event E) -> E + unit -> Prop)
  : list A -> list (Event E) -> E + unit -> Prop :=
| loop_done : loop_run body_run [] [] (inr tt)
| loop_abort x rest evs e :
    body_run x evs (inl e) -> loop_run body_run (x :: rest) evs (inl e)
| loop_next x rest evs evs' r :
    body_run x evs (inr tt) -> loop_run body_run rest evs' r ->
    loop_run body_run (x :: rest) (evs ++ evs') r.

(** How the body of the inner loop of [cleanup] runs on the component [c] of
    the trial [t]. *)
Inductive component_run (t : string) (c : TrialComponentSummary)
  : list (Event E) -> E + unit -> Prop :=
| component_load_raises e :
    component_run t c
      [EvTrialComponentLoad (trial_component_name c) (inl e)] (inl e)
| component_remove_raises e :
    component_run t c
      [EvTrialComponentLoad (trial_component_name c) (inr tt);
       EvRemoveTrialComponent t (trial_component_name c) (inl e)] (inl e)
| component_delete_raises e :
    component_run t c
      [EvTrialComponentLoad (trial_component_name c) (inr tt);
       EvRemoveTrialComponent t (trial_component_name c) (inr tt);
       EvTrialComponentDelete (trial_component_name c) (inl e)] (inr tt)
| component_deleted :
    component_run t c
      [EvTrialComponentLoad (trial_component_name c) (inr tt);
       EvRemoveTrialComponent t (trial_component_name c) (inr tt);
       EvTrialComponentDelete (trial_component_name c) (inr tt);
       EvSleep 500] (inr tt).

(** How the body of the outer loop runs on a trial summary. *)
Inductive trial_run (ts : TrialSummary) : list (Event E) -> E + unit -> Prop :=
| trial_load_raises e :
    trial_run ts [EvTrialLoad (trial_name ts) (inl e)] (inl e)
| trial_list_raises e :
    trial_run ts
      [EvTrialLoad (trial_name ts) (inr tt);
       EvListTrialComponents (trial_name ts) (inl e)] (inl e)
| trial_components_raise cs evs e :
    loop_run (component_run (trial_name ts)) cs evs (inl e) ->
    trial_run ts
      (EvTrialLoad (trial_name ts) (inr tt)
       :: EvListTrialComponents (trial_name ts) (inr cs) :: evs) (inl e)
| trial_delete_called cs evs r :
    loop_run (component_run (trial_name ts)) cs evs (inr tt) ->
    trial_run ts
      (EvTrialLoad (trial_name ts) (inr tt)
       :: EvListTrialComponents (trial_name ts) (inr cs)
       :: evs ++ [EvTrialDelete (trial_name ts) r]) r.

(** How [cleanup] runs on an experiment. *)
Inductive cleanup_run (experiment : Experiment)
  : list (Event E) -> E + unit -> Prop :=
| cleanup_list_raises e :
    cleanup_run experiment
      [EvListTrials (experiment_name experiment) None None (inl e)] (inl e)
| cleanup_trials_raise trials evs e :
    loop_run trial_run trials evs (inl e) ->
    cleanup_run experiment
      (EvListTrials (experiment_name experiment) None None (inr trials) :: evs)
      (inl e)
| cleanup_delete_called trials evs r :
    loop_run trial_run trials evs (inr tt) ->
    cleanup_run experiment
      (EvListTrials (experiment_name experiment) None None (inr trials)
       :: evs ++ [EvExperimentDelete (experiment_name experiment) r]) r.

(** The deletion-ordering property of a trace: a call that deletes a trial
    comes after a listing of the trial's components and a successful removal
    of each listed component from the trial; a call that deletes the
    experiment comes after a listing of its trials and a successful deletion
    of each listed trial. *)
Definition trial_deletes_after_detach (evs : list (Event E)) : Prop :=
  forall pre post t r,
    evs = (pre ++ EvTrialDelete t r :: post)%list ->
    exists cs,
      In (EvListTrialComponents t (inr cs)) pre
      /\ forall c, In c cs ->
           In (EvRemoveTrialComponent t (trial_component_name c) (inr tt)) pre.

Definition experiment_delete_after_trials (evs : list (Event E)) : Prop :=
  forall pre post name r,
    evs = (pre ++ EvExperimentDelete name r :: post)%list ->
    exists trials,
      In (EvListTrials name None None (inr trials)) pre
      /\ forall ts, In ts trials ->
           In (EvTrialDelete (trial_name ts) (inr tt)) pre.

(** A failed component deletion is followed, in [evs] continued by [k], by a
    call that resumes the loop (never by the delay). *)
Definition delete_failures_resume (k evs : list (Event E)) : Prop :=
  forall pre post c e,
    evs = (pre ++ EvTrialComponentDelete c (inl e) :: post)%list ->
    exists ev rest, (post ++ k)%list = ev :: rest /\ resumes ev = true.

(** Where the inner loop goes once it is done with a component of the trial
    [t]: to the load of the component listed next or, when no component is
    left ([rest] is empty), to the deletion of the trial. *)
Definition proceeds_to (t : string) (rest : list TrialComponentSummary)
    (post : list (Event E)) : Prop :=
  match rest with
  | next :: _ =>
      exists r post',
        post = EvTrialComponentLoad (trial_component_name next) r :: post'
  | [] => exists r post', post = EvTrialDelete t r :: post'
  end.

(** A failed component deletion is followed at once by the next step of the
    loop it occurs in.  The loop is the one over the last listing of
    components before the deletion, [done ++ c :: rest], and the component
    whose deletion failed is the [c] the loop has reached: as many components
    were loaded since the listing as [done ++ [c]] has. *)
Definition delete_failures_proceed (evs : list (Event E)) : Prop :=
  forall pre post name e,
    evs = (pre ++ EvTrialComponentDelete name (inl e) :: post)%list ->
    exists pre0 t done c rest since,
      pre = (pre0 ++ EvListTrialComponents t (inr (done ++ c :: rest))
                  :: since)%list
      /\ List.Forall (fun ev => is_component_listing ev = false) since
      /\ length (List.filter is_component_load since) = S (length done)
      /\ trial_component_name c = name
      /\ proceeds_to t rest post.

(** The run stopped on a failed call, other than a component deletion, that
    raised [e]. *)
Definition stopped_by (e : E) (evs : list (Event E)) : Prop :=
  exists pre ev,
    evs = (pre ++ [ev])%list /\ failed ev = Some e
    /\ is_component_delete ev = false.

Definition resumed (k : list (Event E)) : Prop :=
  exists ev rest, k = ev :: rest /\ resumes ev = true.

(** Every failed call of the run other than a component deletion is the
    error the run ends with. *)
Definition failures_fatal (r : E + unit) (evs : list (Event E)) : Prop :=
  forall ev e,
    In ev evs -> failed ev = Some e -> is_component_delete ev = false ->
    r = inl e.

(** A submission carries the [experiment_config] of its task. *)
Definition well_configured (ev : Event E) : Prop :=
  match ev with
  | EvFit _ _ cfg _ => cfg = training_experiment_config
  | EvTransform _ _ _ _ _ cfg _ => cfg = transform_experiment_config
  | _ => True
  end.

End RunShapes.


(** ** Statements tested on concrete runs *)

(** "AssociatedElsewhere is the only error for which Cleanup performs local
    recovery": whenever a call of a cleanup run fails and the run goes on to
    further calls, the error was [AssociatedElsewhere]. *)
Definition recovers_only_from_AssociatedElsewhere : Prop :=
  forall (P : Platform Registry Exn) (experiment : Experiment)
         (s : St Registry Exn) pre ev post e,
    trace (cleanup P experiment s).2 = (trace s ++ pre ++ ev :: post)%list ->
    failed ev = Some e -> post <> [] -> e = AssociatedElsewhere.

(** A registry in which the component of one job is attached to two trials
    of the same experiment. *)
Definition shared_registry : Registry :=
  mkRegistry
    {[ "study" := "a study" ]}
    (<["run-a" := mkTrialRecord "study" "arn:job-1" 1 ["job-1"]]>
       {[ "run-b" := mkTrialRecord "study" "arn:job-1" 2 ["job-1"] ]})
    {[ "job-1" := mkComponentRecord "Training" "arn:job-1" 1 ]}
    ∅ 10 "run-b".

Definition job_1 : TrialComponentSummary :=
  mkTrialComponentSummary "job-1" "Training" "arn:job-1" 1.

Definition study : Experiment := mkExperiment "study" "a study".

(** A registry that rejects component deletions as throttled. *)
Definition throttled : Platform Registry Exn :=
  rejecting_component_deletes reference TransientPlatformError.

(** A registry that rejects the removal of components from trials as
    throttled. *)
Definition throttled_removals : Platform Registry Exn :=
  rejecting_component_removals reference TransientPlatformError.

(** A registry in which one trial has two components. *)
Definition job_2 : TrialComponentSummary :=
  mkTrialComponentSummary "job-2" "Transform" "arn:job-2" 2.

Definition paired_registry : Registry :=
  mkRegistry
    {[ "study" := "a study" ]}
    {[ "run-a" := mkTrialRecord "study" "arn:job-1" 1 ["job-1"; "job-2"] ]}
    (<["job-1" := mkComponentRecord "Training" "arn:job-1" 1]>
       {[ "job-2" := mkComponentRecord "Transform" "arn:job-2" 2 ]})
    ∅ 10 "run-a".

(** The state in which the throttled registry leaves the loop body on the
    first component of that trial. *)
Definition throttled_job_1 : St Registry Exn :=
  (cleanup_component throttled (mkTrial "run-a") job_1
     (start paired_registry)).2.

(** Calls to the tracking registry (smexperiments and the analytics view), as
    opposed to job submissions, the clock and the orchestrator's XCom. *)
Definition is_registry_call {E} (ev : Event E) : bool :=
  match ev with
  | EvExperimentCreate _ _ _ | EvExperimentLoad _ _ | EvExperimentDelete _ _
  | EvListTrials _ _ _ _ | EvTrialLoad _ _ | EvListTrialComponents _ _
  | EvRemoveTrialComponent _ _ _ | EvTrialDelete _ _
  | EvTrialComponentLoad _ _ | EvTrialComponentDelete _ _
  | EvAnalytics _ _ _ _ => true
  | _ => false
  end.

(** "Each of the two task callables returns or exposes an external job
    identifier string for downstream consumption": a task that succeeds
    returns a job identifier or leaves one in the XCom store under its id. *)
Definition tasks_expose_job_identifier : Prop :=
  forall (P : Platform Registry Exn) (region account role date : string)
         (s : St Registry Exn),
    (forall v s', train_op P region account role date s = (inr v, s') ->
       exists job, v = PyStr job \/ xcom s' !! "training" = Some (PyStr job))
    /\ (forall v s', transform_op P region account role date s = (inr v, s') ->
          exists job, v = PyStr job
                      \/ xcom s' !! "transform" = Some (PyStr job)).

(** The notebook's registry right after [Experiment.create], in the
    orchestrator run of the backfill. *)
Definition created_registry : Registry :=
  (reg_experiment_create dag_experiment_name
     "An classification experiment on fashion mnist dataset using tensorflow framework."
     (empty_registry 5000 "backfill_2020-01-01")).2.

(** The state after the training task of that run. *)
Definition after_training : St Registry Exn :=
  (train_op reference "us-east-1" "123456789012" "role" "2020-01-01"
     (start created_registry)).2.

(** ** Requests served by the reference registry *)

(** Everything a client can ask of the reference platform. *)
Inductive Request : Type :=
| ReqExperimentCreate (name desc : string)
| ReqExperimentLoad (name : string)
| ReqExperimentDelete (name : string)
| ReqListTrials (name : string) (sort_by_ sort_order : option string)
| ReqTrialLoad (trial : string)
| ReqListTrialComponents (trial : string)
| ReqRemoveTrialComponent (trial component : string)
| ReqTrialDelete (trial : string)
| ReqTrialComponentLoad (component : string)
| ReqTrialComponentDelete (component : string)
| ReqAnalytics (name : string) (sort_by_ sort_order : option string)
| ReqFit (estimator : TensorFlow) (data : string) (cfg : gmap string string)
| ReqAttach (training_job : PyVal)
| ReqTransformer (t : Transformer)
| ReqTransform (t : Transformer) (data job_name content_type split_type : string)
    (cfg : gmap string string)
| ReqTime
| ReqSleep (ms : Z).

(** The error of an operation's result, if any, and the state it leaves. *)
Definition outcome {A} (res : (Exn + A) * Registry) : option Exn * Registry :=
  (match res.1 with inl e => Some e | inr _ => None end, res.2).

Definition serve (q : Request) (r : Registry) : option Exn * Registry :=
  match q with
  | ReqExperimentCreate name desc => outcome (reg_experiment_create name desc r)
  | ReqExperimentLoad name => outcome (reg_experiment_load name r)
  | ReqExperimentDelete name => outcome (reg_experiment_delete name r)
  | ReqListTrials name sb so => outcome (reg_list_trials name sb so r)
  | ReqTrialLoad t => outcome (reg_trial_load t r)
  | ReqListTrialComponents t => outcome (reg_list_trial_components t r)
  | ReqRemoveTrialComponent t c => outcome (reg_remove_trial_component t c r)
  | ReqTrialDelete t => outcome (reg_trial_delete t r)
  | ReqTrialComponentLoad c => outcome (reg_trial_component_load c r)
  | ReqTrialComponentDelete c => outcome (reg_trial_component_delete c r)
  | ReqAnalytics name sb so => outcome (reg_analytics name sb so r)
  | ReqFit est data cfg => outcome (reg_fit est data cfg r)
  | ReqAttach v => outcome (reg_attach v r)
  | ReqTransformer t => outcome (reg_transformer t r)
  | ReqTransform t data job ct st cfg =>
      outcome (reg_transform t data job ct st cfg r)
  | ReqTime => (None, (reg_time r).2)
  | ReqSleep ms => (None, reg_sleep ms r)
  end.

(** [undeleted name r r']: [r'] is reached from [r] by serving requests none
    of which is a successful deletion of the experiment [name]. *)
Inductive undeleted (name : string) (r : Registry) : Registry -> Prop :=
| undeleted_now : undeleted name r r
| undeleted_later r' q :
    undeleted name r r' ->
    ~ (q = ReqExperimentDelete name /\ (serve q r').1 = None) ->
    undeleted name r (serve q r').2.

(** Modelled from the spec: a Trial belongs to exactly one Experiment; in a
    consistent registry that experiment exists. *)
Definition consistent (r : Registry) : Prop :=
  forall t rec, trials r !! t = Some rec ->
    is_Some (experiments r !! trial_experiment rec).

(** A few requests served after the creation of the notebook's experiment. *)
Definition later_registry : Registry :=
  (serve (ReqExperimentCreate "other" "another study")
     (serve (ReqSleep 500)
        (serve (ReqFit (dag_estimator "role") "s3://bucket/train"
                  training_experiment_config) created_registry).2).2).2.

(** The registry after the DAG run of the notebook. *)
Definition tracked_registry : Registry :=
  world (dag_run reference "us-east-1" "123456789012" "role" "2020-01-01"
           (start created_registry)).2.

Definition notebook_experiment : Experiment :=
  mkExperiment dag_experiment_name
    "An classification experiment on fashion mnist dataset using tensorflow framework.".

(** The state after a complete cleanup of the notebook's experiment. *)
Definition cleaned : St Registry Exn :=
  (cleanup reference notebook_experiment (start tracked_registry)).2.

(** * More of the notebook *)

(** ** Reading traces of [cleanup] *)

(** The delays of a trace, in call order. *)
Definition sleeps {E} (evs : list (Event E)) : list Z :=
  omap (fun ev => match ev with EvSleep ms => Some ms | _ => None end) evs.

(** The components whose deletion succeeded, in call order. *)
Definition deleted_components {E} (evs : list (Event E)) : list string :=
  omap (fun ev => match ev with
                  | EvTrialComponentDelete c (inr _) => Some c
                  | _ => None
                  end) evs.

(** The trials whose deletion succeeded, in call order. *)
Definition deleted_trials {E} (evs : list (Event E)) : list string :=
  omap (fun ev => match ev with
                  | EvTrialDelete t (inr _) => Some t
                  | _ => None
                  end) evs.

(** The calls [cleanup] is written to make: listings, loads, removals and
    deletions in the registry, and the delay. *)
Definition is_cleanup_call {E} (ev : Event E) : bool :=
  match ev with
  | EvListTrials _ None None _ | EvTrialLoad _ _ | EvListTrialComponents _ _
  | EvTrialComponentLoad _ _ | EvRemoveTrialComponent _ _ _
  | EvTrialComponentDelete _ _ | EvSleep _ | EvTrialDelete _ _
  | EvExperimentDelete _ _ => true
  | _ => false
  end.

(** A call that did not fail, or a component deletion. *)
Definition harmless {E} (ev : Event E) : Prop :=
  failed ev = None \/ is_component_delete ev = true.

Section CleanupShapes.

Context {E : Type}.

(** Every attempt to delete a component comes right after a successful load
    of that component and its successful removal from a trial whose listing,
    earlier in the trace, contained it. *)
Definition deletes_only_detached (evs : list (Event E)) : Prop :=
  forall pre post c r,
    evs = (pre ++ EvTrialComponentDelete c r :: post)%list ->
    exists before t cs,
      pre = (before ++ [EvTrialComponentLoad c (inr tt);
                        EvRemoveTrialComponent t c (inr tt)])%list
      /\ In (EvListTrialComponents t (inr cs)) before
      /\ In c (trial_component_name <$> cs).

(** The same inside the loop over the components [cs] of the trial [t],
    where the listing is still to the left of the trace. *)
Definition deletes_listed (t : string) (cs : list TrialComponentSummary)
    (evs : list (Event E)) : Prop :=
  forall pre post c r,
    evs = (pre ++ EvTrialComponentDelete c r :: post)%list ->
    exists before,
      pre = (before ++ [EvTrialComponentLoad c (inr tt);
                        EvRemoveTrialComponent t c (inr tt)])%list
      /\ In c (trial_component_name <$> cs).

(** The deletion of the experiment is the last call of the run, it is made
    on [experiment], its result is the result [r] of the run, and every call
    before it succeeded or was a component deletion. *)
Definition experiment_delete_closes (experiment : Experiment) (r : E + unit)
    (evs : list (Event E)) : Prop :=
  forall pre post name r',
    evs = (pre ++ EvExperimentDelete name r' :: post)%list ->
    post = [] /\ name = experiment_name experiment /\ r' = r
    /\ List.Forall harmless pre.

(** One delay of half a second per deleted component. *)
Definition paced (evs : list (Event E)) : Prop :=
  sleeps evs = replicate (length (deleted_components evs)) 500.

End CleanupShapes.

(** ** Runs of the transform callable *)

Section TransformShapes.

Context {E : Type}.
Variable role : string.

(** How [transform] runs on [data] once [xcom_pull] has yielded [v]: the
    calls it makes after the pull, and what it returns or raises. *)
Inductive transform_run (data : string) (v : PyVal)
  : list (Event E) -> E + PyVal -> Prop :=
| transform_attach_raises e :
    transform_run data v [EvAttach v (inl e)] (inl e)
| transform_model_raises artefact e :
    transform_run data v
      [EvAttach v (inr artefact);
       EvTransformer (dag_transformer (serving_model role artefact)) (inl e)]
      (inl e)
| transform_submit_raises artefact now e :
    transform_run data v
      [EvAttach v (inr artefact);
       EvTransformer (dag_transformer (serving_model role artefact)) (inr tt);
       EvTime now;
       EvTransform (dag_transformer (serving_model role artefact)) data
         (transform_job_name now) "text/csv" "Line"
         transform_experiment_config (inl e)]
      (inl e)
| transform_submitted artefact now :
    transform_run data v
      [EvAttach v (inr artefact);
       EvTransformer (dag_transformer (serving_model role artefact)) (inr tt);
       EvTime now;
       EvTransform (dag_transformer (serving_model role artefact)) data
         (transform_job_name now) "text/csv" "Line"
         transform_experiment_config (inr tt)]
      (inr PyNone).

End TransformShapes.

(** A registry without the notebook's experiment. *)
Definition unprepared_registry : Registry :=
  empty_registry 5000 "backfill_2020-01-01".

(** ** More sample data for the listing cell *)

Definition more_executions : list TrialSummary :=
  [ mkTrialSummary "run-4" {[ "SourceArn" := "arn:training-job/d" ]} 40 ].

(** ** The listing cell on summaries as the SDK hands them over

    [TrialSummary] above keeps, of a summary, a [trial_source] that is a
    dict.  The objects [experiment.list_trials] yields are built by the SDK
    from the service's reply, and [exe.trial_source] need not be a dict
    there; the cell is modelled once more on such summaries. *)

(** What reading an attribute of an SDK object gives.  The SDK sets the
    attributes of a summary from the fields of the service's reply: for a
    field the reply leaves out there is no attribute, or the attribute is
    [None]. *)
Inductive Attribute (A : Type) : Type :=
| Unset
| IsNone
| Holds (a : A).

Arguments Unset {A}.
Arguments IsNone {A}.
Arguments Holds {A}.

(** What the listing cell can raise on such summaries: AttributeError for
    reading an attribute that is not there, TypeError for subscripting
    [None], and the errors of [PyError]. *)
Inductive CellError : Type :=
| AttributeError (attribute : string)
| TypeError (msg : string)
| Raised (e : PyError).

(** A trial summary as [experiment.list_trials] yields it.  [trial_name] and
    [creation_time] are only copied by the cell; [trial_source] is
    subscripted. *)
Record ListedTrial : Type := mkListedTrial {
  listed_name : string;
  listed_source : Attribute (gmap string string);
  listed_time : Timestamp
}.

(** [exe.trial_source['SourceArn']]. *)
Definition source_arn_of (exe : ListedTrial) : CellError + string :=
  match listed_source exe with
  | Unset => raise (AttributeError "trial_source")
  | IsNone => raise (TypeError "'NoneType' object is not subscriptable")
  | Holds d =>
      match subscript d "SourceArn" with
      | inl e => raise (Raised e)
      | inr arn => ok arn
      end
  end.

(** The loop of the listing cell, threading [execs_details]. *)
Fixpoint append_details (executions : list ListedTrial)
    (execs_details : list (list Cell)) : CellError + list (list Cell) :=
  match executions with
  | [] => ok execs_details
  | exe :: rest =>
      match source_arn_of exe with
      | inl e => raise e
      | inr arn =>
          append_details rest
            (execs_details ++ [[CStr (listed_name exe); CStr arn;
                                CTime (listed_time exe)]])
      end
  end.

(** The listing cell: the loop, then [pd.DataFrame(execs_details, columns=...)]. *)
Definition execs_table (executions : list ListedTrial)
  : CellError + DataFrame :=
  match append_details executions [] with
  | inl e => raise e
  | inr execs_details =>
      match pd_DataFrame execs_details ["Name"; "Source"; "CreationTime"] with
      | inl e => raise (Raised e)
      | inr table => ok table
      end
  end.

(** A summary whose [trial_source] is a dict. *)
Definition listed (exe : TrialSummary) : ListedTrial :=
  mkListedTrial (trial_name exe) (Holds (trial_source exe)) (creation_time exe).

(** The summary carries a dict with a 'SourceArn' entry. *)
Definition sourced (exe : ListedTrial) : Prop :=
  exists d, listed_source exe = Holds d /\ is_Some (d !! "SourceArn").

(** One summary with a source, then one of each kind without. *)
Definition sample_listing : list ListedTrial :=
  [ mkListedTrial "run-1" (Holds {[ "SourceArn" := "arn:training-job/a" ]}) 10;
    mkListedTrial "run-2" Unset 20;
    mkListedTrial "run-3" IsNone 30;
    mkListedTrial "run-4" (Holds ∅) 40 ].

(** ** The dataset cells *)

(** A numpy array of [uint8]: its shape and its values in row-major
    order. *)
Record ndarray : Type := mkNdarray {
  shape : list nat;
  values : list Byte.byte
}.

(** [np.frombuffer(buffer, np.uint8, offset=offset)]: the bytes from [offset]
    on, as a one-dimensional array; an offset beyond the end of the buffer is
    a [ValueError]. *)
Definition np_frombuffer (buffer : list Byte.byte) (offset : nat)
  : PyError + ndarray :=
  if (offset <=? length buffer)%nat
  then ok (mkNdarray [(length buffer - offset)%nat] (drop offset buffer))
  else raise (ValueError
                "offset must be non-negative and no greater than buffer length").

(** [len(a)] and [a.shape[0]] of an array with at least one dimension. *)
Definition np_len (a : ndarray) : nat := hd 0%nat (shape a).

(** The product of the dimensions given explicitly in a new shape. *)
Definition known_size (newshape : list Z) : nat :=
  foldr (fun d acc => if decide (d = -1) then acc else (Z.to_nat d * acc)%nat)
        1%nat newshape.

(** [a.reshape(newshape)]: the same values under a new shape.  One
    dimension may be [-1] and is then inferred from the number of values;
    numpy refuses to infer it when the other dimensions multiply to zero or
    do not divide the number of values, and refuses a shape of another
    size. *)
Definition np_reshape (a : ndarray) (newshape : list Z) : PyError + ndarray :=
  let size := length (values a) in
  let known := known_size newshape in
  if existsb (fun d => d <? -1) newshape
  then raise (ValueError "negative dimensions not allowed")
  else
    match length (filter (fun d => d = -1) newshape) with
    | O =>
        if (size =? known)%nat
        then ok (mkNdarray (Z.to_nat <$> newshape) (values a))
        else raise (ValueError "cannot reshape array")
    | S O =>
        if ((known =? 0) || negb (size mod known =? 0))%nat
        then raise (ValueError "cannot reshape array")
        else ok (mkNdarray
                   ((fun d => if decide (d = -1) then (size / known)%nat
                              else Z.to_nat d) <$> newshape)
                   (values a))
    | _ => raise (ValueError "can only specify one unknown dimension")
    end.

(** One [with gzip.open(...)] pair of the dataset cell, on the decompressed
    contents of a label file and of an image file:
    [y = np.frombuffer(labels, np.uint8, offset=8)] and
    [x = np.frombuffer(images, np.uint8, offset=16).reshape(len(y), 28, 28)]. *)
Definition load_pair (labels_file images_file : list Byte.byte)
  : PyError + (ndarray * ndarray) :=
  match np_frombuffer labels_file 8 with
  | inl e => raise e
  | inr y =>
      match np_frombuffer images_file 16 with
      | inl e => raise e
      | inr flat =>
          match np_reshape flat [Z.of_nat (np_len y); 28; 28] with
          | inl e => raise e
          | inr x => ok (y, x)
          end
      end
  end.

(** A label file with its 8-byte header and an image file with a 16-byte
    header followed by 784 bytes for each label. *)
Definition idx_pair (labels_file images_file : list Byte.byte) : Prop :=
  (8 <= length labels_file)%nat
  /\ length images_file = (16 + (length labels_file - 8) * 784)%nat.

(** The dataset cell: the training pair, then the test pair. *)
Definition load_dataset
    (train_labels train_images test_labels test_images : list Byte.byte)
  : PyError + (ndarray * ndarray * ndarray * ndarray) :=
  match load_pair train_labels train_images with
  | inl e => raise e
  | inr (y_train, x_train) =>
      match load_pair test_labels test_images with
      | inl e => raise e
      | inr (y_test, x_test) => ok (y_train, x_train, y_test, x_test)
      end
  end.

(** [x_test_flat = x_test.reshape(x_test.shape[0], -1)]. *)
Definition flatten_images (x_test : ndarray) : PyError + ndarray :=
  np_reshape x_test [Z.of_nat (np_len x_test); -1].

(** The position of the element at a multi-index, in row-major order. *)
Definition flat_index (dims idx : list nat) : nat :=
  foldl (fun acc di => (acc * di.1 + di.2)%nat) 0%nat (zip dims idx).

(** [a[i, j, ...]] with non-negative indices, one per dimension: [None]
    stands for the [IndexError] of an index out of bounds. *)
Definition item (a : ndarray) (idx : list nat) : option Byte.byte :=
  if decide (length idx = length (shape a)
             /\ Forall2 (fun i d => (i < d)%nat) idx (shape a))
  then values a !! flat_index (shape a) idx
  else None.

(** ['%.18e' % v] for an unsigned byte [v]: the first decimal digit, a point,
    the other digits padded with zeros to eighteen places, and the decimal
    exponent on two digits. *)
Definition format_e18 (v : Byte.byte) : string :=
  match pretty (Byte.to_N v) with
  | String d ds =>
      String d ("." ++ ds
                ++ String.concat "" (replicate (18 - String.length ds) "0")
                ++ "e+0" ++ pretty (String.length ds))
  | EmptyString => ""
  end.

(** Cut a list into consecutive rows of [m] values; [fuel] bounds the
    number of rows. *)
Fixpoint rows_of {A} (fuel m : nat) (l : list A) : list (list A) :=
  match fuel with
  | O => []
  | S fuel' => take m l :: rows_of fuel' m (drop m l)
  end.

(** [np.savetxt(fname, X, delimiter=",")]: the lines written, one per row
    of a two-dimensional array (one per element of a one-dimensional one),
    each the fields of the row in the format ['%.18e'] joined by commas;
    other arrays are refused. *)
Definition np_savetxt (X : ndarray) : PyError + list string :=
  match shape X with
  | [n] => ok ((fun v => format_e18 v) <$> values X)
  | [n; m] =>
      ok ((fun row => String.concat "," (format_e18 <$> row))
            <$> rows_of n m (values X))
  | _ => raise (ValueError "Expected 1D or 2D array")
  end.

(** The flatten-and-save cell: the lines of [x_test.csv]. *)
Definition save_test_csv (x_test : ndarray) : PyError + list string :=
  match flatten_images x_test with
  | inl e => raise e
  | inr x_test_flat => np_savetxt x_test_flat
  end.

(** A tiny image file: a 16-byte header and one image whose pixels count up
    from zero, with its label file. *)
Definition tiny_images : list Byte.byte :=
  replicate 16 Byte.x00
  ++ ((fun k => default Byte.x00 (Byte.of_N (N.of_nat (k mod 256))))
        <$> seq 0 784).

Definition tiny_labels : list Byte.byte :=
  replicate 8 Byte.x00 ++ [Byte.x09].

(** The 256 byte values, and the byte a field of the csv file was written
    from, found by formatting each value in turn. *)
Definition all_bytes : list Byte.byte :=
  (fun k => default Byte.x00 (Byte.of_N (N.of_nat k))) <$> seq 0 256.

Definition field_byte (field : string) : option Byte.byte :=
  find (fun v => String.eqb (format_e18 v) field) all_bytes.

(** ** The bucket and upload cells *)

(** [bucket = 'sagemaker-experiments-{}-{}'.format(sess.region_name,
    account_id)] and [prefix = 'fashion-mnist'] of the notebook. *)
Definition bucket (region_name account_id : string) : string :=
  "sagemaker-experiments-" ++ region_name ++ "-" ++ account_id.

Definition data_prefix : string := "fashion-mnist".

(** The [desired_s3_uri] of the two uploads. *)
Definition train_desired_s3_uri (region_name account_id : string) : string :=
  "s3://" ++ bucket region_name account_id ++ "/" ++ data_prefix
  ++ "/data/train".

Definition test_desired_s3_uri (region_name account_id : string) : string :=
  "s3://" ++ bucket region_name account_id ++ "/" ++ data_prefix
  ++ "/data/test".

(** [os.path.basename]: what follows the last slash of a path. *)
Fixpoint basename_from (current path : string) : string :=
  match path with
  | EmptyString => current
  | String c rest =>
      if String.eqb (String c EmptyString) "/" then basename_from rest rest
      else basename_from current rest
  end.

Definition os_path_basename (path : string) : string :=
  basename_from path path.

(** The [local_path] of the test upload. *)
Definition test_local_path : string := "./x_test.csv".
(** * Properties *)

(** ** The listing cell *)

Lemma pd_DataFrame_ok (data : list (list Cell)) (cols : list string) :
  Forall (fun row => length row = length cols) data ->
  pd_DataFrame data cols = inr (mkDataFrame cols data).
Proof.
  intros Hall. unfold pd_DataFrame.
  replace (forallb _ data) with true; [reflexivity|].
  symmetry. apply forallb_forall. intros row Hin.
  rewrite Forall_forall in Hall. apply Nat.eqb_eq, Hall.
  by apply list_elem_of_In.
Qed.

Lemma collect_details_rows (executions : list TrialSummary) :
  Forall has_source executions ->
  forall acc, exists new,
    collect_details executions acc = inr (acc ++ new)%list
    /\ length new = length executions
    /\ Forall (fun row => length row = 3%nat) new
    /\ forall (i : nat) exe, executions !! i = Some exe ->
         exists arn, trial_source exe !! "SourceArn" = Some arn
                     /\ new !! i = Some (row_of exe arn).
Proof.
  induction 1 as [|exe rest [arn Harn] _ IH]; intros acc.
  - exists []. rewrite app_nil_r. repeat split; auto. intros i exe Hi.
    by rewrite lookup_nil in Hi.
  - cbn [collect_details]. unfold subscript. rewrite Harn. cbn.
    destruct (IH (acc ++ [row_of exe arn])%list) as (new & Heq & Hlen & Hshape & Hrows).
    exists (row_of exe arn :: new). repeat split.
    + unfold row_of in *. rewrite Heq. by rewrite <- app_assoc.
    + cbn. by rewrite Hlen.
    + constructor; [reflexivity | assumption].
    + intros [|i] exe' Hi; cbn in Hi |- *.
      * injection Hi as <-. eauto.
      * eauto.
Qed.

(** C2. For every sequence of trial summaries that carry a source reference,
    the listing cell produces a table with one row per summary, with the
    columns Name, Source and CreationTime, whose i-th row holds the i-th
    summary's name, its SourceArn unchanged, and its creation time. *)
Theorem tabulate_rows (executions : list TrialSummary) :
  Forall has_source executions ->
  exists table,
    tabulate executions = inr table
    /\ columns table = ["Name"; "Source"; "CreationTime"]
    /\ length (rows table) = length executions
    /\ forall (i : nat) exe, executions !! i = Some exe ->
         exists arn,
           trial_source exe !! "SourceArn" = Some arn
           /\ rows table !! i
              = Some [CStr (trial_name exe); CStr arn; CTime (creation_time exe)].
Proof.
  intros Hsrc.
  destruct (collect_details_rows executions Hsrc [])
    as (new & Heq & Hlen & Hshape & Hrows).
  cbn [app] in Heq. unfold tabulate. rewrite Heq.
  rewrite pd_DataFrame_ok by exact Hshape.
  eexists. split; [reflexivity|]. cbn. repeat split; auto.
Qed.

(** A summary without a SourceArn makes the subscript raise. *)
Lemma tabulate_missing_source (exe : TrialSummary) (rest : list TrialSummary) :
  trial_source exe !! "SourceArn" = None ->
  tabulate (exe :: rest) = inl (KeyError "SourceArn").
Proof. intros H. unfold tabulate. cbn. unfold subscript. by rewrite H. Qed.

Lemma tabulate_rows_witness :
  Forall has_source sample_executions
  /\ exists table,
       tabulate sample_executions = inr table
       /\ columns table = ["Name"; "Source"; "CreationTime"]
       /\ length (rows table) = length sample_executions
       /\ forall (i : nat) exe, sample_executions !! i = Some exe ->
            exists arn,
              trial_source exe !! "SourceArn" = Some arn
              /\ rows table !! i
                 = Some [CStr (trial_name exe); CStr arn;
                         CTime (creation_time exe)].
Proof.
  assert (H : Forall has_source sample_executions).
  { repeat constructor; eexists; vm_compute; reflexivity. }
  split; [exact H | exact (tabulate_rows sample_executions H)].
Defined.

(** ** Runs and their traces *)

Section Runs.

Context {W E : Type}.

Local Abbreviation Comp := (M W E).

Lemma runs_ret {A} (a : A) (s : St W E) : runs (ret a) s [] (inr a) s.
Proof. split; [reflexivity | by rewrite app_nil_r]. Qed.

Lemma runs_call {A} (ev : E + A -> Event E) (op : Op W E A) (s : St W E) :
  runs (call ev op) s [ev (op (world s)).1] (op (world s)).1
       (mkSt (op (world s)).2 (xcom s) (trace s ++ [ev (op (world s)).1])).
Proof. unfold runs, call. destruct (op (world s)) as [r w]. by cbn. Qed.

Lemma runs_bind_raise {A B} (m : Comp A) (k : A -> Comp B) s evs e s' :
  runs m s evs (inl e) s' -> runs (bind m k) s evs (inl e) s'.
Proof. intros [Hm Ht]. split; [|exact Ht]. unfold bind. by rewrite Hm. Qed.

Lemma runs_bind_return {A B} (m : Comp A) (k : A -> Comp B)
    s evs a s' evs' r s'' :
  runs m s evs (inr a) s' -> runs (k a) s' evs' r s'' ->
  runs (bind m k) s (evs ++ evs') r s''.
Proof.
  intros [Hm Ht] [Hk Ht']. split.
  - unfold bind. by rewrite Hm.
  - by rewrite Ht', Ht, app_assoc.
Qed.

Lemma for_each_runs {A} (body : A -> Comp unit)
    (body_run : A -> list (Event E) -> E + unit -> Prop) :
  (forall x s, exists evs r s', runs (body x) s evs r s' /\ body_run x evs r) ->
  forall l s, exists evs r s',
    runs (for_each l body) s evs r s' /\ loop_run body_run l evs r.
Proof.
  intros Hbody. induction l as [|x rest IH]; intros s.
  - exists [], (inr tt), s. split; [apply runs_ret | constructor].
  - destruct (Hbody x s) as (evs & r & s' & Hrun & Hshape).
    destruct r as [e|[]].
    + exists evs, (inl e), s'. split.
      * cbn [for_each]. by apply runs_bind_raise.
      * by constructor.
    + destruct (IH s') as (evs' & r' & s'' & Hrun' & Hshape').
      exists (evs ++ evs')%list, r', s''. split.
      * cbn [for_each]. eapply runs_bind_return; eauto.
      * by econstructor.
Qed.

End Runs.

(** ** How [cleanup] runs *)

Section CleanupRuns.

Context {W E : Type}.
Variable P : Platform W E.

Ltac step_op op :=
  let r := fresh "r" in
  let w := fresh "w" in
  let Hop := fresh "Hop" in
  destruct op as [r w] eqn:Hop; cbn;
  try (destruct r as [?e|[]]; cbn).

Lemma cleanup_component_runs (trial : Trial) (c : TrialComponentSummary)
    (s : St W E) :
  exists evs r s',
    runs (cleanup_component P trial c) s evs r s'
    /\ component_run (trial_of trial) c evs r.
Proof.
  unfold runs, cleanup_component, TrialComponent_load,
    Trial_remove_trial_component, TrialComponent_delete, try_except, sleep,
    bind, call, ret. cbn.
  step_op (trial_component_load P (trial_component_name c) (world s)).
  { eexists _, _, _. split; [split; [reflexivity|]|]; cbn;
      [reflexivity | constructor]. }
  step_op (trial_remove_trial_component P (trial_of trial)
             (trial_component_name c) w).
  { eexists _, _, _. split; [split; [reflexivity|]|]; cbn;
      [by rewrite <- app_assoc | constructor]. }
  step_op (trial_component_delete P (trial_component_name c) w0).
  - eexists _, _, _. split; [split; [reflexivity|]|]; cbn;
      [by rewrite <- !app_assoc | constructor].
  - eexists _, _, _. split; [split; [reflexivity|]|]; cbn;
      [by rewrite <- !app_assoc | constructor].
Qed.

Lemma cleanup_trial_runs (ts : TrialSummary) (s : St W E) :
  exists evs r s', runs (cleanup_trial P ts) s evs r s' /\ trial_run ts evs r.
Proof.
  unfold cleanup_trial.
  destruct (trial_load P (trial_name ts) (world s)) as [r1 w1] eqn:H1.
  pose proof (runs_call (EvTrialLoad (trial_name ts))
                (trial_load P (trial_name ts)) s) as Hload.
  rewrite H1 in Hload. cbn in Hload.
  destruct r1 as [e|[]].
  { eexists _, _, _. split; [|apply trial_load_raises].
    apply runs_bind_raise. unfold Trial_load. by apply runs_bind_raise. }
  set (s1 := mkSt w1 (xcom s) (trace s ++ [EvTrialLoad (trial_name ts) (inr ())]))
    in Hload.
  assert (Hload' : runs (Trial_load P (trial_name ts)) s
                     [EvTrialLoad (trial_name ts) (inr tt)]
                     (inr (mkTrial (trial_name ts))) s1).
  { unfold Trial_load.
    replace [EvTrialLoad (trial_name ts) (inr tt)]
      with ([EvTrialLoad (trial_name ts) (inr tt)] ++ [] : list (Event E))%list
      by reflexivity.
    eapply runs_bind_return; [exact Hload | apply runs_ret]. }
  pose proof (runs_call (EvListTrialComponents (trial_name ts))
                (trial_list_trial_components P (trial_name ts)) s1) as Hlist.
  destruct (trial_list_trial_components P (trial_name ts) (world s1))
    as [r2 w2] eqn:H2. cbn in Hlist.
  destruct r2 as [e|cs].
  { eexists _, _, _. split; [|apply trial_list_raises].
    eapply (runs_bind_return _ _ _ [_] _ _ [_]); [exact Hload'|].
    apply runs_bind_raise. exact Hlist. }
  match type of Hlist with runs _ _ _ _ ?s2' => set (s2 := s2') in Hlist end.
  destruct (for_each_runs (cleanup_component P (mkTrial (trial_name ts)))
              (component_run (trial_name ts))
              (cleanup_component_runs (mkTrial (trial_name ts))) cs s2)
    as (evs & r3 & s3 & Hloop & Hshape).
  destruct r3 as [e|[]].
  { eexists _, _, _. split; [|apply trial_components_raise; exact Hshape].
    eapply (runs_bind_return _ _ _ [_] _ _ (_ :: _)); [exact Hload'|].
    eapply (runs_bind_return _ _ _ [_] _ _ _); [exact Hlist|].
    apply runs_bind_raise. exact Hloop. }
  pose proof (runs_call (EvTrialDelete (trial_name ts))
                (trial_delete P (trial_name ts)) s3) as Hdel.
  eexists _, _, _. split; [|apply trial_delete_called; exact Hshape].
  eapply (runs_bind_return _ _ _ [_] _ _ (_ :: _)); [exact Hload'|].
  eapply (runs_bind_return _ _ _ [_] _ _ _); [exact Hlist|].
  eapply runs_bind_return; [exact Hloop|]. exact Hdel.
Qed.

(** The calls [cleanup] makes, on every platform and from every state, are
    the ones [cleanup_run] describes. *)
Lemma cleanup_runs (experiment : Experiment) (s : St W E) :
  exists evs,
    runs (cleanup P experiment) s evs (cleanup P experiment s).1
         (cleanup P experiment s).2
    /\ cleanup_run experiment evs (cleanup P experiment s).1.
Proof.
  assert (H : exists evs r s',
             runs (cleanup P experiment) s evs r s'
             /\ cleanup_run experiment evs r).
  { unfold cleanup.
    pose proof (runs_call
                  (EvListTrials (experiment_name experiment) None None)
                  (experiment_list_trials P (experiment_name experiment)
                     None None) s) as Hlist.
    destruct (experiment_list_trials P (experiment_name experiment) None None
                (world s)) as [r1 w1] eqn:H1. cbn in Hlist.
    destruct r1 as [e|trials].
    { eexists _, _, _. split; [|apply cleanup_list_raises].
      apply runs_bind_raise. exact Hlist. }
    match type of Hlist with runs _ _ _ _ ?s1' => set (s1 := s1') in Hlist end.
    destruct (for_each_runs (cleanup_trial P) trial_run cleanup_trial_runs
                trials s1) as (evs & r2 & s2 & Hloop & Hshape).
    destruct r2 as [e|[]].
    { eexists _, _, _. split; [|apply cleanup_trials_raise; exact Hshape].
      eapply (runs_bind_return _ _ _ [_] _ _ _); [exact Hlist|].
      apply runs_bind_raise. exact Hloop. }
    pose proof (runs_call (EvExperimentDelete (experiment_name experiment))
                  (experiment_delete P (experiment_name experiment)) s2)
      as Hdel.
    eexists _, _, _. split; [|apply cleanup_delete_called; exact Hshape].
    eapply (runs_bind_return _ _ _ [_] _ _ _); [exact Hlist|].
    eapply runs_bind_return; [exact Hloop|]. exact Hdel. }
  destruct H as (evs & r & s' & Hrun & Hshape).
  exists evs. destruct Hrun as [Heq Ht]. rewrite Heq. cbn.
  split; [split|]; assumption.
Qed.

End CleanupRuns.

(** ** What the shape of a run implies for its trace *)

Lemma app_cons_split {A} (pre post l1 l2 : list A) (x : A) :
  (pre ++ x :: post = l1 ++ l2)%list ->
  (exists m, l1 = pre ++ x :: m /\ post = m ++ l2)%list
  \/ (exists m, pre = l1 ++ m /\ l2 = m ++ x :: post)%list.
Proof.
  revert pre. induction l1 as [|a l1 IH]; intros pre H.
  - right. exists pre. auto.
  - destruct pre as [|p pre]; cbn in H.
    + injection H as -> ->. left. exists l1. auto.
    + injection H as -> H. destruct (IH _ H) as [(m & -> & ->)|(m & -> & ->)].
      * left. exists m. auto.
      * right. exists m. auto.
Qed.

Lemma Forall_split_elem {A} (Q : A -> Prop) (pre post l : list A) (x : A) :
  List.Forall Q l -> l = (pre ++ x :: post)%list -> Q x.
Proof.
  intros H ->. rewrite List.Forall_forall in H. apply H.
  apply in_or_app. right. by left.
Qed.

Section Traces.

Context {E : Type}.

Implicit Types evs pre post : list (Event E).

(** *** No deletion of a trial or of the experiment inside the inner loop *)

Lemma component_run_calls t c evs (r : E + unit) :
  component_run t c evs r ->
  List.Forall (fun ev => is_trial_delete ev = false
                         /\ is_experiment_delete ev = false) evs.
Proof. destruct 1; repeat constructor. Qed.

Lemma component_loop_calls t cs evs (r : E + unit) :
  loop_run (component_run t) cs evs r ->
  List.Forall (fun ev => is_trial_delete ev = false
                         /\ is_experiment_delete ev = false) evs.
Proof.
  induction 1 as [|c rest evs e Hc|c rest evs evs' r Hc Hrest IH].
  - constructor.
  - eapply component_run_calls; eauto.
  - apply List.Forall_app. split; [eapply component_run_calls; eauto | exact IH].
Qed.

Lemma trial_run_calls ts evs (r : E + unit) :
  trial_run ts evs r ->
  List.Forall (fun ev => is_experiment_delete ev = false) evs.
Proof.
  assert (Hweak : forall l : list (Event E),
             List.Forall (fun ev => is_trial_delete ev = false
                                    /\ is_experiment_delete ev = false) l ->
             List.Forall (fun ev => is_experiment_delete ev = false) l).
  { intros l. apply List.Forall_impl. tauto. }
  destruct 1 as [e|e|cs evs e Hloop|cs evs r Hloop];
    repeat (constructor; [reflexivity|]); try constructor.
  - apply Hweak. eapply component_loop_calls; eauto.
  - apply List.Forall_app. split.
    + apply Hweak. eapply component_loop_calls; eauto.
    + repeat constructor.
Qed.

Lemma trial_loop_calls trials evs (r : E + unit) :
  loop_run trial_run trials evs r ->
  List.Forall (fun ev => is_experiment_delete ev = false) evs.
Proof.
  induction 1 as [|ts rest evs e Hts|ts rest evs evs' r Hts Hrest IH].
  - constructor.
  - eapply trial_run_calls; eauto.
  - apply List.Forall_app. split; [eapply trial_run_calls; eauto | exact IH].
Qed.

(** *** A finished loop has handled every element *)

Lemma component_loop_removes t cs evs :
  loop_run (component_run t) cs evs (inr tt) ->
  forall c, In c cs ->
    In (EvRemoveTrialComponent t (trial_component_name c) (inr tt) : Event E) evs.
Proof.
  remember (inr tt : E + unit) as r eqn:Hr.
  induction 1 as [|c0 rest evs e Hc|c0 rest evs evs' r Hc Hrest IH];
    intros c Hin.
  - destruct Hin.
  - discriminate Hr.
  - apply in_or_app. destruct Hin as [<-|Hin].
    + left. inversion Hc; subst; cbn; auto.
    + right. by apply IH.
Qed.

Lemma trial_loop_deletes trials evs :
  loop_run trial_run trials evs (inr tt) ->
  forall ts, In ts trials ->
    In (EvTrialDelete (trial_name ts) (inr tt) : Event E) evs.
Proof.
  remember (inr tt : E + unit) as r eqn:Hr.
  induction 1 as [|t0 rest evs e Ht|t0 rest evs evs' r Ht Hrest IH];
    intros ts Hin.
  - destruct Hin.
  - discriminate Hr.
  - apply in_or_app. destruct Hin as [<-|Hin].
    + left. inversion Ht; subst. right. right. apply in_or_app. right. by left.
    + right. by apply IH.
Qed.

(** *** Trials are deleted after their components are detached *)

Lemma trial_deletes_after_detach_app evs evs' :
  trial_deletes_after_detach evs -> trial_deletes_after_detach evs' ->
  trial_deletes_after_detach (evs ++ evs').
Proof.
  intros H1 H2 pre post t r Heq. symmetry in Heq.
  apply app_cons_split in Heq as [(m & -> & ->)|(m & -> & ->)].
  - eapply H1. reflexivity.
  - destruct (H2 m post t r eq_refl) as (cs & Hlist & Hrem).
    exists cs. split; [apply in_or_app; by right|].
    intros c Hc. apply in_or_app. right. by apply Hrem.
Qed.

Lemma trial_deletes_after_detach_none evs :
  List.Forall (fun ev => is_trial_delete ev = false) evs ->
  trial_deletes_after_detach evs.
Proof.
  intros Hall pre post t r Heq.
  pose proof (Forall_split_elem _ _ _ _ _ Hall Heq) as Hx. discriminate Hx.
Qed.

Lemma trial_run_deletes_after_detach ts evs (r : E + unit) :
  trial_run ts evs r -> trial_deletes_after_detach evs.
Proof.
  assert (Hweak : forall l : list (Event E),
             List.Forall (fun ev => is_trial_delete ev = false
                                    /\ is_experiment_delete ev = false) l ->
             List.Forall (fun ev => is_trial_delete ev = false) l).
  { intros l. apply List.Forall_impl. tauto. }
  destruct 1 as [e|e|cs evs e Hloop|cs evs r Hloop].
  - apply trial_deletes_after_detach_none. repeat constructor.
  - apply trial_deletes_after_detach_none. repeat constructor.
  - apply trial_deletes_after_detach_none.
    repeat (constructor; [reflexivity|]).
    apply Hweak. eapply component_loop_calls; eauto.
  - intros pre post t r' Heq.
    change (EvTrialLoad (trial_name ts) (inr tt)
            :: EvListTrialComponents (trial_name ts) (inr cs)
            :: evs ++ [EvTrialDelete (trial_name ts) r])%list
      with ((EvTrialLoad (trial_name ts) (inr tt)
             :: EvListTrialComponents (trial_name ts) (inr cs) :: evs)
            ++ [EvTrialDelete (trial_name ts) r])%list in Heq.
    symmetry in Heq.
    apply app_cons_split in Heq as [(m & Heq & _)|(m & -> & Heq)].
    + exfalso.
      assert (Hall : List.Forall (fun ev : Event E => is_trial_delete ev = false)
                       (EvTrialLoad (trial_name ts) (inr tt)
                        :: EvListTrialComponents (trial_name ts) (inr cs)
                        :: evs)).
      { repeat (constructor; [reflexivity|]).
        apply Hweak. eapply component_loop_calls; eauto. }
      pose proof (Forall_split_elem _ _ _ _ _ Hall Heq) as Hx. discriminate Hx.
    + destruct m as [|x m]; cbn in Heq.
      * simplify_eq/=.
        exists cs. rewrite app_nil_r. split; [right; by left|].
        intros c Hc. right. right.
        eapply component_loop_removes; eauto.
      * injection Heq as _ Heq. destruct m; discriminate Heq.
Qed.

Lemma trial_loop_deletes_after_detach trials evs (r : E + unit) :
  loop_run trial_run trials evs r -> trial_deletes_after_detach evs.
Proof.
  induction 1 as [|ts rest evs e Hts|ts rest evs evs' r Hts Hrest IH].
  - apply trial_deletes_after_detach_none. constructor.
  - eapply trial_run_deletes_after_detach; eauto.
  - apply trial_deletes_after_detach_app;
      [eapply trial_run_deletes_after_detach; eauto | exact IH].
Qed.

Lemma cleanup_run_trial_deletes experiment evs (r : E + unit) :
  cleanup_run experiment evs r -> trial_deletes_after_detach evs.
Proof.
  destruct 1 as [e|trials evs e Hloop|trials evs r Hloop].
  - apply trial_deletes_after_detach_none. repeat constructor.
  - apply (trial_deletes_after_detach_app [_]).
    + apply trial_deletes_after_detach_none. repeat constructor.
    + eapply trial_loop_deletes_after_detach; eauto.
  - apply (trial_deletes_after_detach_app [_]).
    + apply trial_deletes_after_detach_none. repeat constructor.
    + apply trial_deletes_after_detach_app.
      * eapply trial_loop_deletes_after_detach; eauto.
      * apply trial_deletes_after_detach_none. repeat constructor.
Qed.

(** *** The experiment is deleted after its trials *)

Lemma cleanup_run_experiment_delete experiment evs (r : E + unit) :
  cleanup_run experiment evs r -> experiment_delete_after_trials evs.
Proof.
  destruct 1 as [e|trials evs e Hloop|trials evs r Hloop];
    intros pre post name r' Heq.
  - destruct pre as [|? [|? ?]]; discriminate Heq.
  - exfalso.
    assert (Hall : List.Forall (fun ev : Event E => is_experiment_delete ev = false)
              (EvListTrials (experiment_name experiment) None None (inr trials)
               :: evs)).
    { constructor; [reflexivity|]. eapply trial_loop_calls; eauto. }
    pose proof (Forall_split_elem _ _ _ _ _ Hall Heq) as Hx. discriminate Hx.
  - change (EvListTrials (experiment_name experiment) None None (inr trials)
            :: evs ++ [EvExperimentDelete (experiment_name experiment) r])%list
      with ((EvListTrials (experiment_name experiment) None None (inr trials)
             :: evs)
            ++ [EvExperimentDelete (experiment_name experiment) r])%list in Heq.
    symmetry in Heq.
    apply app_cons_split in Heq as [(m & Heq & _)|(m & -> & Heq)].
    + exfalso.
      assert (Hall : List.Forall
                (fun ev : Event E => is_experiment_delete ev = false)
                (EvListTrials (experiment_name experiment) None None
                   (inr trials) :: evs)).
      { constructor; [reflexivity|]. eapply trial_loop_calls; eauto. }
      pose proof (Forall_split_elem _ _ _ _ _ Hall Heq) as Hx. discriminate Hx.
    + destruct m as [|x m]; cbn in Heq.
      * simplify_eq/=.
        exists trials. rewrite app_nil_r. split; [by left|].
        intros ts Hts. right. eapply trial_loop_deletes; eauto.
      * injection Heq as _ Heq. destruct m; discriminate Heq.
Qed.

(** *** A failed component deletion is followed by the rest of the loop *)

Lemma delete_failures_resume_app k evs evs' :
  delete_failures_resume (evs' ++ k) evs -> delete_failures_resume k evs' ->
  delete_failures_resume k (evs ++ evs').
Proof.
  intros H1 H2 pre post c e Heq. symmetry in Heq.
  apply app_cons_split in Heq as [(m & -> & ->)|(m & -> & ->)].
  - rewrite <- app_assoc. eapply H1. reflexivity.
  - eapply H2. reflexivity.
Qed.

Lemma delete_failures_resume_none k evs :
  List.Forall (fun ev => match ev with
                         | EvTrialComponentDelete _ (inl _) => False
                         | _ => True
                         end) evs ->
  delete_failures_resume k evs.
Proof.
  intros Hall pre post c e Heq.
  destruct (Forall_split_elem _ _ _ _ _ Hall Heq).
Qed.

Lemma component_run_resumes t c evs (r : E + unit) k :
  component_run t c evs r -> (r = inr tt -> resumed k) ->
  delete_failures_resume k evs.
Proof.
  destruct 1 as [e|e|e|]; intros Hk;
    try (apply delete_failures_resume_none; by repeat constructor).
  intros pre post c' e' Heq.
  destruct pre as [|? [|? [|? [|? ?]]]]; simplify_eq/=.
  destruct (Hk eq_refl) as (ev & rest & -> & Hev). eauto.
Qed.

Lemma component_loop_head t cs evs (r : E + unit) :
  loop_run (component_run t) cs evs r ->
  (evs = [] /\ r = inr tt) \/ resumed evs.
Proof.
  destruct 1 as [|c rest evs e Hc|c rest evs evs' r Hc Hrest]; [by left| |];
    right; inversion Hc; subst; cbn; eexists _, _; (split; [reflexivity|]);
    reflexivity.
Qed.

Lemma component_loop_resumes t cs evs (r : E + unit) :
  loop_run (component_run t) cs evs r ->
  forall k, (r = inr tt -> resumed k) -> delete_failures_resume k evs.
Proof.
  induction 1 as [|c rest evs e Hc|c rest evs evs' r Hc Hrest IH]; intros k Hk.
  - apply delete_failures_resume_none. constructor.
  - eapply component_run_resumes; [exact Hc | discriminate].
  - apply delete_failures_resume_app; [|by apply IH].
    eapply component_run_resumes; [exact Hc|]. intros _.
    destruct (component_loop_head _ _ _ _ Hrest) as [[-> ->]|Hres].
    + by apply Hk.
    + destruct Hres as (ev & rest' & -> & Hev). by eexists _, _.
Qed.

Lemma trial_run_resumes ts evs (r : E + unit) k :
  trial_run ts evs r -> delete_failures_resume k evs.
Proof.
  destruct 1 as [e|e|cs evs e Hloop|cs evs r Hloop].
  - apply delete_failures_resume_none. by repeat constructor.
  - apply delete_failures_resume_none. by repeat constructor.
  - apply (delete_failures_resume_app k [_; _]).
    + apply delete_failures_resume_none. by repeat constructor.
    + eapply component_loop_resumes; [exact Hloop | discriminate].
  - apply (delete_failures_resume_app k [_; _]).
    + apply delete_failures_resume_none. by repeat constructor.
    + apply delete_failures_resume_app.
      * eapply component_loop_resumes; [exact Hloop|]. intros _.
        by eexists _, _.
      * apply delete_failures_resume_none. by repeat constructor.
Qed.

Lemma trial_loop_resumes trials evs (r : E + unit) :
  loop_run trial_run trials evs r ->
  forall k, delete_failures_resume k evs.
Proof.
  induction 1 as [|ts rest evs e Hts|ts rest evs evs' r Hts Hrest IH]; intros k.
  - apply delete_failures_resume_none. constructor.
  - eapply trial_run_resumes; eauto.
  - apply delete_failures_resume_app; [eapply trial_run_resumes; eauto | apply IH].
Qed.

Lemma cleanup_run_resumes experiment evs (r : E + unit) :
  cleanup_run experiment evs r -> delete_failures_resume [] evs.
Proof.
  destruct 1 as [e|trials evs e Hloop|trials evs r Hloop].
  - apply delete_failures_resume_none. by repeat constructor.
  - apply (delete_failures_resume_app [] [_]).
    + apply delete_failures_resume_none. by repeat constructor.
    + eapply trial_loop_resumes; eauto.
  - apply (delete_failures_resume_app [] [_]).
    + apply delete_failures_resume_none. by repeat constructor.
    + apply delete_failures_resume_app.
      * eapply trial_loop_resumes; eauto.
      * apply delete_failures_resume_none. by repeat constructor.
Qed.

(** *** A failed component deletion is followed by the next listed component *)

Lemma proceeds_to_app t rest post k :
  proceeds_to t rest post -> proceeds_to t rest (post ++ k).
Proof.
  destruct rest as [|next rest]; intros (r & post' & ->); cbn; eauto.
Qed.

Lemma component_run_one_load t c evs (r : E + unit) :
  component_run t c evs r ->
  List.Forall (fun ev => is_component_listing ev = false) evs
  /\ (r = inr tt -> length (List.filter is_component_load evs) = 1%nat).
Proof. destruct 1; split; try discriminate; try reflexivity; repeat constructor. Qed.

Lemma component_loop_start t cs evs (r : E + unit) :
  loop_run (component_run t) cs evs r ->
  match cs with
  | next :: _ =>
      exists r' evs',
        evs = EvTrialComponentLoad (trial_component_name next) r' :: evs'
  | [] => evs = [] /\ r = inr tt
  end.
Proof.
  destruct 1 as [|c rest evs e Hc|c rest evs evs' r Hc Hrest]; [by split| |];
    inversion Hc; subst; cbn; eauto.
Qed.

(** Inside the loop over the listed components [cs]. *)
Lemma component_loop_proceeds t cs evs (r : E + unit) :
  loop_run (component_run t) cs evs r ->
  forall pre post name e,
    evs = (pre ++ EvTrialComponentDelete name (inl e) :: post)%list ->
    exists done c rest,
      cs = (done ++ c :: rest)%list
      /\ List.Forall (fun ev => is_component_listing ev = false) pre
      /\ length (List.filter is_component_load pre) = S (length done)
      /\ trial_component_name c = name
      /\ match rest with
         | next :: _ =>
             exists r' post',
               post = EvTrialComponentLoad (trial_component_name next) r'
                      :: post'
         | [] => post = [] /\ r = inr tt
         end.
Proof.
  induction 1 as [|c rest evs e Hc|c rest evs evs' r Hc Hrest IH];
    intros pre post name e' Heq.
  - destruct pre; discriminate Heq.
  - inversion Hc; subst;
      destruct pre as [|? [|? [|? ?]]]; simplify_eq/=.
  - symmetry in Heq.
    apply app_cons_split in Heq as [(m & Hevs & ->)|(m & -> & Hevs')].
    + inversion Hc; subst; destruct pre as [|? [|? [|? [|? [|? ?]]]]]; simplify_eq/=.
      exists [], c, rest. split; [reflexivity|]. split; [by repeat constructor|].
      split; [reflexivity|]. split; [reflexivity|].
      apply component_loop_start in Hrest. destruct rest; exact Hrest.
    + destruct (IH _ _ _ _ Hevs') as (done & c' & rest' & -> & Hno & Hn & Hc' & Hnext).
      destruct (component_run_one_load _ _ _ _ Hc) as [Hno1 Hone].
      exists (c :: done), c', rest'. split; [reflexivity|].
      split; [by apply List.Forall_app|].
      split; [|by split].
      rewrite List.filter_app, length_app, Hone, Hn by reflexivity. reflexivity.
Qed.

Lemma delete_failures_proceed_none evs :
  List.Forall (fun ev => match ev with
                         | EvTrialComponentDelete _ (inl _) => False
                         | _ => True
                         end) evs ->
  delete_failures_proceed evs.
Proof.
  intros Hall pre post c e Heq.
  destruct (Forall_split_elem _ _ _ _ _ Hall Heq).
Qed.

Lemma delete_failures_proceed_app evs evs' :
  delete_failures_proceed evs -> delete_failures_proceed evs' ->
  delete_failures_proceed (evs ++ evs').
Proof.
  intros H1 H2 pre post name e Heq. symmetry in Heq.
  apply app_cons_split in Heq as [(m & -> & ->)|(m & -> & ->)].
  - destruct (H1 _ _ _ _ eq_refl) as (pre0 & t & done & c & rest & since & H).
    destruct H as (-> & Hno & Hn & Hc & Hnext).
    exists pre0, t, done, c, rest, since.
    repeat split; try assumption. by apply proceeds_to_app.
  - destruct (H2 _ _ _ _ eq_refl) as (pre0 & t & done & c & rest & since & H).
    destruct H as (-> & Hno & Hn & Hc & Hnext).
    exists (evs ++ pre0)%list, t, done, c, rest, since.
    rewrite <- app_assoc. by repeat split.
Qed.

Lemma trial_run_proceeds ts evs (r : E + unit) :
  trial_run ts evs r -> delete_failures_proceed evs.
Proof.
  destruct 1 as [e|e|cs evs e Hloop|cs evs r Hloop].
  - apply delete_failures_proceed_none. by repeat constructor.
  - apply delete_failures_proceed_none. by repeat constructor.
  - intros pre post name e' Heq.
    destruct pre as [|? [|? pre]]; simplify_eq/=.
    destruct (component_loop_proceeds _ _ _ _ Hloop _ _ _ _ eq_refl)
      as (done & c & rest & -> & Hno & Hn & Hc & Hnext).
    exists [EvTrialLoad (trial_name ts) (inr tt)], (trial_name ts), done, c, rest, pre.
    repeat split; try assumption.
    destruct rest as [|next rest]; [by destruct Hnext|exact Hnext].
  - intros pre post name e' Heq.
    destruct pre as [|? [|? pre]]; [discriminate Heq..|].
    injection Heq as <- <- Heq. symmetry in Heq.
    apply app_cons_split in Heq as [(m & -> & ->)|(m & -> & Hlast)].
    + destruct (component_loop_proceeds _ _ _ _ Hloop _ _ _ _ eq_refl)
        as (done & c & rest & -> & Hno & Hn & Hc & Hnext).
      exists [EvTrialLoad (trial_name ts) (inr tt)], (trial_name ts), done, c, rest, pre.
      repeat split; try assumption.
      destruct rest as [|next rest].
      * destruct Hnext as [-> _]. cbn. eauto.
      * apply (proceeds_to_app _ (next :: rest)). exact Hnext.
    + destruct m as [|? [|? ?]]; simplify_eq/=.
Qed.

Lemma trial_loop_proceeds trials evs (r : E + unit) :
  loop_run trial_run trials evs r -> delete_failures_proceed evs.
Proof.
  induction 1 as [|ts rest evs e Hts|ts rest evs evs' r Hts Hrest IH].
  - apply delete_failures_proceed_none. constructor.
  - eapply trial_run_proceeds; eauto.
  - apply delete_failures_proceed_app; [eapply trial_run_proceeds; eauto | exact IH].
Qed.

Lemma cleanup_run_proceeds experiment evs (r : E + unit) :
  cleanup_run experiment evs r -> delete_failures_proceed evs.
Proof.
  destruct 1 as [e|trials evs e Hloop|trials evs r Hloop].
  - apply delete_failures_proceed_none. by repeat constructor.
  - apply (delete_failures_proceed_app [_]).
    + apply delete_failures_proceed_none. by repeat constructor.
    + eapply trial_loop_proceeds; eauto.
  - apply (delete_failures_proceed_app [_]).
    + apply delete_failures_proceed_none. by repeat constructor.
    + apply delete_failures_proceed_app.
      * eapply trial_loop_proceeds; eauto.
      * apply delete_failures_proceed_none. by repeat constructor.
Qed.

(** *** A run that raises stopped on a call other than a component deletion *)

Lemma stopped_by_app e evs evs' :
  stopped_by e evs' -> stopped_by e (evs ++ evs').
Proof.
  intros (pre & ev & -> & Hf & Hk). exists (evs ++ pre)%list, ev.
  by rewrite app_assoc.
Qed.

Lemma loop_run_stopped {A}
    (body_run : A -> list (Event E) -> E + unit -> Prop) l evs e :
  (forall x evs, body_run x evs (inl e) -> stopped_by e evs) ->
  loop_run body_run l evs (inl e) -> stopped_by e evs.
Proof.
  intros Hbody. remember (inl e : E + unit) as r eqn:Hr.
  induction 1 as [|x rest evs e' Hx|x rest evs evs' r Hx Hrest IH].
  - discriminate Hr.
  - injection Hr as ->. by eapply Hbody.
  - apply stopped_by_app. by apply IH.
Qed.

Lemma component_run_stopped t c evs e :
  component_run t c evs (inl e) -> stopped_by e evs.
Proof.
  inversion 1; subst.
  - by exists [], (EvTrialComponentLoad (trial_component_name c) (inl e)).
  - by exists [EvTrialComponentLoad (trial_component_name c) (inr tt)],
             (EvRemoveTrialComponent t (trial_component_name c) (inl e)).
Qed.

Lemma trial_run_stopped ts evs e :
  trial_run ts evs (inl e) -> stopped_by e evs.
Proof.
  inversion 1 as [e'|e'|cs evs' e' Hloop|cs evs' r Hloop]; subst.
  - by exists [], (EvTrialLoad (trial_name ts) (inl e)).
  - by exists [EvTrialLoad (trial_name ts) (inr tt)],
             (EvListTrialComponents (trial_name ts) (inl e)).
  - apply (stopped_by_app e [_; _]).
    eapply loop_run_stopped; [|exact Hloop].
    intros x evs. apply component_run_stopped.
  - by exists (EvTrialLoad (trial_name ts) (inr tt)
               :: EvListTrialComponents (trial_name ts) (inr cs) :: evs'),
             (EvTrialDelete (trial_name ts) (inl e)).
Qed.

Lemma cleanup_run_stopped experiment evs e :
  cleanup_run experiment evs (inl e) -> stopped_by e evs.
Proof.
  inversion 1 as [e'|trials evs' e' Hloop|trials evs' r Hloop]; subst.
  - by exists [], (EvListTrials (experiment_name experiment) None None (inl e)).
  - apply (stopped_by_app e [_]).
    eapply loop_run_stopped; [|exact Hloop].
    intros x evs. apply trial_run_stopped.
  - by exists (EvListTrials (experiment_name experiment) None None (inr trials)
               :: evs'),
             (EvExperimentDelete (experiment_name experiment) (inl e)).
Qed.

(** *** Every other failed call is fatal *)

Lemma loop_run_fatal {A}
    (body_run : A -> list (Event E) -> E + unit -> Prop) l evs r :
  (forall x evs r, body_run x evs r -> failures_fatal r evs) ->
  loop_run body_run l evs r -> failures_fatal r evs.
Proof.
  intros Hbody.
  induction 1 as [|x rest evs e Hx|x rest evs evs' r Hx Hrest IH].
  - intros ev e [].
  - by eapply Hbody.
  - intros ev e Hin Hf Hk. apply in_app_or in Hin as [Hin|Hin].
    + pose proof (Hbody _ _ _ Hx ev e Hin Hf Hk) as Habs. discriminate Habs.
    + by eapply IH.
Qed.

Lemma component_run_fatal t c evs (r : E + unit) :
  component_run t c evs r -> failures_fatal r evs.
Proof.
  destruct 1; intros ev e' Hin Hf Hk; cbn in Hin;
    repeat (destruct Hin as [<-|Hin]; [by simplify_eq/=|]); destruct Hin.
Qed.

Lemma trial_run_fatal ts evs (r : E + unit) :
  trial_run ts evs r -> failures_fatal r evs.
Proof.
  destruct 1 as [e|e|cs evs e Hloop|cs evs r Hloop]; intros ev e' Hin Hf Hk.
  - cbn in Hin. destruct Hin as [<-|[]]. by simplify_eq/=.
  - cbn in Hin. destruct Hin as [<-|[<-|[]]]; by simplify_eq/=.
  - destruct Hin as [<-|[<-|Hin]]; [by simplify_eq/=..|].
    eapply loop_run_fatal; [|exact Hloop|exact Hin|exact Hf|exact Hk].
    intros x evs0 r0. apply component_run_fatal.
  - destruct Hin as [<-|[<-|Hin]]; [by simplify_eq/=..|].
    apply in_app_or in Hin as [Hin|[<-|[]]].
    + exfalso.
      assert (Habs : (inr tt : E + unit) = inl e'); [|discriminate Habs].
      eapply loop_run_fatal; [|exact Hloop|exact Hin|exact Hf|exact Hk].
      intros x evs0 r0. apply component_run_fatal.
    + destruct r as [e|[]]; by simplify_eq/=.
Qed.

Lemma cleanup_run_fatal experiment evs (r : E + unit) :
  cleanup_run experiment evs r -> failures_fatal r evs.
Proof.
  destruct 1 as [e|trials evs e Hloop|trials evs r Hloop];
    intros ev e' Hin Hf Hk.
  - cbn in Hin. destruct Hin as [<-|[]]. by simplify_eq/=.
  - destruct Hin as [<-|Hin]; [by simplify_eq/=|].
    eapply loop_run_fatal; [|exact Hloop|exact Hin|exact Hf|exact Hk].
    intros x evs0 r0. apply trial_run_fatal.
  - destruct Hin as [<-|Hin]; [by simplify_eq/=|].
    apply in_app_or in Hin as [Hin|[<-|[]]].
    + exfalso.
      assert (Habs : (inr tt : E + unit) = inl e'); [|discriminate Habs].
      eapply loop_run_fatal; [|exact Hloop|exact Hin|exact Hf|exact Hk].
      intros x evs0 r0. apply trial_run_fatal.
    + destruct r as [e|[]]; by simplify_eq/=.
Qed.

End Traces.

(** ** The cleanup cell: statements *)

(** C5. In every run of [cleanup], on every platform: a call that deletes a
    trial comes after the listing of that trial's components and after a
    successful removal of each listed component from the trial, and the call
    that deletes the experiment comes after the listing of its trials and
    after a successful deletion of each listed trial. *)
Theorem cleanup_deletion_order {W E : Type} (P : Platform W E)
    (experiment : Experiment) (s : St W E) :
  exists evs,
    trace (cleanup P experiment s).2 = (trace s ++ evs)%list
    /\ trial_deletes_after_detach evs
    /\ experiment_delete_after_trials evs.
Proof.
  destruct (cleanup_runs P experiment s) as (evs & [_ Ht] & Hshape).
  exists evs. split; [exact Ht|]. split.
  - eapply cleanup_run_trial_deletes; eauto.
  - eapply cleanup_run_experiment_delete; eauto.
Qed.

(** When the deletion of a loaded and detached component raises, the body of
    the inner loop ends normally in the state the failed deletion left, and
    the three calls are all it has made. *)
Lemma cleanup_component_delete_raises {W E : Type} (P : Platform W E)
    trial c (s : St W E) tc s1 s2 s3 e :
  TrialComponent_load P (trial_component_name c) s = (inr tc, s1) ->
  Trial_remove_trial_component P trial tc s1 = (inr tt, s2) ->
  TrialComponent_delete P tc s2 = (inl e, s3) ->
  cleanup_component P trial c s = (inr tt, s3)
  /\ trace s3
     = (trace s
        ++ [EvTrialComponentLoad (trial_component_name c) (inr tt);
            EvRemoveTrialComponent (trial_of trial) (trial_component_name c)
              (inr tt);
            EvTrialComponentDelete (trial_component_name c) (inl e)])%list.
Proof.
  intros Hload Hrem Hdel. split.
  - unfold cleanup_component, bind, try_except. by rewrite Hload, Hrem, Hdel.
  - revert Hload Hrem Hdel.
    unfold TrialComponent_load, Trial_remove_trial_component,
      TrialComponent_delete, bind, call, ret.
    destruct (trial_component_load P (trial_component_name c) (world s))
      as [[e1|[]] w1]; [discriminate|].
    intros Heq. injection Heq as <- <-. cbn.
    destruct (trial_remove_trial_component P (trial_of trial)
                (trial_component_name c) w1) as [[e2|[]] w2]; [discriminate|].
    intros Heq. injection Heq as <-. cbn.
    destruct (trial_component_delete P (trial_component_name c) w2)
      as [[e3|[]] w3]; [|discriminate].
    intros Heq. injection Heq as <- <-. cbn. by rewrite <- !app_assoc.
Qed.

(** C10. On every platform and for every type of exception.  In the loop over
    the components of a trial: when the deletion of a loaded and detached
    component raises, whatever it raises, the body of the loop ends normally
    in the state the failed deletion left, having made the load, the removal
    and the deletion and no delay, and the loop goes on from that state with
    the components listed after it.  In every run of [cleanup]: a component
    deletion that raises is followed at once by the load of the component
    listed next in the trial or, after the last listed component, by the
    deletion of the trial, never by the delay and never by the end of the
    run; and when the run raises, it stopped on a failed call that is not a
    component deletion. *)
Theorem component_delete_errors_suppressed {W E : Type} (P : Platform W E) :
  (forall trial c rest s tc s1 s2 s3 e,
      TrialComponent_load P (trial_component_name c) s = (inr tc, s1) ->
      Trial_remove_trial_component P trial tc s1 = (inr tt, s2) ->
      TrialComponent_delete P tc s2 = (inl e, s3) ->
      cleanup_component P trial c s = (inr tt, s3)
      /\ trace s3
         = (trace s
            ++ [EvTrialComponentLoad (trial_component_name c) (inr tt);
                EvRemoveTrialComponent (trial_of trial)
                  (trial_component_name c) (inr tt);
                EvTrialComponentDelete (trial_component_name c) (inl e)])%list
      /\ for_each (c :: rest) (cleanup_component P trial) s
         = for_each rest (cleanup_component P trial) s3)
  /\ (forall experiment s,
        exists evs,
          trace (cleanup P experiment s).2 = (trace s ++ evs)%list
          /\ delete_failures_proceed evs
          /\ delete_failures_resume [] evs
          /\ forall e, (cleanup P experiment s).1 = inl e -> stopped_by e evs).
Proof.
  split.
  - intros trial c rest s tc s1 s2 s3 e Hload Hrem Hdel.
    destruct (cleanup_component_delete_raises P _ _ _ _ _ _ _ _ Hload Hrem Hdel)
      as [Hbody Htrace].
    split; [exact Hbody|]. split; [exact Htrace|].
    cbn [for_each]. unfold bind at 1. by rewrite Hbody.
  - intros experiment s.
    destruct (cleanup_runs P experiment s) as (evs & [_ Ht] & Hshape).
    exists evs. split; [exact Ht|]. split; [|split].
    + eapply cleanup_run_proceeds; eauto.
    + eapply cleanup_run_resumes; eauto.
    + intros e He. rewrite He in Hshape. eapply cleanup_run_stopped; eauto.
Qed.

Lemma component_delete_errors_suppressed_witness :
  cleanup_component throttled (mkTrial "run-a") job_1 (start paired_registry)
  = (inr tt, throttled_job_1)
  /\ trace throttled_job_1
     = (trace (start paired_registry)
        ++ [EvTrialComponentLoad (trial_component_name job_1) (inr tt);
            EvRemoveTrialComponent (trial_of (mkTrial "run-a"))
              (trial_component_name job_1) (inr tt);
            EvTrialComponentDelete (trial_component_name job_1)
              (inl TransientPlatformError)])%list
  /\ for_each [job_1; job_2] (cleanup_component throttled (mkTrial "run-a"))
       (start paired_registry)
     = for_each [job_2] (cleanup_component throttled (mkTrial "run-a"))
         throttled_job_1.
Proof.
  refine (proj1 (component_delete_errors_suppressed throttled)
            (mkTrial "run-a") job_1 [job_2] (start paired_registry)
            (mkTrialComponent "job-1") _ _ throttled_job_1
            TransientPlatformError _ _ _);
    vm_compute; reflexivity.
Defined.

(** The calls of [cleanup] on a throttled registry in which one trial has two
    components: the deletion of the first fails and the second is loaded
    next; the deletion of the second fails and the trial is deleted next. *)
Example cleanup_throttled_pair_calls :
  (cleanup throttled study (start paired_registry)).1 = inr tt
  /\ map (fun ev => (call_name ev, failed ev))
         (trace (cleanup throttled study (start paired_registry)).2)
     = [ ("experiment.list_trials", None);
         ("Trial.load", None);
         ("trial.list_trial_components", None);
         ("TrialComponent.load", None);
         ("trial.remove_trial_component", None);
         ("tc.delete", Some TransientPlatformError);
         ("TrialComponent.load", None);
         ("trial.remove_trial_component", None);
         ("tc.delete", Some TransientPlatformError);
         ("trial.delete", None);
         ("experiment.delete", None) ].
Proof. split; vm_compute; reflexivity. Qed.

(** The calls of [cleanup] on a registry in which two trials share one
    component: the first deletion of the component fails and is skipped
    without the delay, the second succeeds and is followed by it. *)
Example cleanup_shared_registry_calls :
  (cleanup reference study (start shared_registry)).1 = inr tt
  /\ map (fun ev => (call_name ev, failed ev))
         (trace (cleanup reference study (start shared_registry)).2)
     = [ ("experiment.list_trials", None);
         ("Trial.load", None);
         ("trial.list_trial_components", None);
         ("TrialComponent.load", None);
         ("trial.remove_trial_component", None);
         ("tc.delete", Some AssociatedElsewhere);
         ("trial.delete", None);
         ("Trial.load", None);
         ("trial.list_trial_components", None);
         ("TrialComponent.load", None);
         ("trial.remove_trial_component", None);
         ("tc.delete", None);
         ("time.sleep", None);
         ("trial.delete", None);
         ("experiment.delete", None) ].
Proof. split; vm_compute; reflexivity. Qed.

(** A failed call of [cleanup] other than a component deletion is fatal, on
    every platform: its error is the one [cleanup] raises. *)
Lemma cleanup_other_failures_fatal {W E : Type} (P : Platform W E)
    experiment (s : St W E) evs ev e :
  trace (cleanup P experiment s).2 = (trace s ++ evs)%list ->
  In ev evs -> failed ev = Some e -> is_component_delete ev = false ->
  (cleanup P experiment s).1 = inl e.
Proof.
  intros Ht Hin Hf Hk.
  destruct (cleanup_runs P experiment s) as (evs' & [_ Ht'] & Hshape).
  rewrite Ht' in Ht. apply app_inv_head in Ht. subst evs'.
  eapply cleanup_run_fatal; eauto.
Qed.

(** C4. [cleanup] on a registry that rejects component deletions as
    throttled, with one component attached to two trials.  The error of
    [tc.delete()] is not [AssociatedElsewhere], the case the handler's comment
    names (a component associated with another trial), yet the bare [except]
    swallows it: [cleanup] returns normally, each failed deletion is followed
    at once by the deletion of the trial, the delay the source keeps against
    throttling is never taken, and the component is still in the registry
    afterwards.  The same error on the call just before,
    [trial.remove_trial_component], is raised by [cleanup].  So
    [AssociatedElsewhere] is not the only error [cleanup] recovers from. *)
Theorem throttled_component_delete_swallowed :
  (cleanup throttled study (start shared_registry)).1 = inr tt
  /\ map (fun ev => (call_name ev, failed ev))
         (trace (cleanup throttled study (start shared_registry)).2)
     = [ ("experiment.list_trials", None);
         ("Trial.load", None);
         ("trial.list_trial_components", None);
         ("TrialComponent.load", None);
         ("trial.remove_trial_component", None);
         ("tc.delete", Some TransientPlatformError);
         ("trial.delete", None);
         ("Trial.load", None);
         ("trial.list_trial_components", None);
         ("TrialComponent.load", None);
         ("trial.remove_trial_component", None);
         ("tc.delete", Some TransientPlatformError);
         ("trial.delete", None);
         ("experiment.delete", None) ]
  /\ components (world (cleanup throttled study (start shared_registry)).2)
       !! "job-1"
     = Some (mkComponentRecord "Training" "arn:job-1" 1)
  /\ (cleanup throttled_removals study (start shared_registry)).1
     = inl TransientPlatformError
  /\ ~ recovers_only_from_AssociatedElsewhere.
Proof.
  repeat split; try (vm_compute; reflexivity).
  intros H.
  set (evs := trace (cleanup throttled study (start shared_registry)).2).
  specialize (H throttled study (start shared_registry)
                (firstn 5 evs)
                (EvTrialComponentDelete "job-1" (inl TransientPlatformError))
                (skipn 6 evs) TransientPlatformError).
  assert (Habs : TransientPlatformError = AssociatedElsewhere);
    [|discriminate Habs].
  apply H; [vm_compute; reflexivity | reflexivity | vm_compute; discriminate].
Qed.

(** ** The task callables *)

Section Tasks.

Context {W E : Type}.
Variable P : Platform W E.
Variables region account role : string.

Lemma train_runs (data : string) (context : Context) (s : St W E) :
  (exists e s',
      train P role data context s = (inl e, s')
      /\ trace s' = (trace s ++ [EvFit (dag_estimator role) data
                                   training_experiment_config (inl e)])%list)
  \/ (exists job s',
         train P role data context s = (inr (PyStr job), s')
         /\ xcom s' = xcom s
         /\ trace s' = (trace s ++ [EvFit (dag_estimator role) data
                                      training_experiment_config (inr job)])%list).
Proof.
  unfold train, bind, call, ret.
  destruct (estimator_fit P (dag_estimator role) data
              training_experiment_config (world s)) as [[e|job] w].
  - left. by eexists _, _.
  - right. by eexists _, _.
Qed.

Lemma train_op_ok date (s s' : St W E) v :
  train_op P region account role date s = (inr v, s') ->
  exists job,
    v = PyStr job
    /\ estimator_fit P (dag_estimator role) (train_input region account)
         training_experiment_config (world s) = (inr job, world s')
    /\ xcom s' = <["training" := PyStr job]> (xcom s).
Proof.
  unfold train_op, PythonOperator, train, xcom_push, bind, call, ret.
  destruct (estimator_fit P (dag_estimator role) (train_input region account)
              training_experiment_config (world s)) as [[e|job] w]; cbn;
    [discriminate|].
  intros H. injection H as <- <-. by exists job.
Qed.

Lemma transform_op_ok date (s s' : St W E) v :
  transform_op P region account role date s = (inr v, s') ->
  exists artefact w1 w2 now w3,
    estimator_attach P (default PyNone (xcom s !! "training")) (world s)
    = (inr artefact, w1)
    /\ model_transformer P (dag_transformer (serving_model role artefact)) w1
       = (inr tt, w2)
    /\ time_time P w2 = (now, w3)
    /\ transformer_transform P (dag_transformer (serving_model role artefact))
         (test_input region account) (transform_job_name now) "text/csv" "Line"
         transform_experiment_config w3 = (inr tt, world s').
Proof.
  unfold transform_op, PythonOperator, transform, xcom_pull, int_time, bind,
    call, ret. cbn.
  destruct (estimator_attach P _ (world s)) as [[e|artefact] w1] eqn:H1; cbn;
    [discriminate|].
  destruct (model_transformer P _ w1) as [[e|[]] w2] eqn:H2; cbn;
    [discriminate|].
  destruct (time_time P w2) as [now w3] eqn:H3; cbn.
  destruct (transformer_transform P _ _ _ _ _ _ w3) as [[e|[]] w4] eqn:H4; cbn;
    [discriminate|].
  intros H. injection H as <- <-. exists artefact, w1, w2, now, w3. auto.
Qed.

(** The submissions of a DAG run, on every platform. *)
Lemma dag_run_submissions date (s : St W E) :
  exists evs,
    trace (dag_run P region account role date s).2 = (trace s ++ evs)%list
    /\ List.Forall well_configured evs.
Proof.
  unfold dag_run, train_op, transform_op, PythonOperator, train, transform,
    xcom_pull, xcom_push, int_time, bind, call, ret. cbn.
  destruct (estimator_fit P _ _ _ (world s)) as [[e|job] w0]; cbn.
  { eexists. split; [reflexivity | by repeat constructor]. }
  destruct (estimator_attach P _ w0) as [[e|artefact] w1]; cbn.
  { eexists. rewrite <- !app_assoc. split; [reflexivity | by repeat constructor]. }
  destruct (model_transformer P _ w1) as [[e|[]] w2]; cbn.
  { eexists. rewrite <- !app_assoc. split; [reflexivity | by repeat constructor]. }
  destruct (time_time P w2) as [now w3]; cbn.
  destruct (transformer_transform P _ _ _ _ _ _ w3) as [[e|[]] w4]; cbn.
  - eexists. rewrite <- !app_assoc. split; [reflexivity | by repeat constructor].
  - eexists. rewrite <- !app_assoc. split; [reflexivity | by repeat constructor].
Qed.

Lemma transform_runs (data : string) (context : Context) (s : St W E) :
  let v := default PyNone (xcom s !! "training") in
  exists ra rest,
    trace (transform P role data context s).2
    = (trace s ++ EvXcomPull "training" v :: EvAttach v ra :: rest)%list
    /\ List.Forall (fun ev => is_registry_call ev = false) rest
    /\ xcom (transform P role data context s).2 = xcom s
    /\ forall x, (transform P role data context s).1 = inr x -> x = PyNone.
Proof.
  intros v. unfold transform, xcom_pull, int_time, bind, call, ret. cbn.
  fold v.
  destruct (estimator_attach P v (world s)) as [[e|artefact] w1]; cbn.
  { eexists _, []. rewrite <- app_assoc.
    repeat split; auto; try (by repeat constructor); discriminate. }
  destruct (model_transformer P _ w1) as [[e|[]] w2]; cbn.
  { eexists _, [_]. rewrite <- !app_assoc.
    repeat split; auto; try (by repeat constructor); discriminate. }
  destruct (time_time P w2) as [now w3]; cbn.
  destruct (transformer_transform P _ _ _ _ _ _ w3) as [[e|[]] w4]; cbn.
  - eexists _, [_; _; _]. rewrite <- !app_assoc.
    repeat split; auto; try (by repeat constructor); discriminate.
  - eexists _, [_; _; _]. rewrite <- !app_assoc.
    repeat split; auto; try (by repeat constructor).
    intros x Hx. by injection Hx as <-.
Qed.

End Tasks.

(** C9, as amended. The training callable takes the data location and the
    run context and returns the identifier of the training job it submitted,
    which the orchestrator keeps for downstream tasks; the transform callable
    takes the same arguments and returns nothing; it obtains the training
    job's identifier from the orchestrator's XCom store and hands exactly that
    value on, and makes no call to the tracking registry. *)
Theorem job_identifier_passing {W E : Type} (P : Platform W E)
    (region account role : string) :
  (forall date s v s',
      train_op P region account role date s = (inr v, s') ->
      exists job,
        v = PyStr job
        /\ xcom s' !! "training" = Some (PyStr job)
        /\ trace s'
           = (trace s
              ++ [EvFit (dag_estimator role) (train_input region account)
                    training_experiment_config (inr job);
                  EvXcomPush "training" (PyStr job)])%list)
  /\ (forall data context s,
         let v := default PyNone (xcom s !! "training") in
         exists ra rest,
           trace (transform P role data context s).2
           = (trace s ++ EvXcomPull "training" v :: EvAttach v ra :: rest)%list
           /\ List.Forall (fun ev => is_registry_call ev = false) rest
           /\ forall x, (transform P role data context s).1 = inr x ->
                x = PyNone)
  /\ (forall date s v s',
         transform_op P region account role date s = (inr v, s') ->
         v = PyNone /\ xcom s' = xcom s).
Proof.
  split; [|split].
  - intros date s v s' Hrun. unfold train_op, PythonOperator, bind in Hrun.
    destruct (train_runs P role (train_input region account)
                (mkContext "training" date) s)
      as [(e & s1 & Heq & _)|(job & s1 & Heq & Hx & Ht)];
      rewrite Heq in Hrun; [discriminate Hrun|].
    cbn in Hrun. injection Hrun as <- <-. exists job. cbn.
    split; [reflexivity|]. split.
    + by rewrite lookup_insert_eq.
    + rewrite Ht. by rewrite <- app_assoc.
  - intros data context s v.
    destruct (transform_runs P role data context s)
      as (ra & rest & Ht & Hall & _ & Hres).
    exists ra, rest. auto.
  - intros date s v s' Hrun. unfold transform_op, PythonOperator, bind in Hrun.
    destruct (transform_runs P role (test_input region account)
                (mkContext "transform" date) s)
      as (ra & rest & _ & _ & Hx & Hres).
    destruct (transform P role (test_input region account)
                (mkContext "transform" date) s) as [[e|x] s1];
      [discriminate Hrun|].
    cbn in Hx, Hres. rewrite (Hres x eq_refl) in Hrun. cbn in Hrun.
    injection Hrun as <- <-. auto.
Qed.

Lemma job_identifier_passing_witness :
  exists job,
    (train_op reference "us-east-1" "123456789012" "role" "2020-01-01"
       (start created_registry)).1 = inr (PyStr job)
    /\ xcom after_training !! "training" = Some (PyStr job)
    /\ (transform_op reference "us-east-1" "123456789012" "role" "2020-01-01"
          after_training).1 = inr PyNone
    /\ xcom (transform_op reference "us-east-1" "123456789012" "role"
               "2020-01-01" after_training).2 = xcom after_training.
Proof.
  pose proof (job_identifier_passing reference "us-east-1" "123456789012"
                "role") as (Htrain & _ & Htransform).
  assert (H1 : train_op reference "us-east-1" "123456789012" "role"
                 "2020-01-01" (start created_registry)
               = (inr (PyStr "fashion-mnist-cnn-5000"), after_training)).
  { vm_compute. reflexivity. }
  destruct (Htrain _ _ _ _ H1) as (job & Hjob & Hx & _).
  exists job. split; [by rewrite H1, Hjob|]. split; [exact Hx|].
  assert (H2 : transform_op reference "us-east-1" "123456789012" "role"
                 "2020-01-01" after_training
               = (inr PyNone,
                  (transform_op reference "us-east-1" "123456789012" "role"
                     "2020-01-01" after_training).2)).
  { vm_compute. reflexivity. }
  destruct (Htransform _ _ _ _ H2) as [_ Hx2].
  split; [by rewrite H2 | exact Hx2].
Defined.

(** C9, as stated, fails for the transform task: it succeeds, returns [None]
    and leaves nothing in the XCom store. *)
Lemma transform_exposes_no_job_identifier : ~ tasks_expose_job_identifier.
Proof.
  intros H.
  destruct (H reference "us-east-1" "123456789012" "role" "2020-01-01"
              after_training) as [_ Htransform].
  destruct (Htransform PyNone
              (transform_op reference "us-east-1" "123456789012" "role"
                 "2020-01-01" after_training).2) as [job [Hjob|Hjob]].
  - vm_compute. reflexivity.
  - discriminate Hjob.
  - vm_compute in Hjob. discriminate Hjob.
Qed.

(** ** The reference registry: experiments *)

Lemma track_experiments component arn cfg (r : Registry) :
  experiments (track component arn cfg r).2 = experiments r.
Proof.
  unfold track.
  destruct (read_experiment_config cfg) as [[name display]|]; [|reflexivity].
  destruct (experiments r !! name); [|reflexivity].
  destruct (components r !! component); [reflexivity|].
  destruct (trials r !! run_trial_name name r); [|reflexivity].
  case_decide; reflexivity.
Qed.

(** Serving a request changes an experiment's record only by deleting it. *)
Lemma serve_keeps_experiment (name desc : string) (q : Request) (r : Registry) :
  experiments r !! name = Some desc ->
  ~ (q = ReqExperimentDelete name /\ (serve q r).1 = None) ->
  experiments (serve q r).2 !! name = Some desc.
Proof.
  intros Hin Hq. destruct q; cbn; try exact Hin.
  - unfold reg_experiment_create.
    destruct (experiments r !! name0) eqn:H0; cbn; [exact Hin|].
    rewrite lookup_insert_ne; [exact Hin | congruence].
  - unfold reg_experiment_load. by destruct (experiments r !! name0).
  - unfold reg_experiment_delete.
    destruct (experiments r !! name0) eqn:H0; cbn; [|exact Hin].
    case_decide as Hdep; cbn; [|exact Hin].
    rewrite lookup_delete_ne; [exact Hin|].
    intros ->. apply Hq. split; [reflexivity|].
    cbn. unfold reg_experiment_delete. rewrite H0.
    by rewrite decide_True.
  - unfold reg_list_trials. by destruct (experiments r !! name0).
  - unfold reg_trial_load. by destruct (trials r !! trial).
  - unfold reg_list_trial_components. by destruct (trials r !! trial).
  - unfold reg_remove_trial_component.
    destruct (trials r !! trial); [|exact Hin].
    by destruct (components r !! component).
  - unfold reg_trial_delete. destruct (trials r !! trial) as [rec|]; [|exact Hin].
    by destruct (trial_components rec).
  - unfold reg_trial_component_load. by destruct (components r !! component).
  - unfold reg_trial_component_delete.
    destruct (components r !! component); [|exact Hin].
    by case_decide.
  - unfold reg_analytics. by destruct (experiments r !! name0).
  - unfold reg_fit.
    pose proof (track_experiments
                  ((base_job_name_of estimator ++ "-" ++ pretty (clock r))
                   ++ "-aws-training-job")
                  ("arn:aws:sagemaker:training-job/"
                   ++ base_job_name_of estimator ++ "-" ++ pretty (clock r))
                  cfg r) as Hexp.
    destruct (track _ _ cfg r) as [[e|[]] r']; cbn in Hexp |- *;
      by rewrite Hexp.
  - unfold reg_attach. destruct training_job; [exact Hin|].
    by destruct (training_jobs r !! s).
  - unfold reg_transform. by rewrite track_experiments.
Qed.

Lemma undeleted_keeps_experiment (name desc : string) (r r' : Registry) :
  experiments r !! name = Some desc -> undeleted name r r' ->
  experiments r' !! name = Some desc.
Proof.
  intros Hin. induction 1 as [|r' q _ IH Hq]; [exact Hin|].
  by apply serve_keeps_experiment.
Qed.

Lemma Experiment_create_ok (name desc : string) (s s1 : St Registry Exn)
    (experiment : Experiment) :
  Experiment_create reference name desc s = (inr experiment, s1) ->
  experiment = mkExperiment name desc
  /\ experiments (world s1) !! name = Some desc.
Proof.
  unfold Experiment_create, bind, call, ret. cbn.
  unfold reg_experiment_create.
  destruct (experiments (world s) !! name); cbn; [discriminate|].
  intros H. injection H as <- <-. cbn. by rewrite lookup_insert_eq.
Qed.

(** C6. If [Experiment.create(n, d)] succeeds, then a later
    [Experiment.load(n)], after any requests that do not delete the
    experiment, returns the experiment with name [n] and description [d]. *)
Theorem create_load_round_trip (n d : string) (s s1 s2 : St Registry Exn)
    (experiment : Experiment) :
  Experiment_create reference n d s = (inr experiment, s1) ->
  undeleted n (world s1) (world s2) ->
  exists loaded,
    (Experiment_load reference n s2).1 = inr loaded
    /\ experiment_name loaded = n
    /\ experiment_description loaded = d
    /\ loaded = experiment.
Proof.
  intros Hcreate Hlater.
  destruct (Experiment_create_ok _ _ _ _ _ Hcreate) as [-> Hin].
  pose proof (undeleted_keeps_experiment _ _ _ _ Hin Hlater) as Hin2.
  exists (mkExperiment n d).
  unfold Experiment_load, bind, call, ret. cbn.
  unfold reg_experiment_load. rewrite Hin2. auto.
Qed.

(** C7. If [Experiment.create(n, d)] succeeds and the experiment is not
    deleted afterwards, a second [Experiment.create(n, d')] fails with
    [AlreadyExists] and leaves the registry as it was. *)
Theorem create_twice_already_exists (n d d' : string)
    (s s1 s2 : St Registry Exn) (experiment : Experiment) :
  Experiment_create reference n d s = (inr experiment, s1) ->
  undeleted n (world s1) (world s2) ->
  (Experiment_create reference n d' s2).1 = inl AlreadyExists
  /\ world (Experiment_create reference n d' s2).2 = world s2.
Proof.
  intros Hcreate Hlater.
  destruct (Experiment_create_ok _ _ _ _ _ Hcreate) as [_ Hin].
  pose proof (undeleted_keeps_experiment _ _ _ _ Hin Hlater) as Hin2.
  unfold Experiment_create, bind, call, ret. cbn.
  unfold reg_experiment_create. rewrite Hin2. auto.
Qed.

Lemma later_registry_undeleted :
  undeleted dag_experiment_name created_registry later_registry.
Proof.
  unfold later_registry.
  repeat (apply undeleted_later; [|intros [Hq _]; discriminate Hq]).
  apply undeleted_now.
Qed.

Lemma create_load_round_trip_witness :
  exists loaded,
    (Experiment_load reference dag_experiment_name (start later_registry)).1
    = inr loaded
    /\ experiment_name loaded = dag_experiment_name
    /\ experiment_description loaded
       = experiment_description notebook_experiment
    /\ loaded = notebook_experiment.
Proof.
  refine (create_load_round_trip dag_experiment_name
            (experiment_description notebook_experiment)
            (start (empty_registry 5000 "backfill_2020-01-01"))
            (Experiment_create reference dag_experiment_name
               (experiment_description notebook_experiment)
               (start (empty_registry 5000 "backfill_2020-01-01"))).2
            (start later_registry) notebook_experiment _ _).
  - vm_compute. reflexivity.
  - exact later_registry_undeleted.
Defined.

Lemma create_twice_already_exists_witness :
  (Experiment_create reference dag_experiment_name "again"
     (start later_registry)).1 = inl AlreadyExists
  /\ world (Experiment_create reference dag_experiment_name "again"
              (start later_registry)).2 = later_registry.
Proof.
  refine (create_twice_already_exists dag_experiment_name
            (experiment_description notebook_experiment) "again"
            (start (empty_registry 5000 "backfill_2020-01-01"))
            (Experiment_create reference dag_experiment_name
               (experiment_description notebook_experiment)
               (start (empty_registry 5000 "backfill_2020-01-01"))).2
            (start later_registry) notebook_experiment _ _).
  - vm_compute. reflexivity.
  - exact later_registry_undeleted.
Defined.

(** ** The reference registry: cleanup twice *)

Lemma Experiment_delete_ok (experiment : Experiment) (s s1 : St Registry Exn) :
  Experiment_delete reference experiment s = (inr tt, s1) ->
  experiments (world s1) !! experiment_name experiment = None.
Proof.
  unfold Experiment_delete, call. cbn. unfold reg_experiment_delete.
  destruct (experiments (world s) !! experiment_name experiment); cbn;
    [|discriminate].
  case_decide; cbn; [|discriminate].
  intros Heq. injection Heq as <-. cbn. apply lookup_delete_eq.
Qed.

Lemma cleanup_ok_deletes (experiment : Experiment) (s s1 : St Registry Exn) :
  cleanup reference experiment s = (inr tt, s1) ->
  experiments (world s1) !! experiment_name experiment = None.
Proof.
  unfold cleanup, bind.
  destruct (Experiment_list_trials reference experiment None None s)
    as [[e|trials] s']; [discriminate|].
  destruct (for_each trials (cleanup_trial reference) s') as [[e|[]] s''];
    [discriminate|].
  apply Experiment_delete_ok.
Qed.

(** C8. After a complete run of [cleanup] on an experiment, a second run
    fails with [NotFound] on its first call, the listing of the trials, makes
    no other call and leaves the registry as the first run left it. *)
Theorem cleanup_twice_not_found (experiment : Experiment)
    (s s1 s2 : St Registry Exn) :
  cleanup reference experiment s = (inr tt, s1) ->
  world s2 = world s1 ->
  cleanup reference experiment s2
  = (inl NotFound,
     mkSt (world s1) (xcom s2)
       (trace s2
        ++ [EvListTrials (experiment_name experiment) None None
              (inl NotFound)])).
Proof.
  intros Hfirst Hw. apply cleanup_ok_deletes in Hfirst.
  unfold cleanup, bind, Experiment_list_trials, call. cbn.
  unfold reg_list_trials. rewrite Hw, Hfirst. reflexivity.
Qed.

Lemma world_start (r : Registry) : world (start r) = r.
Proof. reflexivity. Qed.

Lemma cleanup_twice_not_found_witness :
  cleanup reference notebook_experiment (start tracked_registry)
  = (inr tt, cleaned)
  /\ cleanup reference notebook_experiment (start (world cleaned))
     = (inl NotFound,
        mkSt (world cleaned) (xcom (start (world cleaned)))
          (trace (start (world cleaned))
           ++ [EvListTrials (experiment_name notebook_experiment) None None
                 (inl NotFound)])).
Proof.
  assert (Hfirst : cleanup reference notebook_experiment (start tracked_registry)
                   = (inr tt, cleaned)).
  { vm_compute. reflexivity. }
  split; [exact Hfirst|].
  exact (cleanup_twice_not_found notebook_experiment (start tracked_registry)
           cleaned (start (world cleaned)) Hfirst (world_start (world cleaned))).
Defined.

(** ** The reference registry: trials belong to existing experiments *)

Lemma consistent_empty (now : Z) (run : string) :
  consistent (empty_registry now run).
Proof. intros t rec Ht. cbn in Ht. by rewrite lookup_empty in Ht. Qed.

Lemma consistent_same (r r' : Registry) :
  experiments r' = experiments r -> trials r' = trials r ->
  consistent r -> consistent r'.
Proof. intros He Ht H t rec. rewrite He, Ht. apply H. Qed.

Lemma track_consistent component arn cfg (r : Registry) :
  consistent r -> consistent (track component arn cfg r).2.
Proof.
  intros H. unfold track.
  destruct (read_experiment_config cfg) as [[name display]|]; [|exact H].
  destruct (experiments r !! name) as [desc|] eqn:Hexp; [|exact H].
  destruct (components r !! component); [exact H|].
  destruct (trials r !! run_trial_name name r) as [old|] eqn:Hold.
  - case_decide as Hold'; [|exact H]. intros t rec. cbn.
    destruct (decide (run_trial_name name r = t)) as [<-|Hne].
    + rewrite lookup_insert_eq. intros Heq. injection Heq as <-. cbn. eauto.
    + rewrite lookup_insert_ne by exact Hne. apply H.
  - intros t rec. cbn.
    destruct (decide (run_trial_name name r = t)) as [<-|Hne].
    + rewrite lookup_insert_eq. intros Heq. injection Heq as <-. cbn. eauto.
    + rewrite lookup_insert_ne by exact Hne. apply H.
Qed.

(** Serving a request keeps every trial attached to an existing experiment. *)
Lemma serve_consistent (q : Request) (r : Registry) :
  consistent r -> consistent (serve q r).2.
Proof.
  intros H. destruct q; cbn; try exact H.
  - unfold reg_experiment_create.
    destruct (experiments r !! name) eqn:Hn; cbn; [exact H|].
    intros t rec Ht. cbn in *.
    destruct (decide (name = trial_experiment rec)) as [<-|Hne].
    + rewrite lookup_insert_eq. eauto.
    + rewrite lookup_insert_ne by exact Hne. by eapply H.
  - unfold reg_experiment_load. by destruct (experiments r !! name).
  - unfold reg_experiment_delete.
    destruct (experiments r !! name) eqn:Hn; cbn; [|exact H].
    case_decide as Hnone; cbn; [|exact H].
    intros t rec Ht. cbn in *.
    rewrite lookup_delete_ne; [by eapply H|].
    intros Heq.
    assert (Hin : trials_of name r !! t = Some rec).
    { unfold trials_of. apply map_lookup_filter_Some. auto. }
    rewrite Hnone in Hin. by rewrite lookup_empty in Hin.
  - unfold reg_list_trials. by destruct (experiments r !! name).
  - unfold reg_trial_load. by destruct (trials r !! trial).
  - unfold reg_list_trial_components. by destruct (trials r !! trial).
  - unfold reg_remove_trial_component.
    destruct (trials r !! trial) as [old|] eqn:Hold; [|exact H].
    destruct (components r !! component); [|exact H].
    intros t rec. cbn.
    destruct (decide (trial = t)) as [<-|Hne].
    + rewrite lookup_insert_eq. intros Heq. injection Heq as <-. cbn.
      by eapply H.
    + rewrite lookup_insert_ne by exact Hne. apply H.
  - unfold reg_trial_delete.
    destruct (trials r !! trial) as [old|] eqn:Hold; [|exact H].
    destruct (trial_components old); [|exact H].
    intros t rec. cbn. intros Ht. apply lookup_delete_Some in Ht as [_ Ht].
    by eapply H.
  - unfold reg_trial_component_load. by destruct (components r !! component).
  - unfold reg_trial_component_delete.
    destruct (components r !! component); [|exact H].
    by case_decide.
  - unfold reg_analytics. by destruct (experiments r !! name).
  - unfold reg_fit.
    pose proof (track_consistent
                  ((base_job_name_of estimator ++ "-" ++ pretty (clock r))
                   ++ "-aws-training-job")
                  ("arn:aws:sagemaker:training-job/"
                   ++ base_job_name_of estimator ++ "-" ++ pretty (clock r))
                  cfg r H) as Hc.
    destruct (track _ _ cfg r) as [[e|[]] r']; cbn in Hc |- *; exact Hc.
  - unfold reg_attach. destruct training_job; [exact H|].
    by destruct (training_jobs r !! s).
  - unfold reg_transform. by apply track_consistent.
Qed.

Lemma created_has_no_trials (name desc : string) (r r' : Registry) :
  consistent r ->
  reg_experiment_create name desc r = (inr tt, r') ->
  trials_of name r' = ∅.
Proof.
  intros H. unfold reg_experiment_create.
  destruct (experiments r !! name) eqn:Hn; [discriminate|].
  intros Heq. injection Heq as <-. unfold trials_of. cbn.
  apply map_empty. intros t. apply map_lookup_filter_None. right.
  intros rec Ht Hrec. cbn in Hrec. destruct (H t rec Ht) as [d Hd].
  rewrite Hrec, Hn in Hd. discriminate Hd.
Qed.

(** ** The reference registry: ordering by creation time *)

Section Ordering.

Context {A : Type} (key : A -> Z).

Lemma insert_by_perm (x : A) (l : list A) :
  Permutation (insert_by key x l) (x :: l).
Proof.
  induction l as [|y rest IH]; cbn; [reflexivity|].
  destruct (key x <=? key y); [reflexivity|].
  rewrite IH. apply perm_swap.
Qed.

Lemma sort_by_perm (l : list A) : Permutation (sort_by key l) l.
Proof.
  induction l as [|x rest IH]; cbn; [reflexivity|].
  rewrite insert_by_perm. by constructor.
Qed.

Lemma insert_by_sorted (x : A) (l : list A) :
  StronglySorted (fun a b => key a <= key b) l ->
  StronglySorted (fun a b => key a <= key b) (insert_by key x l).
Proof.
  induction 1 as [|y rest Hrest IH Hy]; cbn.
  - repeat constructor.
  - destruct (key x <=? key y) eqn:Hle.
    + apply Z.leb_le in Hle. constructor; [by constructor|].
      constructor; [exact Hle|].
      eapply List.Forall_impl; [|exact Hy]. intros a Ha. cbn in Ha. lia.
    + apply Z.leb_gt in Hle. constructor; [exact IH|].
      eapply Permutation_Forall; [symmetry; apply insert_by_perm|].
      constructor; [lia | exact Hy].
Qed.

(** A listing ordered by creation time is sorted, oldest first. *)
Lemma sort_by_sorted (l : list A) :
  StronglySorted (fun a b => key a <= key b) (sort_by key l).
Proof.
  induction l as [|x rest IH]; cbn; [constructor|].
  by apply insert_by_sorted.
Qed.

End Ordering.

(** Listing an experiment's trials, ascending, yields exactly the trials that
    reference the experiment, sorted by creation time. *)
Lemma reg_list_trials_sorted (name : string) (r : Registry)
    (listed : list TrialSummary) :
  (reg_list_trials name (Some "CreationTime") (Some "Ascending") r).1
  = inr listed ->
  StronglySorted (fun a b => creation_time a <= creation_time b) listed
  /\ Permutation listed (summary_of_trial <$> map_to_list (trials_of name r)).
Proof.
  unfold reg_list_trials. destruct (experiments r !! name); [|discriminate].
  cbn. intros Heq. injection Heq as <-.
  split; [apply sort_by_sorted | apply sort_by_perm].
Qed.

(** ** The reference platform: a tracked DAG run *)

Lemma read_training_config :
  read_experiment_config training_experiment_config
  = Some (dag_experiment_name, "Training").
Proof. vm_compute. reflexivity. Qed.

Lemma read_transform_config :
  read_experiment_config transform_experiment_config
  = Some (dag_experiment_name, "Transform").
Proof. vm_compute. reflexivity. Qed.

Lemma track_ok component arn cfg name display (r r' : Registry) :
  read_experiment_config cfg = Some (name, display) ->
  track component arn cfg r = (inr tt, r') ->
  is_Some (experiments r !! name)
  /\ components r !! component = None
  /\ experiments r' = experiments r
  /\ training_jobs r' = training_jobs r
  /\ current_run r' = current_run r
  /\ clock r' = 1 + clock r
  /\ components r'
     = <[component := mkComponentRecord display arn (clock r)]> (components r)
  /\ match trials r !! run_trial_name name r with
     | None =>
         trials r'
         = <[run_trial_name name r
             := mkTrialRecord name arn (clock r) [component]]> (trials r)
     | Some rec =>
         trial_experiment rec = name
         /\ trials r'
            = <[run_trial_name name r
                := mkTrialRecord (trial_experiment rec) (trial_source_arn rec)
                     (trial_created rec)
                     (trial_components rec ++ [component])]> (trials r)
     end.
Proof.
  intros Hcfg. unfold track. rewrite Hcfg.
  destruct (experiments r !! name) as [desc|] eqn:Hexp; [|discriminate].
  destruct (components r !! component) eqn:Hc; [discriminate|].
  destruct (trials r !! run_trial_name name r) as [rec|] eqn:Ht.
  - case_decide as Hrec; [|discriminate].
    intros Heq. injection Heq as <-. cbn. eauto 10.
  - intros Heq. injection Heq as <-. cbn. eauto 10.
Qed.

Lemma fresh_trial_name name (r : Registry) rec :
  trials_of name r = ∅ -> trials r !! run_trial_name name r = Some rec ->
  trial_experiment rec <> name.
Proof.
  intros Hnone Hsome Heq.
  assert (Hin : trials_of name r !! run_trial_name name r = Some rec).
  { unfold trials_of. apply map_lookup_filter_Some. auto. }
  rewrite Hnone in Hin. by rewrite lookup_empty in Hin.
Qed.

Lemma dag_run_tracked region account role date (s s' : St Registry Exn) :
  trials_of dag_experiment_name (world s) = ∅ ->
  dag_run reference region account role date s = (inr tt, s') ->
  let r := world s in
  let job := base_job_name ++ "-" ++ pretty (clock r) in
  let c1 := job ++ "-aws-training-job" in
  let arn1 := "arn:aws:sagemaker:training-job/" ++ job in
  exists c2 arn2,
    c1 <> c2
    /\ is_Some (experiments r !! dag_experiment_name)
    /\ experiments (world s') = experiments r
    /\ trials (world s')
       = <[run_trial_name dag_experiment_name r
           := mkTrialRecord dag_experiment_name arn1 (clock r) [c1; c2]]>
           (trials r)
    /\ components (world s')
       = <[c2 := mkComponentRecord "Transform" arn2 (1 + clock r)]>
           (<[c1 := mkComponentRecord "Training" arn1 (clock r)]>
              (components r)).
Proof.
  intros Hfresh Hrun r job c1 arn1. unfold dag_run, bind in Hrun.
  destruct (train_op reference region account role date s) as [[e|v] s1]
    eqn:Htrain; [discriminate|].
  destruct (transform_op reference region account role date s1)
    as [[e|v2] s2] eqn:Htransform; [discriminate|].
  injection Hrun as <-.
  apply train_op_ok in Htrain as (job' & -> & Hfit & Hx).
  apply transform_op_ok in Htransform
    as (artefact & w1 & w2 & now & w3 & Hattach & Hmodel & Htime & Hsubmit).
  change (estimator_fit reference) with reg_fit in Hfit.
  change (transformer_transform reference) with reg_transform in Hsubmit.
  change (time_time reference) with reg_time in Htime.
  change (model_transformer reference) with reg_transformer in Hmodel.
  change (estimator_attach reference) with reg_attach in Hattach.
  unfold reg_fit in Hfit.
  change (base_job_name_of (dag_estimator role)) with base_job_name in Hfit.
  fold r job c1 arn1 in Hfit.
  destruct (track c1 arn1 training_experiment_config r) as [[e|[]] r1]
    eqn:Htrack; [discriminate|].
  injection Hfit as _ Hw1.
  destruct (track_ok _ _ _ _ _ _ _ read_training_config Htrack)
    as (Hexp & Hc1 & He1 & Hj1 & Hrun1 & Hclock1 & Hcomp1 & Htrials1).
  destruct (trials r !! run_trial_name dag_experiment_name r) as [rec|] eqn:Hold.
  { destruct Htrials1 as [Hrec _].
    destruct (fresh_trial_name _ _ _ Hfresh Hold Hrec). }
  unfold reg_transformer in Hmodel. injection Hmodel as <-.
  unfold reg_time in Htime. injection Htime as _ <-.
  assert (Hw : w1 = world s1).
  { unfold reg_attach in Hattach.
    destruct (default PyNone (xcom s1 !! "training")); [by injection Hattach|].
    destruct (training_jobs (world s1) !! s0); by injection Hattach. }
  subst w1. unfold reg_transform in Hsubmit.
  destruct (track_ok _ _ _ _ _ _ _ read_transform_config Hsubmit)
    as (_ & Hc2 & He2 & _ & _ & _ & Hcomp2 & Htrials2).
  rewrite <- Hw1 in Hc2, He2, Hcomp2, Htrials2.
  change (components (with_training_jobs ?f r1)) with (components r1)
    in Hc2, Hcomp2.
  change (experiments (with_training_jobs ?f r1)) with (experiments r1) in He2.
  change (clock (with_training_jobs ?f r1)) with (clock r1) in Hcomp2.
  change (trials (with_training_jobs ?f r1)) with (trials r1) in Htrials2.
  change (run_trial_name dag_experiment_name (with_training_jobs ?f r1))
    with (dag_experiment_name ++ "-" ++ current_run r1) in Htrials2.
  rewrite Hrun1 in Htrials2.
  change (dag_experiment_name ++ "-" ++ current_run r)
    with (run_trial_name dag_experiment_name r) in Htrials2.
  rewrite Htrials1, lookup_insert_eq in Htrials2.
  destruct Htrials2 as [_ Htrials2]. cbn in Htrials2.
  rewrite insert_insert_eq in Htrials2.
  rewrite Hcomp1, Hclock1 in Hcomp2. rewrite Hcomp1 in Hc2.
  eexists _, _. split; [|split; [exact Hexp|split; [congruence|split;
    [exact Htrials2 | exact Hcomp2]]]].
  intros Heq. rewrite <- Heq in Hc2. by rewrite lookup_insert_eq in Hc2.
Qed.

Lemma tracked_trials_of (name : string) (r r' : Registry) rec :
  trials_of name r = ∅ ->
  trials r' = <[run_trial_name name r := rec]> (trials r) ->
  trial_experiment rec = name ->
  map_to_list (trials_of name r') = [(run_trial_name name r, rec)].
Proof.
  intros Hfresh Htrials Hrec. unfold trials_of in *. rewrite Htrials.
  rewrite map_filter_insert_True by exact Hrec.
  rewrite Hfresh, insert_empty. apply map_to_list_singleton.
Qed.

Lemma tracked_components (r' : Registry) (c1 c2 : string)
    (rec1 rec2 : ComponentRecord) (m : gmap string ComponentRecord) :
  c1 <> c2 ->
  components r' = <[c2 := rec2]> (<[c1 := rec1]> m) ->
  component_created rec1 <= component_created rec2 ->
  sort_by component_creation_time (omap (summary_of_component r') [c1; c2])
  = [ mkTrialComponentSummary c1 (component_display_name rec1)
        (component_source_arn rec1) (component_created rec1);
      mkTrialComponentSummary c2 (component_display_name rec2)
        (component_source_arn rec2) (component_created rec2) ].
Proof.
  intros Hne Hcomp Hle. cbn [omap list_omap]. unfold summary_of_component.
  rewrite Hcomp. rewrite lookup_insert_ne by congruence.
  rewrite !lookup_insert_eq. cbn.
  apply Z.leb_le in Hle. by rewrite Hle.
Qed.

Lemma remove_dups_pair (c1 c2 : string) :
  c1 <> c2 -> remove_dups [c1; c2] = [c1; c2].
Proof.
  intros Hne. cbn.
  destruct (decide_rel elem_of c1 [c2]) as [Hin|_].
  - apply list_elem_of_singleton in Hin. contradiction.
  - destruct (decide_rel elem_of c2 []) as [Hin|_]; [|reflexivity].
    by apply not_elem_of_nil in Hin.
Qed.

(** C1. After a DAG run whose two tasks were submitted under an experiment
    that had no trial before, listing the experiment's trials by creation
    time, ascending, yields exactly one trial, and that trial has exactly two
    components, the training one created no later than the transform one. *)
Theorem one_trial_two_components (region account role date : string)
    (s s' : St Registry Exn) (experiment : Experiment) :
  experiment_name experiment = dag_experiment_name ->
  trials_of dag_experiment_name (world s) = ∅ ->
  dag_run reference region account role date s = (inr tt, s') ->
  exists ts c1 c2,
    (Experiment_list_trials reference experiment (Some "CreationTime")
       (Some "Ascending") s').1 = inr [ts]
    /\ (Trial_list_trial_components reference (mkTrial (trial_name ts)) s').1
       = inr [c1; c2]
    /\ component_creation_time c1 <= component_creation_time c2
    /\ display_name c1 = "Training"
    /\ display_name c2 = "Transform".
Proof.
  intros Hname Hfresh Hrun.
  destruct (dag_run_tracked _ _ _ _ _ _ Hfresh Hrun)
    as (c2 & arn2 & Hne & [desc Hexp] & Hexps & Htrials & Hcomps).
  eexists _, _, _. split; [|split].
  - unfold Experiment_list_trials, call. rewrite Hname.
    change (experiment_list_trials reference) with reg_list_trials.
    unfold reg_list_trials. rewrite Hexps, Hexp.
    rewrite (tracked_trials_of _ _ _ _ Hfresh Htrials eq_refl). reflexivity.
  - unfold Trial_list_trial_components, call.
    change (trial_list_trial_components reference) with reg_list_trial_components.
    unfold reg_list_trial_components.
    cbn [trial_of trial_name summary_of_trial fst snd].
    rewrite Htrials, lookup_insert_eq.
    cbn [trial_components].
    rewrite (tracked_components _ _ _ _ _ _ Hne Hcomps) by (cbn; lia).
    reflexivity.
  - cbn. split; [lia | auto].
Qed.

Lemma training_experiment_config_fields :
  dom training_experiment_config
  = {[ "ExperimentName"; "TrialComponentDisplayName" ]}
  /\ training_experiment_config !! "ExperimentName" = Some dag_experiment_name
  /\ training_experiment_config !! "TrialComponentDisplayName" = Some "Training".
Proof. repeat split; vm_compute; reflexivity. Qed.

Lemma transform_experiment_config_fields :
  dom transform_experiment_config
  = {[ "ExperimentName"; "TrialComponentDisplayName" ]}
  /\ transform_experiment_config !! "ExperimentName" = Some dag_experiment_name
  /\ transform_experiment_config !! "TrialComponentDisplayName"
     = Some "Transform".
Proof. repeat split; vm_compute; reflexivity. Qed.

(** C3. Both experiment_config dicts have exactly the fields ExperimentName
    and TrialComponentDisplayName, the latter being Training for the training
    task and Transform for the transform task; on every platform each
    submission of a DAG run carries the dict of its task; and after a run
    under an experiment that had no trial before, the analytics view has two
    rows, one tagged Training and one tagged Transform. *)
Theorem submissions_carry_experiment_config :
  (dom training_experiment_config
   = {[ "ExperimentName"; "TrialComponentDisplayName" ]}
   /\ training_experiment_config !! "ExperimentName" = Some dag_experiment_name
   /\ training_experiment_config !! "TrialComponentDisplayName"
      = Some "Training")
  /\ (dom transform_experiment_config
      = {[ "ExperimentName"; "TrialComponentDisplayName" ]}
      /\ transform_experiment_config !! "ExperimentName"
         = Some dag_experiment_name
      /\ transform_experiment_config !! "TrialComponentDisplayName"
         = Some "Transform")
  /\ (forall (W E : Type) (P : Platform W E) region account role date
             (s : St W E),
         exists evs,
           trace (dag_run P region account role date s).2
           = (trace s ++ evs)%list
           /\ List.Forall well_configured evs)
  /\ (forall region account role date (s s' : St Registry Exn),
         trials_of dag_experiment_name (world s) = ∅ ->
         dag_run reference region account role date s = (inr tt, s') ->
         exists row1 row2,
           (ExperimentAnalytics reference dag_experiment_name
              (Some "CreationTime") (Some "Ascending") s').1
           = inr [row1; row2]
           /\ display_name row1 = "Training"
           /\ display_name row2 = "Transform").
Proof.
  split; [exact training_experiment_config_fields|].
  split; [exact transform_experiment_config_fields|].
  split; [intros; apply dag_run_submissions|].
  intros region account role date s s' Hfresh Hrun.
  destruct (dag_run_tracked _ _ _ _ _ _ Hfresh Hrun)
    as (c2 & arn2 & Hne & [desc Hexp] & Hexps & Htrials & Hcomps).
  eexists _, _. split; [|split].
  - unfold ExperimentAnalytics, call.
    change (experiment_analytics reference) with reg_analytics.
    unfold reg_analytics. rewrite Hexps, Hexp.
    rewrite (tracked_trials_of _ _ _ _ Hfresh Htrials eq_refl).
    cbn [fmap list_fmap concat snd trial_components app].
    rewrite (remove_dups_pair _ _ Hne).
    unfold ordered.
    rewrite (tracked_components _ _ _ _ _ _ Hne Hcomps) by (cbn; lia).
    reflexivity.
  - reflexivity.
  - reflexivity.
Qed.

Lemma one_trial_two_components_witness :
  exists ts c1 c2,
    (Experiment_list_trials reference notebook_experiment
       (Some "CreationTime") (Some "Ascending")
       (dag_run reference "us-east-1" "123456789012" "role" "2020-01-01"
          (start created_registry)).2).1 = inr [ts]
    /\ (Trial_list_trial_components reference (mkTrial (trial_name ts))
          (dag_run reference "us-east-1" "123456789012" "role" "2020-01-01"
             (start created_registry)).2).1 = inr [c1; c2]
    /\ component_creation_time c1 <= component_creation_time c2
    /\ display_name c1 = "Training"
    /\ display_name c2 = "Transform".
Proof.
  apply (one_trial_two_components "us-east-1" "123456789012" "role"
           "2020-01-01" (start created_registry)).
  - reflexivity.
  - vm_compute. reflexivity.
  - vm_compute. reflexivity.
Defined.

Lemma submissions_carry_experiment_config_witness :
  exists row1 row2,
    (ExperimentAnalytics reference dag_experiment_name
       (Some "CreationTime") (Some "Ascending")
       (dag_run reference "us-east-1" "123456789012" "role" "2020-01-01"
          (start created_registry)).2).1 = inr [row1; row2]
    /\ display_name row1 = "Training"
    /\ display_name row2 = "Transform".
Proof.
  apply (proj2 (proj2 (proj2 submissions_carry_experiment_config))
           "us-east-1" "123456789012" "role" "2020-01-01"
           (start created_registry)).
  - vm_compute. reflexivity.
  - vm_compute. reflexivity.
Defined.

(** * Further properties of the cleanup cell *)

Section CleanupTraces.

Context {E : Type}.

Implicit Types evs pre post : list (Event E).

Lemma sleeps_app evs evs' : sleeps (evs ++ evs') = (sleeps evs ++ sleeps evs')%list.
Proof. apply omap_app. Qed.

Lemma deleted_components_app evs evs' :
  deleted_components (evs ++ evs')
  = (deleted_components evs ++ deleted_components evs')%list.
Proof. apply omap_app. Qed.

Lemma deleted_trials_app evs evs' :
  deleted_trials (evs ++ evs')
  = (deleted_trials evs ++ deleted_trials evs')%list.
Proof. apply omap_app. Qed.

(** *** One delay per deleted component *)

Lemma paced_app evs evs' : paced evs -> paced evs' -> paced (evs ++ evs').
Proof.
  unfold paced. intros H1 H2.
  rewrite sleeps_app, deleted_components_app, length_app, replicate_add.
  by rewrite H1, H2.
Qed.

Lemma loop_run_paced {A}
    (body_run : A -> list (Event E) -> E + unit -> Prop) l evs r :
  (forall x evs r, body_run x evs r -> paced evs) ->
  loop_run body_run l evs r -> paced evs.
Proof.
  intros Hbody. induction 1; [reflexivity | by eapply Hbody |].
  apply paced_app; [by eapply Hbody | assumption].
Qed.

Lemma component_run_paced t c evs (r : E + unit) :
  component_run t c evs r -> paced evs.
Proof. by destruct 1. Qed.

Lemma trial_run_paced ts evs (r : E + unit) : trial_run ts evs r -> paced evs.
Proof.
  destruct 1 as [e|e|cs evs e Hloop|cs evs r Hloop]; try reflexivity.
  - apply (paced_app [_; _]); [reflexivity|].
    eapply loop_run_paced; [|exact Hloop]. intros x. apply component_run_paced.
  - apply (paced_app [_; _]); [reflexivity|]. apply paced_app.
    + eapply loop_run_paced; [|exact Hloop]. intros x. apply component_run_paced.
    + by destruct r as [|[]].
Qed.

Lemma cleanup_run_paced experiment evs (r : E + unit) :
  cleanup_run experiment evs r -> paced evs.
Proof.
  destruct 1 as [e|trials evs e Hloop|trials evs r Hloop]; try reflexivity.
  - apply (paced_app [_]); [reflexivity|].
    eapply loop_run_paced; [|exact Hloop]. intros x. apply trial_run_paced.
  - apply (paced_app [_]); [reflexivity|]. apply paced_app.
    + eapply loop_run_paced; [|exact Hloop]. intros x. apply trial_run_paced.
    + by destruct r as [|[]].
Qed.

(** *** The listed trials are deleted in order *)

Lemma no_trial_delete_no_deleted_trials evs :
  List.Forall (fun ev => is_trial_delete ev = false
                         /\ is_experiment_delete ev = false) evs ->
  deleted_trials evs = [].
Proof.
  induction 1 as [|ev evs [Hev _] _ IH]; [reflexivity|].
  cbn. by destruct ev.
Qed.

Lemma trial_run_deleted_trials ts evs :
  trial_run ts evs (inr tt) -> deleted_trials evs = [trial_name ts].
Proof.
  inversion 1 as [| | |cs evs' r Hloop]; subst.
  change (deleted_trials ([EvTrialLoad (trial_name ts) (inr tt);
                           EvListTrialComponents (trial_name ts) (inr cs)]
                          ++ evs' ++ [EvTrialDelete (trial_name ts) (inr tt)])
          = [trial_name ts]).
  rewrite !deleted_trials_app.
  rewrite (no_trial_delete_no_deleted_trials evs')
    by (eapply component_loop_calls; eauto).
  reflexivity.
Qed.

Lemma trial_loop_deleted_trials trials evs :
  loop_run trial_run trials evs (inr tt) ->
  deleted_trials evs = trial_name <$> trials.
Proof.
  remember (inr tt : E + unit) as r eqn:Hr.
  induction 1 as [|ts rest evs e Hts|ts rest evs evs' r Hts Hrest IH].
  - reflexivity.
  - discriminate Hr.
  - rewrite deleted_trials_app, (trial_run_deleted_trials _ _ Hts), IH by done.
    reflexivity.
Qed.

Lemma cleanup_run_deleted_trials experiment evs :
  cleanup_run experiment evs (inr tt) ->
  exists trials rest,
    evs = EvListTrials (experiment_name experiment) None None (inr trials)
          :: rest
    /\ deleted_trials rest = trial_name <$> trials
    /\ last rest = Some (EvExperimentDelete (experiment_name experiment)
                           (inr tt)).
Proof.
  inversion 1 as [| |trials evs' r Hloop]; subst.
  eexists _, _. split; [reflexivity|]. split.
  - rewrite deleted_trials_app, (trial_loop_deleted_trials _ _ Hloop).
    cbn. by rewrite app_nil_r.
  - by rewrite last_snoc.
Qed.

(** *** Only detached, listed components are deleted *)

Lemma deletes_listed_none t cs evs :
  List.Forall (fun ev => is_component_delete ev = false) evs ->
  deletes_listed t cs evs.
Proof.
  intros Hall pre post c r Heq.
  pose proof (Forall_split_elem _ _ _ _ _ Hall Heq) as Hx. discriminate Hx.
Qed.

Lemma deletes_listed_app t cs evs evs' :
  deletes_listed t cs evs -> deletes_listed t cs evs' ->
  deletes_listed t cs (evs ++ evs').
Proof.
  intros H1 H2 pre post c r Heq. symmetry in Heq.
  apply app_cons_split in Heq as [(m & -> & ->)|(m & -> & ->)].
  - eapply H1. reflexivity.
  - destruct (H2 m post c r eq_refl) as (before & -> & Hin).
    exists (evs ++ before)%list. by rewrite <- app_assoc.
Qed.

Lemma deletes_listed_more t c0 cs evs :
  deletes_listed t cs evs -> deletes_listed t (c0 :: cs) evs.
Proof.
  intros H pre post c r Heq. destruct (H pre post c r Heq) as (before & -> & Hin).
  exists before. split; [reflexivity|]. by right.
Qed.

Lemma component_run_deletes_listed t c evs (r : E + unit) :
  component_run t c evs r -> deletes_listed t [c] evs.
Proof.
  destruct 1 as [e|e|e|];
    try (apply deletes_listed_none; by repeat constructor);
    intros pre post c' r' Heq;
    destruct pre as [|? [|? [|? [|? [|? ?]]]]]; simplify_eq/=;
    exists []; split; [reflexivity | by left | reflexivity | by left].
Qed.

Lemma component_loop_deletes_listed t cs evs (r : E + unit) :
  loop_run (component_run t) cs evs r -> deletes_listed t cs evs.
Proof.
  induction 1 as [|c rest evs e Hc|c rest evs evs' r Hc Hrest IH].
  - apply deletes_listed_none. constructor.
  - intros pre post c' r' Heq.
    destruct (component_run_deletes_listed _ _ _ _ Hc pre post c' r' Heq)
      as (before & -> & [<-|[]]).
    exists before. split; [reflexivity | by left].
  - apply deletes_listed_app.
    + intros pre post c' r' Heq.
      destruct (component_run_deletes_listed _ _ _ _ Hc pre post c' r' Heq)
        as (before & -> & [<-|[]]).
      exists before. split; [reflexivity | by left].
    + by apply deletes_listed_more.
Qed.

Lemma deletes_only_detached_none evs :
  List.Forall (fun ev => is_component_delete ev = false) evs ->
  deletes_only_detached evs.
Proof.
  intros Hall pre post c r Heq.
  pose proof (Forall_split_elem _ _ _ _ _ Hall Heq) as Hx. discriminate Hx.
Qed.

Lemma deletes_only_detached_app evs evs' :
  deletes_only_detached evs -> deletes_only_detached evs' ->
  deletes_only_detached (evs ++ evs').
Proof.
  intros H1 H2 pre post c r Heq. symmetry in Heq.
  apply app_cons_split in Heq as [(m & -> & ->)|(m & -> & ->)].
  - eapply H1. reflexivity.
  - destruct (H2 m post c r eq_refl) as (before & t & cs & -> & Hin & Hc).
    exists (evs ++ before)%list, t, cs. rewrite <- app_assoc.
    split; [reflexivity|]. split; [|exact Hc]. apply in_or_app. by right.
Qed.

Lemma listed_loop_deletes_only_detached t cs evs :
  deletes_listed t cs evs ->
  deletes_only_detached
    (EvTrialLoad t (inr tt) :: EvListTrialComponents t (inr cs) :: evs).
Proof.
  intros H pre post c r Heq.
  destruct pre as [|p0 [|p1 pre]]; simplify_eq/=.
  destruct (H pre post c r eq_refl) as (before & -> & Hin).
  exists (EvTrialLoad t (inr tt) :: EvListTrialComponents t (inr cs) :: before),
         t, cs.
  split; [reflexivity|]. split; [right; by left | exact Hin].
Qed.

Lemma trial_run_deletes_only_detached ts evs (r : E + unit) :
  trial_run ts evs r -> deletes_only_detached evs.
Proof.
  destruct 1 as [e|e|cs evs e Hloop|cs evs r Hloop].
  - apply deletes_only_detached_none. by repeat constructor.
  - apply deletes_only_detached_none. by repeat constructor.
  - apply listed_loop_deletes_only_detached.
    eapply component_loop_deletes_listed; eauto.
  - apply listed_loop_deletes_only_detached.
    apply deletes_listed_app;
      [eapply component_loop_deletes_listed; eauto|].
    apply deletes_listed_none. by repeat constructor.
Qed.

Lemma trial_loop_deletes_only_detached trials evs (r : E + unit) :
  loop_run trial_run trials evs r -> deletes_only_detached evs.
Proof.
  induction 1 as [|ts rest evs e Hts|ts rest evs evs' r Hts Hrest IH].
  - apply deletes_only_detached_none. constructor.
  - eapply trial_run_deletes_only_detached; eauto.
  - apply deletes_only_detached_app;
      [eapply trial_run_deletes_only_detached; eauto | exact IH].
Qed.

Lemma cleanup_run_deletes_only_detached experiment evs (r : E + unit) :
  cleanup_run experiment evs r -> deletes_only_detached evs.
Proof.
  destruct 1 as [e|trials evs e Hloop|trials evs r Hloop].
  - apply deletes_only_detached_none. by repeat constructor.
  - apply (deletes_only_detached_app [_]).
    + apply deletes_only_detached_none. by repeat constructor.
    + eapply trial_loop_deletes_only_detached; eauto.
  - apply (deletes_only_detached_app [_]).
    + apply deletes_only_detached_none. by repeat constructor.
    + apply deletes_only_detached_app.
      * eapply trial_loop_deletes_only_detached; eauto.
      * apply deletes_only_detached_none. by repeat constructor.
Qed.

(** *** The experiment is deleted last *)

Lemma failures_fatal_harmless evs :
  failures_fatal (inr tt : E + unit) evs -> List.Forall harmless evs.
Proof.
  intros H. apply List.Forall_forall. intros ev Hin. unfold harmless.
  destruct (failed ev) as [e|] eqn:Hf; [|by left].
  destruct (is_component_delete ev) eqn:Hk; [by right|].
  pose proof (H ev e Hin Hf Hk) as Habs. discriminate Habs.
Qed.

Lemma cleanup_run_experiment_delete_closes experiment evs (r : E + unit) :
  cleanup_run experiment evs r -> experiment_delete_closes experiment r evs.
Proof.
  destruct 1 as [e|trials evs e Hloop|trials evs r Hloop];
    intros pre post name r' Heq.
  - destruct pre as [|? [|? ?]]; discriminate Heq.
  - exfalso.
    assert (Hall : List.Forall (fun ev : Event E => is_experiment_delete ev = false)
              (EvListTrials (experiment_name experiment) None None (inr trials)
               :: evs)).
    { constructor; [reflexivity|]. eapply trial_loop_calls; eauto. }
    pose proof (Forall_split_elem _ _ _ _ _ Hall Heq) as Hx. discriminate Hx.
  - change (EvListTrials (experiment_name experiment) None None (inr trials)
            :: evs ++ [EvExperimentDelete (experiment_name experiment) r])%list
      with ((EvListTrials (experiment_name experiment) None None (inr trials)
             :: evs)
            ++ [EvExperimentDelete (experiment_name experiment) r])%list in Heq.
    symmetry in Heq.
    apply app_cons_split in Heq as [(m & Heq & _)|(m & -> & Heq)].
    + exfalso.
      assert (Hall : List.Forall
                (fun ev : Event E => is_experiment_delete ev = false)
                (EvListTrials (experiment_name experiment) None None
                   (inr trials) :: evs)).
      { constructor; [reflexivity|]. eapply trial_loop_calls; eauto. }
      pose proof (Forall_split_elem _ _ _ _ _ Hall Heq) as Hx. discriminate Hx.
    + destruct m as [|x m]; cbn in Heq.
      * simplify_eq/=. rewrite app_nil_r. repeat split.
        constructor; [by left|]. apply failures_fatal_harmless.
        eapply loop_run_fatal; [|exact Hloop].
        intros x evs0 r0. apply trial_run_fatal.
      * injection Heq as _ Heq. destruct m; discriminate Heq.
Qed.

(** *** Nothing but registry maintenance *)

Lemma loop_run_Forall {A} (Q : Event E -> Prop)
    (body_run : A -> list (Event E) -> E + unit -> Prop) l evs r :
  (forall x evs r, body_run x evs r -> List.Forall Q evs) ->
  loop_run body_run l evs r -> List.Forall Q evs.
Proof.
  intros Hbody. induction 1; [constructor | by eapply Hbody |].
  apply List.Forall_app. split; [by eapply Hbody | assumption].
Qed.

Lemma component_run_cleanup_calls t c evs (r : E + unit) :
  component_run t c evs r ->
  List.Forall (fun ev => is_cleanup_call ev = true) evs.
Proof. destruct 1; by repeat constructor. Qed.

Lemma trial_run_cleanup_calls ts evs (r : E + unit) :
  trial_run ts evs r -> List.Forall (fun ev => is_cleanup_call ev = true) evs.
Proof.
  destruct 1 as [e|e|cs evs e Hloop|cs evs r Hloop];
    repeat (constructor; [reflexivity|]); try constructor.
  - eapply loop_run_Forall; [|exact Hloop].
    intros x. apply component_run_cleanup_calls.
  - apply List.Forall_app. split; [|by repeat constructor].
    eapply loop_run_Forall; [|exact Hloop].
    intros x. apply component_run_cleanup_calls.
Qed.

Lemma cleanup_run_cleanup_calls experiment evs (r : E + unit) :
  cleanup_run experiment evs r ->
  List.Forall (fun ev => is_cleanup_call ev = true) evs.
Proof.
  destruct 1 as [e|trials evs e Hloop|trials evs r Hloop];
    repeat (constructor; [reflexivity|]); try constructor.
  - eapply loop_run_Forall; [|exact Hloop]. intros x. apply trial_run_cleanup_calls.
  - apply List.Forall_app. split; [|by repeat constructor].
    eapply loop_run_Forall; [|exact Hloop]. intros x. apply trial_run_cleanup_calls.
Qed.

End CleanupTraces.

Section CleanupState.

Context {W E : Type}.
Variable P : Platform W E.

Lemma call_xcom {A} (ev : E + A -> Event E) (op : Op W E A) (s : St W E) :
  xcom (call ev op s).2 = xcom s.
Proof. unfold call. by destruct (op (world s)). Qed.

Lemma bind_xcom {A B} (m : M W E A) (k : A -> M W E B) (s : St W E) :
  (forall s, xcom (m s).2 = xcom s) ->
  (forall a s, xcom (k a s).2 = xcom s) ->
  xcom (bind m k s).2 = xcom s.
Proof.
  intros Hm Hk. unfold bind. specialize (Hm s).
  destruct (m s) as [[e|a] s']; cbn in *; [exact Hm|].
  by rewrite Hk.
Qed.

Lemma for_each_xcom {A} (body : A -> M W E unit) (l : list A) :
  (forall x s, xcom (body x s).2 = xcom s) ->
  forall s, xcom (for_each l body s).2 = xcom s.
Proof.
  intros Hbody. induction l as [|x rest IH]; intros s; [reflexivity|].
  cbn [for_each]. apply bind_xcom; [apply Hbody | intros _; apply IH].
Qed.

Lemma cleanup_component_xcom trial c (s : St W E) :
  xcom (cleanup_component P trial c s).2 = xcom s.
Proof.
  unfold cleanup_component, TrialComponent_load.
  apply bind_xcom; [|intros tc s1].
  { intros s0. apply bind_xcom; [intros; apply call_xcom | reflexivity]. }
  apply bind_xcom; [intros; apply call_xcom | intros _ s2].
  apply bind_xcom; [|intros [] s3; reflexivity].
  intros s4. unfold try_except, bind, TrialComponent_delete.
  pose proof (call_xcom (EvTrialComponentDelete (component_of tc))
                (trial_component_delete P (component_of tc)) s4) as Hc.
  by destruct (call _ _ s4) as [[e|[]] s5].
Qed.

Lemma cleanup_xcom experiment (s : St W E) :
  xcom (cleanup P experiment s).2 = xcom s.
Proof.
  unfold cleanup.
  apply bind_xcom; [intros; apply call_xcom | intros trials s1].
  apply bind_xcom; [|intros; apply call_xcom].
  apply for_each_xcom. intros ts s2. unfold cleanup_trial, Trial_load.
  apply bind_xcom; [|intros trial s3].
  { intros s0. apply bind_xcom; [intros; apply call_xcom | reflexivity]. }
  apply bind_xcom; [intros; apply call_xcom | intros cs s4].
  apply bind_xcom; [|intros; apply call_xcom].
  apply for_each_xcom. apply cleanup_component_xcom.
Qed.

End CleanupState.

(** X1. In every run of [cleanup], on every platform, the delays are all of
    half a second and there is exactly one per component whose deletion
    succeeded. *)
Theorem cleanup_one_delay_per_deleted_component {W E : Type}
    (P : Platform W E) (experiment : Experiment) (s : St W E) :
  exists evs,
    trace (cleanup P experiment s).2 = (trace s ++ evs)%list
    /\ sleeps evs = replicate (length (deleted_components evs)) 500.
Proof.
  destruct (cleanup_runs P experiment s) as (evs & [_ Ht] & Hshape).
  exists evs. split; [exact Ht|]. eapply cleanup_run_paced; eauto.
Qed.

(** X2. In every run of [cleanup], on every platform, each attempt to delete
    a component comes right after a successful load of that component and its
    successful removal from a trial whose listing contained it. *)
Theorem cleanup_deletes_only_detached {W E : Type}
    (P : Platform W E) (experiment : Experiment) (s : St W E) :
  exists evs,
    trace (cleanup P experiment s).2 = (trace s ++ evs)%list
    /\ deletes_only_detached evs.
Proof.
  destruct (cleanup_runs P experiment s) as (evs & [_ Ht] & Hshape).
  exists evs. split; [exact Ht|]. eapply cleanup_run_deletes_only_detached; eauto.
Qed.

(** X3. When [cleanup] returns normally, its first call listed the trials,
    the trials it deleted are exactly the listed ones, each once and in the
    listed order, and its last call deleted the experiment. *)
Theorem cleanup_deletes_listed_trials_in_order {W E : Type}
    (P : Platform W E) (experiment : Experiment) (s : St W E) :
  (cleanup P experiment s).1 = inr tt ->
  exists trials rest,
    trace (cleanup P experiment s).2
    = (trace s
       ++ EvListTrials (experiment_name experiment) None None (inr trials)
          :: rest)%list
    /\ deleted_trials rest = trial_name <$> trials
    /\ last rest
       = Some (EvExperimentDelete (experiment_name experiment) (inr tt)).
Proof.
  intros Hok.
  destruct (cleanup_runs P experiment s) as (evs & [_ Ht] & Hshape).
  rewrite Hok in Hshape.
  destruct (cleanup_run_deleted_trials _ _ Hshape)
    as (trials & rest & -> & Hdel & Hlast).
  by exists trials, rest.
Qed.

(** X4. In every run of [cleanup], a call that deletes the experiment is the
    last call of the run, its result is the result of the run, and every call
    before it either succeeded or was a component deletion. *)
Theorem cleanup_experiment_delete_is_last {W E : Type}
    (P : Platform W E) (experiment : Experiment) (s : St W E) :
  exists evs,
    trace (cleanup P experiment s).2 = (trace s ++ evs)%list
    /\ experiment_delete_closes experiment (cleanup P experiment s).1 evs.
Proof.
  destruct (cleanup_runs P experiment s) as (evs & [_ Ht] & Hshape).
  exists evs. split; [exact Ht|].
  eapply cleanup_run_experiment_delete_closes; eauto.
Qed.

(** X5. [cleanup] makes no call other than listings, loads, removals and
    deletions in the registry and the delay (it creates nothing and submits
    nothing), and it leaves the orchestrator's XCom store as it was. *)
Theorem cleanup_only_maintains {W E : Type}
    (P : Platform W E) (experiment : Experiment) (s : St W E) :
  exists evs,
    trace (cleanup P experiment s).2 = (trace s ++ evs)%list
    /\ List.Forall (fun ev => is_cleanup_call ev = true) evs
    /\ xcom (cleanup P experiment s).2 = xcom s.
Proof.
  destruct (cleanup_runs P experiment s) as (evs & [_ Ht] & Hshape).
  exists evs. split; [exact Ht|]. split.
  - eapply cleanup_run_cleanup_calls; eauto.
  - apply cleanup_xcom.
Qed.

Lemma cleanup_deletes_listed_trials_in_order_witness :
  exists trials rest,
    trace (cleanup reference study (start shared_registry)).2
    = (trace (start shared_registry)
       ++ EvListTrials (experiment_name study) None None (inr trials)
          :: rest)%list
    /\ deleted_trials rest = trial_name <$> trials
    /\ last rest = Some (EvExperimentDelete (experiment_name study) (inr tt)).
Proof.
  apply (cleanup_deletes_listed_trials_in_order reference study
           (start shared_registry)).
  vm_compute. reflexivity.
Defined.

(** ** An experiment without trials *)

(** X6. When the listing returns no trial, [cleanup] makes just two calls,
    the listing and the deletion of the experiment, in the state the listing
    left, and returns or raises what the deletion does. *)
Theorem cleanup_without_trials {W E : Type} (P : Platform W E)
    (experiment : Experiment) (s : St W E) (w : W) :
  experiment_list_trials P (experiment_name experiment) None None (world s)
  = (inr [], w) ->
  cleanup P experiment s
  = ((experiment_delete P (experiment_name experiment) w).1,
     mkSt (experiment_delete P (experiment_name experiment) w).2 (xcom s)
       (trace s
        ++ [EvListTrials (experiment_name experiment) None None (inr []);
            EvExperimentDelete (experiment_name experiment)
              (experiment_delete P (experiment_name experiment) w).1])).
Proof.
  intros Hlist.
  unfold cleanup, Experiment_list_trials, Experiment_delete, bind, call.
  rewrite Hlist. cbn.
  destruct (experiment_delete P (experiment_name experiment) w) as [r w'].
  cbn. by rewrite <- app_assoc.
Qed.

Lemma cleanup_without_trials_witness :
  cleanup reference notebook_experiment (start created_registry)
  = ((experiment_delete reference (experiment_name notebook_experiment)
        created_registry).1,
     mkSt (experiment_delete reference (experiment_name notebook_experiment)
             created_registry).2 (xcom (start created_registry))
       (trace (start created_registry)
        ++ [EvListTrials (experiment_name notebook_experiment) None None
              (inr []);
            EvExperimentDelete (experiment_name notebook_experiment)
              (experiment_delete reference
                 (experiment_name notebook_experiment) created_registry).1])).
Proof.
  apply (cleanup_without_trials reference notebook_experiment
           (start created_registry) created_registry).
  vm_compute. reflexivity.
Defined.

(** * Further properties of the DAG file *)


(** X7. If the training submission raises, the DAG run raises the same error;
    the submission is its only call: nothing is kept in the XCom store and
    the transform task is not started. *)
Theorem training_failure_stops_dag_run {W E : Type} (P : Platform W E)
    (region account role date : string) (s : St W E) (e : E) (w : W) :
  estimator_fit P (dag_estimator role) (train_input region account)
    training_experiment_config (world s) = (inl e, w) ->
  dag_run P region account role date s
  = (inl e,
     mkSt w (xcom s)
       (trace s ++ [EvFit (dag_estimator role) (train_input region account)
                      training_experiment_config (inl e)])).
Proof.
  intros Hfit.
  unfold dag_run, train_op, PythonOperator, train, bind, call.
  by rewrite Hfit.
Qed.

Lemma training_failure_stops_dag_run_witness :
  dag_run reference "us-east-1" "123456789012" "role" "2020-01-01"
    (start unprepared_registry)
  = (inl SubmitFailed,
     mkSt unprepared_registry (xcom (start unprepared_registry))
       (trace (start unprepared_registry)
        ++ [EvFit (dag_estimator "role")
              (train_input "us-east-1" "123456789012")
              training_experiment_config (inl SubmitFailed)])).
Proof.
  apply (training_failure_stops_dag_run reference "us-east-1" "123456789012"
           "role" "2020-01-01" (start unprepared_registry)).
  vm_compute. reflexivity.
Defined.

(** X8. If the training submission returns a job name, the DAG run keeps it
    in the XCom store under the task id [training], replacing whatever was
    there, the transform task pulls exactly that value, and the training job
    it attaches to is that job. *)
Theorem dag_run_passes_training_job {W E : Type} (P : Platform W E)
    (region account role date : string) (s : St W E) (job : string) (w : W) :
  estimator_fit P (dag_estimator role) (train_input region account)
    training_experiment_config (world s) = (inr job, w) ->
  exists result rest,
    trace (dag_run P region account role date s).2
    = (trace s
       ++ EvFit (dag_estimator role) (train_input region account)
            training_experiment_config (inr job)
          :: EvXcomPush "training" (PyStr job)
          :: EvXcomPull "training" (PyStr job)
          :: EvAttach (PyStr job) result
          :: rest)%list
    /\ xcom (dag_run P region account role date s).2 !! "training"
       = Some (PyStr job).
Proof.
  intros Hfit.
  assert (Htrain : train_op P region account role date s
                   = (inr (PyStr job),
                      mkSt w (<["training" := PyStr job]> (xcom s))
                        (trace s
                         ++ [EvFit (dag_estimator role)
                               (train_input region account)
                               training_experiment_config (inr job);
                             EvXcomPush "training" (PyStr job)]))).
  { unfold train_op, PythonOperator, train, xcom_push, bind, call, ret.
    rewrite Hfit. cbn. by rewrite <- app_assoc. }
  set (s1 := mkSt w (<["training" := PyStr job]> (xcom s)) _) in Htrain.
  pose proof (transform_runs P role (test_input region account)
                (mkContext "transform" date) s1)
    as (ra & rest & Ht & _ & Hx & Hres).
  assert (Hstate : (dag_run P region account role date s).2
                   = (transform P role (test_input region account)
                        (mkContext "transform" date) s1).2).
  { unfold dag_run, bind at 1. rewrite Htrain.
    unfold bind, transform_op, PythonOperator, bind.
    destruct (transform P role (test_input region account)
                (mkContext "transform" date) s1) as [[e|v] s2];
      [reflexivity|].
    cbn in Hres. by rewrite (Hres v eq_refl). }
  rewrite Hstate, Ht, Hx. unfold s1. cbn. rewrite lookup_insert_eq.
  exists ra, rest. by rewrite <- app_assoc.
Qed.

Lemma dag_run_passes_training_job_witness :
  exists result rest,
    trace (dag_run reference "us-east-1" "123456789012" "role" "2020-01-01"
             (start created_registry)).2
    = (trace (start created_registry)
       ++ EvFit (dag_estimator "role") (train_input "us-east-1" "123456789012")
            training_experiment_config (inr "fashion-mnist-cnn-5000")
          :: EvXcomPush "training" (PyStr "fashion-mnist-cnn-5000")
          :: EvXcomPull "training" (PyStr "fashion-mnist-cnn-5000")
          :: EvAttach (PyStr "fashion-mnist-cnn-5000") result
          :: rest)%list
    /\ xcom (dag_run reference "us-east-1" "123456789012" "role" "2020-01-01"
               (start created_registry)).2 !! "training"
       = Some (PyStr "fashion-mnist-cnn-5000").
Proof.
  refine (dag_run_passes_training_job reference "us-east-1" "123456789012"
            "role" "2020-01-01" (start created_registry)
            "fashion-mnist-cnn-5000"
            (estimator_fit reference (dag_estimator "role")
               (train_input "us-east-1" "123456789012")
               training_experiment_config created_registry).2 _).
  vm_compute. reflexivity.
Defined.

(** X9. On every platform [transform] pulls the training task's value, then
    calls attach, transformer, the clock and the transform submission in this
    order and stops at the first call that raises, with its error; the
    transformer is built from the model data the attach returned, the job
    name from the clock reading, and the submission carries the content type
    text/csv and the split type Line. *)
Theorem transform_calls_in_order {W E : Type} (P : Platform W E)
    (role data : string) (context : Context) (s : St W E) :
  exists evs,
    trace (transform P role data context s).2
    = (trace s
       ++ EvXcomPull "training" (default PyNone (xcom s !! "training"))
          :: evs)%list
    /\ transform_run role data (default PyNone (xcom s !! "training")) evs
         (transform P role data context s).1.
Proof.
  set (v := default PyNone (xcom s !! "training")).
  unfold transform, xcom_pull, int_time, bind, call, ret. cbn. fold v.
  destruct (estimator_attach P v (world s)) as [[e|artefact] w1]; cbn.
  { eexists. rewrite <- app_assoc. split; [reflexivity | constructor]. }
  destruct (model_transformer P _ w1) as [[e|[]] w2]; cbn.
  { eexists. rewrite <- !app_assoc. split; [reflexivity | constructor]. }
  destruct (time_time P w2) as [now w3]; cbn.
  destruct (transformer_transform P _ _ _ _ _ _ w3) as [[e|[]] w4]; cbn.
  - eexists. rewrite <- !app_assoc. split; [reflexivity | constructor].
  - eexists. rewrite <- !app_assoc. split; [reflexivity | constructor].
Qed.

(** X10. The transform job's name determines the clock reading it was built
    from: two submissions get the same job name exactly when the clock read
    the same second. *)
Theorem transform_job_name_inj (now now' : Z) :
  transform_job_name now = transform_job_name now' <-> now = now'.
Proof.
  split; [|by intros ->].
  unfold transform_job_name. intros Heq.
  apply (inj (String.app base_job_name)) in Heq.
  apply (inj (String.app "-")) in Heq.
  by apply (inj pretty) in Heq.
Qed.

(** X11. A DAG run that succeeds made exactly these calls: the training
    submission on [train_input], the push and the pull of the returned job
    name, the attach to that job, the transformer for the attached model, a
    clock reading, and the transform submission on [test_input] under the
    job name built from that reading; the job name is all it leaves in the
    XCom store. *)
Theorem successful_dag_run_calls {W E : Type} (P : Platform W E)
    (region account role date : string) (s s' : St W E) :
  dag_run P region account role date s = (inr tt, s') ->
  exists job artefact now,
    trace s'
    = (trace s
       ++ [EvFit (dag_estimator role) (train_input region account)
             training_experiment_config (inr job);
           EvXcomPush "training" (PyStr job);
           EvXcomPull "training" (PyStr job);
           EvAttach (PyStr job) (inr artefact);
           EvTransformer (dag_transformer (serving_model role artefact))
             (inr tt);
           EvTime now;
           EvTransform (dag_transformer (serving_model role artefact))
             (test_input region account) (transform_job_name now) "text/csv"
             "Line" transform_experiment_config (inr tt)])%list
    /\ xcom s' = <["training" := PyStr job]> (xcom s).
Proof.
  unfold dag_run, train_op, transform_op, PythonOperator, train, transform,
    xcom_pull, xcom_push, int_time, bind, call, ret. cbn.
  destruct (estimator_fit P _ _ _ (world s)) as [[e|job] w0]; cbn;
    [discriminate|].
  rewrite lookup_insert_eq. cbn.
  destruct (estimator_attach P _ w0) as [[e|artefact] w1]; cbn;
    [discriminate|].
  destruct (model_transformer P _ w1) as [[e|[]] w2]; cbn; [discriminate|].
  destruct (time_time P w2) as [now w3]; cbn.
  destruct (transformer_transform P _ _ _ _ _ _ w3) as [[e|[]] w4]; cbn;
    [discriminate|].
  intros Heq. injection Heq as <-. cbn.
  exists job, artefact, now. by rewrite <- !app_assoc.
Qed.

Lemma successful_dag_run_calls_witness :
  exists job artefact now,
    trace (dag_run reference "us-east-1" "123456789012" "role" "2020-01-01"
             (start created_registry)).2
    = (trace (start created_registry)
       ++ [EvFit (dag_estimator "role")
             (train_input "us-east-1" "123456789012")
             training_experiment_config (inr job);
           EvXcomPush "training" (PyStr job);
           EvXcomPull "training" (PyStr job);
           EvAttach (PyStr job) (inr artefact);
           EvTransformer (dag_transformer (serving_model "role" artefact))
             (inr tt);
           EvTime now;
           EvTransform (dag_transformer (serving_model "role" artefact))
             (test_input "us-east-1" "123456789012") (transform_job_name now)
             "text/csv" "Line" transform_experiment_config (inr tt)])%list
    /\ xcom (dag_run reference "us-east-1" "123456789012" "role" "2020-01-01"
               (start created_registry)).2
       = <["training" := PyStr job]> (xcom (start created_registry)).
Proof.
  apply (successful_dag_run_calls reference "us-east-1" "123456789012" "role"
           "2020-01-01" (start created_registry)).
  vm_compute. reflexivity.
Defined.

(** * Further properties of the listing cell *)

Lemma collect_details_app (l1 l2 : list TrialSummary) (acc : list (list Cell)) :
  collect_details (l1 ++ l2) acc
  = match collect_details l1 acc with
    | inl e => inl e
    | inr acc' => collect_details l2 acc'
    end.
Proof.
  revert acc. induction l1 as [|exe l1 IH]; intros acc; [reflexivity|].
  cbn. destruct (subscript (trial_source exe) "SourceArn"); [reflexivity|].
  apply IH.
Qed.

Lemma collect_details_acc (l : list TrialSummary) (acc : list (list Cell)) :
  collect_details l acc
  = match collect_details l [] with
    | inl e => inl e
    | inr new => inr (acc ++ new)%list
    end.
Proof.
  revert acc. induction l as [|exe l IH]; intros acc.
  - cbn. by rewrite app_nil_r.
  - cbn. destruct (subscript (trial_source exe) "SourceArn") as [e|arn];
      [reflexivity|].
    rewrite (IH (acc ++ _)%list), (IH [_]).
    destruct (collect_details l []) as [e|new]; [reflexivity|].
    by rewrite <- app_assoc.
Qed.

Lemma collect_details_shape (l : list TrialSummary) (new : list (list Cell)) :
  collect_details l [] = inr new ->
  List.Forall (fun row => length row = 3%nat) new.
Proof.
  revert new. induction l as [|exe l IH]; intros new.
  - cbn. intros Heq. injection Heq as <-. constructor.
  - cbn. destruct (subscript (trial_source exe) "SourceArn") as [e|arn];
      [discriminate|].
    rewrite collect_details_acc.
    destruct (collect_details l []) as [e|rest] eqn:Hrest; [discriminate|].
    intros Heq. injection Heq as <-. constructor; [reflexivity|]. by apply IH.
Qed.

Lemma tabulate_ok_rows (l : list TrialSummary) (table : DataFrame) :
  tabulate l = inr table ->
  collect_details l [] = inr (rows table)
  /\ columns table = ["Name"; "Source"; "CreationTime"].
Proof.
  unfold tabulate, pd_DataFrame.
  destruct (collect_details l []) as [e|new]; [discriminate|].
  destruct (forallb _ new); [|discriminate].
  intros Heq. by injection Heq as <-.
Qed.

(** ** The listing cell on summaries as the SDK hands them over *)

Lemma source_arn_of_ok exe :
  is_ok (source_arn_of exe) = true <-> sourced exe.
Proof.
  unfold source_arn_of, sourced, subscript.
  destruct (listed_source exe) as [| |d]; cbn.
  - split; [discriminate|]. by intros (d & Hd & _).
  - split; [discriminate|]. by intros (d & Hd & _).
  - destruct (d !! "SourceArn") as [arn|] eqn:Harn; cbn.
    + split; [|done]. intros _. exists d. split; [done|]. rewrite Harn. by eexists.
    + split; [discriminate|]. intros (d' & Hd & Hs). simplify_eq.
      rewrite Harn in Hs. by destruct Hs.
Qed.

Lemma append_details_app (l1 l2 : list ListedTrial) (acc : list (list Cell)) :
  append_details (l1 ++ l2) acc
  = match append_details l1 acc with
    | inl e => inl e
    | inr acc' => append_details l2 acc'
    end.
Proof.
  revert acc. induction l1 as [|exe l1 IH]; intros acc; [reflexivity|].
  cbn. destruct (source_arn_of exe); [reflexivity|]. apply IH.
Qed.

Lemma append_details_sourced (l : list ListedTrial) (acc : list (list Cell)) :
  Forall sourced l ->
  exists new, append_details l acc = inr (acc ++ new)%list
              /\ List.Forall (fun row => length row = 3%nat) new.
Proof.
  intros Hall. revert acc.
  induction Hall as [|exe l Hexe _ IH]; intros acc.
  - exists []. cbn. by rewrite app_nil_r.
  - cbn. apply source_arn_of_ok in Hexe.
    destruct (source_arn_of exe) as [e|arn]; [discriminate|].
    destruct (IH (acc ++ [[CStr (listed_name exe); CStr arn;
                            CTime (listed_time exe)]])%list)
      as (new & -> & Hnew).
    eexists (_ :: new). rewrite <- app_assoc. split; [reflexivity|].
    by constructor.
Qed.

Lemma append_details_listed (l : list TrialSummary) (acc : list (list Cell)) :
  append_details (listed <$> l) acc
  = match collect_details l acc with
    | inl e => inl (Raised e)
    | inr details => inr details
    end.
Proof.
  revert acc. induction l as [|exe l IH]; intros acc; [reflexivity|].
  cbn. unfold source_arn_of. cbn.
  destruct (subscript (trial_source exe) "SourceArn") as [e|arn];
    [reflexivity|]. apply IH.
Qed.

Lemma execs_table_raises_first (before after : list ListedTrial)
    (exe : ListedTrial) (e : CellError) :
  Forall sourced before -> source_arn_of exe = inl e ->
  execs_table (before ++ exe :: after) = inl e.
Proof.
  intros Hall He. unfold execs_table. rewrite append_details_app.
  destruct (append_details_sourced before [] Hall) as (new & -> & _).
  cbn. by rewrite He.
Qed.

(** X12. The listing cell succeeds exactly when every summary carries a
    [trial_source] dict with a SourceArn entry.  Otherwise it raises what the
    first summary without one makes [exe.trial_source['SourceArn']] raise,
    whatever comes after it: AttributeError when the summary has no
    [trial_source] attribute, TypeError when the attribute is [None],
    KeyError when the dict has no SourceArn entry.  The construction of the
    data frame never fails, and on summaries that all carry a dict the cell
    is [tabulate]. *)
Theorem execs_table_first_unsourced (executions : list ListedTrial) :
  (is_ok (execs_table executions) = true <-> Forall sourced executions)
  /\ (forall before exe after,
        executions = (before ++ exe :: after)%list -> Forall sourced before ->
        (listed_source exe = Unset ->
         execs_table executions = inl (AttributeError "trial_source"))
        /\ (listed_source exe = IsNone ->
            execs_table executions
            = inl (TypeError "'NoneType' object is not subscriptable"))
        /\ (forall d, listed_source exe = Holds d -> d !! "SourceArn" = None ->
            execs_table executions = inl (Raised (KeyError "SourceArn"))))
  /\ (forall l : list TrialSummary,
        executions = listed <$> l ->
        execs_table executions
        = match tabulate l with
          | inl e => inl (Raised e)
          | inr table => inr table
          end).
Proof.
  split; [split|split].
  - intros Hok. apply Forall_forall. intros exe Hin.
    apply source_arn_of_ok.
    destruct (source_arn_of exe) as [e|arn] eqn:He; [|reflexivity].
    exfalso. apply list_elem_of_split in Hin as (l1 & l2 & ->).
    unfold execs_table in Hok. rewrite append_details_app in Hok.
    destruct (append_details l1 []) as [e'|acc]; [discriminate Hok|].
    cbn in Hok. rewrite He in Hok. discriminate Hok.
  - intros Hall. unfold execs_table.
    destruct (append_details_sourced executions [] Hall) as (new & -> & Hnew).
    cbn [app]. by rewrite pd_DataFrame_ok.
  - intros before exe after -> Hall. repeat split.
    + intros Hsrc. apply execs_table_raises_first; [exact Hall|].
      unfold source_arn_of. by rewrite Hsrc.
    + intros Hsrc. apply execs_table_raises_first; [exact Hall|].
      unfold source_arn_of. by rewrite Hsrc.
    + intros d Hsrc Hnone. apply execs_table_raises_first; [exact Hall|].
      unfold source_arn_of, subscript. by rewrite Hsrc, Hnone.
  - intros l ->. unfold execs_table, tabulate.
    rewrite append_details_listed.
    destruct (collect_details l []) as [e|details]; [reflexivity|].
    by destruct (pd_DataFrame details _).
Qed.

Lemma execs_table_first_unsourced_witness :
  execs_table sample_listing = inl (AttributeError "trial_source")
  /\ execs_table (listed <$> sample_executions)
     = match tabulate sample_executions with
       | inl e => inl (Raised e)
       | inr table => inr table
       end.
Proof.
  split.
  - refine (proj1 (proj1 (proj2 (execs_table_first_unsourced sample_listing))
                     [mkListedTrial "run-1"
                        (Holds {[ "SourceArn" := "arn:training-job/a" ]}) 10]
                     (mkListedTrial "run-2" Unset 20)
                     [mkListedTrial "run-3" IsNone 30;
                      mkListedTrial "run-4" (Holds ∅) 40]
                     eq_refl _) eq_refl).
    repeat constructor. eexists. split; [reflexivity|]. vm_compute. eauto.
  - exact (proj2 (proj2 (execs_table_first_unsourced _))
             sample_executions eq_refl).
Defined.

(** The three ways a summary can be without a source. *)
Example execs_table_unsourced :
  execs_table [mkListedTrial "run-2" Unset 20]
  = inl (AttributeError "trial_source")
  /\ execs_table [mkListedTrial "run-3" IsNone 30]
     = inl (TypeError "'NoneType' object is not subscriptable")
  /\ execs_table [mkListedTrial "run-4" (Holds ∅) 40]
     = inl (Raised (KeyError "SourceArn")).
Proof. repeat split; vm_compute; reflexivity. Qed.

(** X13. Listing one sequence of summaries after another gives the rows of
    the first table followed by the rows of the second. *)
Theorem tabulate_app (l1 l2 : list TrialSummary) (t1 t2 : DataFrame) :
  tabulate l1 = inr t1 -> tabulate l2 = inr t2 ->
  tabulate (l1 ++ l2)
  = inr (mkDataFrame ["Name"; "Source"; "CreationTime"]
           (rows t1 ++ rows t2)).
Proof.
  intros H1 H2.
  apply tabulate_ok_rows in H1 as [H1 _]. apply tabulate_ok_rows in H2 as [H2 _].
  unfold tabulate. rewrite collect_details_app, H1, collect_details_acc, H2.
  apply pd_DataFrame_ok. apply List.Forall_app.
  split; by eapply collect_details_shape.
Qed.

Lemma tabulate_app_witness :
  exists t1 t2,
    tabulate sample_executions = inr t1
    /\ tabulate more_executions = inr t2
    /\ tabulate (sample_executions ++ more_executions)
       = inr (mkDataFrame ["Name"; "Source"; "CreationTime"]
                (rows t1 ++ rows t2)).
Proof.
  destruct (tabulate sample_executions) as [e|t1] eqn:H1;
    [vm_compute in H1; discriminate H1|].
  destruct (tabulate more_executions) as [e|t2] eqn:H2;
    [vm_compute in H2; discriminate H2|].
  exists t1, t2. split; [reflexivity|]. split; [reflexivity|].
  exact (tabulate_app _ _ _ _ H1 H2).
Defined.


(** * The dataset cells *)

Lemma np_frombuffer_ok (buffer : list Byte.byte) (offset : nat) :
  (offset <= length buffer)%nat ->
  np_frombuffer buffer offset
  = inr (mkNdarray [(length buffer - offset)%nat] (drop offset buffer)).
Proof.
  intros Hle. unfold np_frombuffer.
  by rewrite (proj2 (Nat.leb_le _ _) Hle).
Qed.

Lemma np_frombuffer_short (buffer : list Byte.byte) (offset : nat) :
  (length buffer < offset)%nat ->
  exists msg, np_frombuffer buffer offset = inl (ValueError msg).
Proof.
  intros Hlt. unfold np_frombuffer.
  rewrite (proj2 (Nat.leb_gt _ _) Hlt). by eexists.
Qed.

Lemma reshape_images (flat : ndarray) (n : nat) :
  np_reshape flat [Z.of_nat n; 28; 28]
  = if (length (values flat) =? n * 784)%nat
    then inr (mkNdarray [n; 28%nat; 28%nat] (values flat))
    else inl (ValueError "cannot reshape array").
Proof.
  unfold np_reshape.
  assert (Hneg : existsb (fun d => d <? -1) [Z.of_nat n; 28; 28] = false).
  { cbn. rewrite orb_false_r. apply Z.ltb_ge. lia. }
  rewrite Hneg.
  assert (Hunk : filter (fun d => d = -1) [Z.of_nat n; 28; 28] = []).
  { rewrite filter_cons_False by (cbn; lia). reflexivity. }
  rewrite Hunk. cbn [length].
  assert (Hknown : known_size [Z.of_nat n; 28; 28] = (n * 784)%nat).
  { unfold known_size. cbn [foldr]. rewrite decide_False by lia.
    rewrite !decide_False by lia. rewrite Nat2Z.id.
    change (Z.to_nat 28) with 28%nat. lia. }
  rewrite Hknown. cbn [fmap list_fmap]. rewrite Nat2Z.id.
  by change (Z.to_nat 28) with 28%nat.
Qed.

Lemma reshape_rows (x : ndarray) (n : nat) :
  np_reshape x [Z.of_nat n; -1]
  = if ((n =? 0) || negb (length (values x) mod n =? 0))%nat
    then inl (ValueError "cannot reshape array")
    else inr (mkNdarray [n; (length (values x) / n)%nat] (values x)).
Proof.
  unfold np_reshape.
  assert (Hneg : existsb (fun d => d <? -1) [Z.of_nat n; -1] = false).
  { cbn. rewrite orb_false_r. apply Z.ltb_ge. lia. }
  rewrite Hneg.
  assert (Hunk : filter (fun d => d = -1) [Z.of_nat n; -1] = [-1]).
  { rewrite filter_cons_False by (cbn; lia). reflexivity. }
  rewrite Hunk. cbn [length].
  assert (Hknown : known_size [Z.of_nat n; -1] = n).
  { unfold known_size. cbn [foldr]. rewrite decide_False by lia.
    rewrite decide_True by reflexivity. rewrite Nat2Z.id. lia. }
  rewrite Hknown. cbn [fmap list_fmap].
  rewrite decide_False by lia. rewrite decide_True by reflexivity.
  by rewrite Nat2Z.id.
Qed.

(** What a pair of files loads to, in every case. *)
Lemma load_pair_cases (labels_file images_file : list Byte.byte) :
  let n := (length labels_file - 8)%nat in
  if decide ((8 <= length labels_file)%nat
             /\ length images_file = (16 + n * 784)%nat)
  then load_pair labels_file images_file
       = inr (mkNdarray [n] (drop 8 labels_file),
              mkNdarray [n; 28%nat; 28%nat] (drop 16 images_file))
  else exists msg,
         load_pair labels_file images_file = inl (ValueError msg).
Proof.
  intros n. unfold load_pair.
  destruct (decide (8 <= length labels_file)%nat) as [Hl|Hl].
  2:{ rewrite decide_False by tauto.
      destruct (np_frombuffer_short labels_file 8 ltac:(lia)) as [msg ->].
      by eexists. }
  rewrite (np_frombuffer_ok _ _ Hl).
  destruct (decide (16 <= length images_file)%nat) as [Hi|Hi].
  2:{ rewrite decide_False by lia.
      destruct (np_frombuffer_short images_file 16 ltac:(lia)) as [msg ->].
      by eexists. }
  rewrite (np_frombuffer_ok _ _ Hi).
  unfold np_len. cbn [shape hd]. rewrite reshape_images. cbn [values].
  rewrite length_drop. fold n.
  destruct (decide (length images_file = (16 + n * 784)%nat)) as [He|He].
  - rewrite decide_True by tauto.
    by rewrite (proj2 (Nat.eqb_eq _ _)) by lia.
  - rewrite decide_False by tauto.
    rewrite (proj2 (Nat.eqb_neq _ _)) by lia. by eexists.
Qed.

Lemma load_pair_ok_iff (labels_file images_file : list Byte.byte) :
  (is_ok (load_pair labels_file images_file) = true
   <-> idx_pair labels_file images_file)
  /\ forall e, load_pair labels_file images_file = inl e ->
       exists msg, e = ValueError msg.
Proof.
  pose proof (load_pair_cases labels_file images_file) as Hcases.
  cbn zeta in Hcases. unfold idx_pair. case_decide as Hc.
  - rewrite Hcases. split; [by split | discriminate].
  - destruct Hcases as [msg ->]. split.
    + split; [discriminate | contradiction].
    + intros e Heq. injection Heq as <-. by eexists.
Qed.

(** X14. The dataset cell loads exactly when, for the training files and for
    the test files, the label file has its 8-byte header and the image file
    has a 16-byte header followed by 784 bytes for each label; otherwise it
    raises a ValueError: no image is truncated or padded. *)
Theorem load_dataset_ok_iff
    (train_labels train_images test_labels test_images : list Byte.byte) :
  (is_ok (load_dataset train_labels train_images test_labels test_images)
   = true
   <-> idx_pair train_labels train_images /\ idx_pair test_labels test_images)
  /\ forall e,
       load_dataset train_labels train_images test_labels test_images = inl e ->
       exists msg, e = ValueError msg.
Proof.
  destruct (load_pair_ok_iff train_labels train_images) as [Htrain Htrain'].
  destruct (load_pair_ok_iff test_labels test_images) as [Htest Htest'].
  unfold load_dataset.
  destruct (load_pair train_labels train_images) as [e|[y_train x_train]].
  { split; [|intros e' Heq; injection Heq as <-; by apply Htrain'].
    split; [discriminate|]. intros [Hwf _]. by apply Htrain in Hwf. }
  destruct (load_pair test_labels test_images) as [e|[y_test x_test]].
  { split; [|intros e' Heq; injection Heq as <-; by apply Htest'].
    split; [discriminate|]. intros [_ Hwf]. by apply Htest in Hwf. }
  split; [|discriminate]. split; [|reflexivity].
  intros _. split; [by apply Htrain | by apply Htest].
Qed.

Lemma item3 (x : ndarray) (n i r c : nat) :
  shape x = [n; 28%nat; 28%nat] ->
  (i < n)%nat -> (r < 28)%nat -> (c < 28)%nat ->
  item x [i; r; c] = values x !! (i * 784 + r * 28 + c)%nat.
Proof.
  intros Hs Hi Hr Hc. unfold item. rewrite Hs.
  rewrite decide_True by (split; [reflexivity | repeat (constructor; [assumption|]); constructor]).
  f_equal. unfold flat_index. cbn. lia.
Qed.

Lemma item2 (x : ndarray) (n m i k : nat) :
  shape x = [n; m] -> (i < n)%nat -> (k < m)%nat ->
  item x [i; k] = values x !! (i * m + k)%nat.
Proof.
  intros Hs Hi Hk. unfold item. rewrite Hs.
  rewrite decide_True by (split; [reflexivity | repeat (constructor; [assumption|]); constructor]).
  f_equal.
Qed.

Lemma item1 (x : ndarray) (n i : nat) :
  shape x = [n] -> (i < n)%nat -> item x [i] = values x !! i.
Proof.
  intros Hs Hi. unfold item. rewrite Hs.
  rewrite decide_True by (split; [reflexivity | repeat (constructor; [assumption|]); constructor]).
  f_equal.
Qed.

(** X15. When the files load, there is one label and one 28 by 28 image per
    byte of the label file after its header; label [i] is byte [8 + i] of the
    label file and pixel [(r, c)] of image [i] is byte
    [16 + 784 i + 28 r + c] of the image file, whatever the headers hold. *)
Theorem load_pair_addresses (labels_file images_file : list Byte.byte)
    (y x : ndarray) :
  load_pair labels_file images_file = inr (y, x) ->
  let n := (length labels_file - 8)%nat in
  shape y = [n] /\ shape x = [n; 28%nat; 28%nat]
  /\ (forall i, (i < n)%nat -> item y [i] = labels_file !! (8 + i)%nat)
  /\ (forall i r c, (i < n)%nat -> (r < 28)%nat -> (c < 28)%nat ->
        item x [i; r; c] = images_file !! (16 + 784 * i + 28 * r + c)%nat).
Proof.
  intros Hload n.
  pose proof (load_pair_cases labels_file images_file) as Hcases.
  cbn zeta in Hcases. fold n in Hcases. case_decide as Hc.
  2:{ destruct Hcases as [msg Hmsg]. congruence. }
  rewrite Hcases in Hload. injection Hload as <- <-. cbn [shape].
  split; [reflexivity|]. split; [reflexivity|]. split.
  - intros i Hi. rewrite (item1 _ n) by done. cbn. by rewrite lookup_drop.
  - intros i r c Hi Hr Hcc. rewrite (item3 _ n) by done. cbn.
    rewrite lookup_drop. f_equal. lia.
Qed.

Lemma load_pair_addresses_witness :
  exists y x,
    load_pair tiny_labels tiny_images = inr (y, x)
    /\ shape y = [1%nat] /\ shape x = [1%nat; 28%nat; 28%nat]
    /\ item x [0; 1; 2]%nat = tiny_images !! 46%nat.
Proof.
  destruct (load_pair tiny_labels tiny_images) as [e|[y x]] eqn:Hload;
    [vm_compute in Hload; discriminate Hload|].
  exists y, x. split; [reflexivity|].
  destruct (load_pair_addresses _ _ _ _ Hload) as (Hy & Hx & _ & Hpix).
  split; [exact Hy|]. split; [exact Hx|].
  apply (Hpix 0 1 2)%nat; vm_compute; lia.
Defined.

(** What flattening does to loaded images, in every case. *)
Lemma flatten_images_cases (labels_file images_file : list Byte.byte)
    (y x : ndarray) :
  load_pair labels_file images_file = inr (y, x) ->
  let n := (length labels_file - 8)%nat in
  x = mkNdarray [n; 28%nat; 28%nat] (drop 16 images_file)
  /\ length (drop 16 images_file) = (n * 784)%nat
  /\ flatten_images x
     = if (n =? 0)%nat then inl (ValueError "cannot reshape array")
       else inr (mkNdarray [n; 784%nat] (drop 16 images_file)).
Proof.
  intros Hload n.
  pose proof (load_pair_cases labels_file images_file) as Hcases.
  cbn zeta in Hcases. fold n in Hcases. case_decide as Hc.
  2:{ destruct Hcases as [msg Hmsg]. congruence. }
  rewrite Hcases in Hload. injection Hload as <- <-.
  split; [reflexivity|].
  assert (Hlen : length (drop 16 images_file) = (n * 784)%nat).
  { rewrite length_drop. lia. }
  split; [exact Hlen|].
  unfold flatten_images, np_len. cbn [shape hd]. rewrite reshape_rows.
  cbn [values]. rewrite Hlen.
  destruct (Nat.eqb_spec n 0) as [Hn|Hn]; cbn [orb]; [reflexivity|].
  by rewrite (Nat.mul_comm n 784), Nat.Div0.mod_mul, Nat.div_mul by lia.
Qed.

(** X16. Flattening the loaded images succeeds exactly when there is at least
    one image; the result has one row of 784 values per image, row [i] being
    the 784 bytes of the image file from byte [16 + 784 i] on, so that value
    [28 r + c] of row [i] is pixel [(r, c)] of image [i]. *)
Theorem flatten_images_rows (labels_file images_file : list Byte.byte)
    (y x : ndarray) :
  load_pair labels_file images_file = inr (y, x) ->
  let n := (length labels_file - 8)%nat in
  (is_ok (flatten_images x) = true <-> n <> 0%nat)
  /\ forall x_test_flat, flatten_images x = inr x_test_flat ->
       shape x_test_flat = [n; 784%nat]
       /\ values x_test_flat = drop 16 images_file
       /\ (forall i k, (i < n)%nat -> (k < 784)%nat ->
             item x_test_flat [i; k] = images_file !! (16 + 784 * i + k)%nat)
       /\ (forall i r c, (i < n)%nat -> (r < 28)%nat -> (c < 28)%nat ->
             item x_test_flat [i; (28 * r + c)%nat] = item x [i; r; c]).
Proof.
  intros Hload n.
  destruct (flatten_images_cases _ _ _ _ Hload) as (-> & Hlen & ->).
  fold n. destruct (Nat.eqb_spec n 0) as [Hn|Hn].
  - split; [split; [discriminate | contradiction] | discriminate].
  - split; [by split|].
    intros f Heq. injection Heq as <-. cbn [shape values].
    split; [reflexivity|]. split; [reflexivity|]. split.
    + intros i k Hi Hk. rewrite (item2 _ n 784) by done. cbn.
      rewrite lookup_drop. f_equal. lia.
    + intros i r c Hi Hr Hcc.
      rewrite (item2 _ n 784) by (done || lia).
      rewrite (item3 _ n) by done. cbn. f_equal. lia.
Qed.

Lemma flatten_images_rows_witness :
  exists y x x_test_flat,
    load_pair tiny_labels tiny_images = inr (y, x)
    /\ flatten_images x = inr x_test_flat
    /\ shape x_test_flat = [1%nat; 784%nat]
    /\ values x_test_flat = drop 16 tiny_images.
Proof.
  destruct (load_pair tiny_labels tiny_images) as [e|[y x]] eqn:Hload;
    [vm_compute in Hload; discriminate Hload|].
  destruct (flatten_images_rows _ _ _ _ Hload) as [[_ Hok] Hflat].
  assert (Hn : (length tiny_labels - 8)%nat <> 0%nat) by (vm_compute; lia).
  specialize (Hok Hn).
  destruct (flatten_images x) as [e|f] eqn:Hf; [discriminate Hok|].
  exists y, x, f. split; [reflexivity|]. split; [exact Hf|].
  destruct (Hflat f eq_refl) as (Hs & He & _). auto.
Defined.

(** ** The csv file of the test images *)

Lemma string_app_length (a b : string) :
  String.length (a ++ b) = (String.length a + String.length b)%nat.
Proof.
  induction a as [|c a IH]; [reflexivity|].
  change (S (String.length (a ++ b))
          = S (String.length a + String.length b)).
  by rewrite IH.
Qed.

Lemma string_app_inj_length (a a' b b' : string) :
  String.length a = String.length a' -> a ++ b = a' ++ b' ->
  a = a' /\ b = b'.
Proof.
  revert a'. induction a as [|c a IH]; intros [|c' a'] Hlen Heq;
    try discriminate Hlen.
  - by split.
  - cbn in Hlen, Heq. injection Heq as -> Heq. injection Hlen as Hlen.
    destruct (IH _ Hlen Heq) as [-> ->]. by split.
Qed.

Lemma format_e18_length (v : Byte.byte) : String.length (format_e18 v) = 24%nat.
Proof. destruct v; reflexivity. Qed.

Lemma field_byte_format (v : Byte.byte) : field_byte (format_e18 v) = Some v.
Proof. destruct v; vm_compute; reflexivity. Qed.

Lemma format_e18_inj (v v' : Byte.byte) :
  format_e18 v = format_e18 v' -> v = v'.
Proof.
  intros Heq. apply (f_equal field_byte) in Heq.
  rewrite !field_byte_format in Heq. by injection Heq.
Qed.

Lemma csv_line_length (row : list Byte.byte) :
  row <> [] ->
  String.length (String.concat "," (format_e18 <$> row))
  = (25 * length row - 1)%nat.
Proof.
  induction row as [|v [|v' row] IH]; intros Hne; [done| |].
  - cbn [fmap list_fmap String.concat]. by rewrite format_e18_length.
  - change (String.length
              (format_e18 v ++ "," ++ String.concat "," (format_e18 <$> v' :: row))
            = (25 * length (v :: v' :: row) - 1)%nat).
    rewrite !string_app_length, format_e18_length, IH by done.
    cbn [length String.length]. lia.
Qed.

Lemma csv_line_inj (row row' : list Byte.byte) :
  length row = length row' ->
  String.concat "," (format_e18 <$> row)
  = String.concat "," (format_e18 <$> row') ->
  row = row'.
Proof.
  revert row'.
  induction row as [|v [|v2 row] IH]; intros [|v' [|v2' row']] Hlen Heq;
    try discriminate Hlen; [reflexivity| |].
  - cbn in Heq. by rewrite (format_e18_inj _ _ Heq).
  - change (format_e18 v ++ "," ++ String.concat "," (format_e18 <$> v2 :: row)
            = format_e18 v' ++ ","
              ++ String.concat "," (format_e18 <$> v2' :: row')) in Heq.
    apply string_app_inj_length in Heq as [Hv Heq];
      [|by rewrite !format_e18_length].
    apply format_e18_inj in Hv as ->.
    apply (string_app_inj_length "," "," _ _ eq_refl) in Heq as [_ Heq].
    f_equal. apply IH; [cbn in Hlen |- *; lia | exact Heq].
Qed.

Lemma rows_of_length {A} (n m : nat) (l : list A) : length (rows_of n m l) = n.
Proof. revert l. induction n as [|n IH]; intros l; cbn; [done | by rewrite IH]. Qed.

Lemma rows_of_lookup {A} (n m i : nat) (l : list A) :
  (i < n)%nat -> rows_of n m l !! i = Some (take m (drop (i * m) l)).
Proof.
  revert i l. induction n as [|n IH]; intros i l Hi; [lia|].
  destruct i as [|i]; cbn [rows_of lookup list_lookup].
  - reflexivity.
  - change (rows_of n m (drop m l) !! i
            = Some (take m (drop (S i * m) l))).
    rewrite IH by lia. by rewrite drop_drop.
Qed.

Lemma rows_of_concat {A} (n m : nat) (l : list A) :
  length l = (n * m)%nat -> concat (rows_of n m l) = l.
Proof.
  revert l. induction n as [|n IH]; intros l Hlen; cbn.
  - destruct l; [reflexivity | discriminate Hlen].
  - rewrite IH by (rewrite length_drop; lia). apply take_drop.
Qed.

Lemma rows_of_widths {A} (n m : nat) (l : list A) :
  length l = (n * m)%nat ->
  List.Forall (fun row => length row = m) (rows_of n m l).
Proof.
  revert l. induction n as [|n IH]; intros l Hlen; cbn; constructor.
  - rewrite length_take. lia.
  - apply IH. rewrite length_drop. lia.
Qed.

(** What the flatten-and-save cell writes for loaded images. *)
Lemma save_test_csv_loaded (labels_file images_file : list Byte.byte)
    (y x : ndarray) :
  load_pair labels_file images_file = inr (y, x) ->
  (length labels_file - 8)%nat <> 0%nat ->
  save_test_csv x
  = inr ((fun row => String.concat "," (format_e18 <$> row))
           <$> rows_of (length labels_file - 8) 784 (drop 16 images_file))
  /\ length (drop 16 images_file) = ((length labels_file - 8) * 784)%nat.
Proof.
  intros Hload Hn.
  destruct (flatten_images_cases _ _ _ _ Hload) as (_ & Hlen & Hflat).
  split; [|exact Hlen].
  unfold save_test_csv. rewrite Hflat.
  by rewrite (proj2 (Nat.eqb_neq _ _) Hn).
Qed.

(** X17. For loaded test images, at least one, the flatten-and-save cell
    writes one line per image; line [i] holds the 784 bytes of the image file
    from byte [16 + 784 i] on, each written in the format [%.18e] and
    separated by commas, and is 19599 characters long (784 fields of 24 characters and 783
    commas). *)
Theorem save_test_csv_lines (labels_file images_file : list Byte.byte)
    (y x : ndarray) :
  load_pair labels_file images_file = inr (y, x) ->
  let n := (length labels_file - 8)%nat in
  n <> 0%nat ->
  exists lines,
    save_test_csv x = inr lines
    /\ length lines = n
    /\ (forall i, (i < n)%nat ->
          lines !! i
          = Some (String.concat ","
                    (format_e18
                       <$> take 784 (drop (16 + 784 * i) images_file))))
    /\ List.Forall (fun line => String.length line = (784 * 24 + 783)%nat) lines.
Proof.
  intros Hload n Hn.
  destruct (save_test_csv_loaded _ _ _ _ Hload Hn) as [Hsave Hlen].
  fold n in Hsave, Hlen.
  eexists. split; [exact Hsave|]. split; [|split].
  - by rewrite length_fmap, rows_of_length.
  - intros i Hi. rewrite list_lookup_fmap, rows_of_lookup by done.
    rewrite drop_drop.
    by replace (16 + i * 784)%nat with (16 + 784 * i)%nat by lia.
  - apply List.Forall_forall. intros line Hin.
    apply list_elem_of_In, list_elem_of_fmap in Hin as (row & -> & Hrow).
    pose proof (rows_of_widths n 784 _ Hlen) as Hw.
    rewrite List.Forall_forall in Hw.
    assert (Hrow' : length row = 784%nat).
    { apply Hw. by apply list_elem_of_In. }
    rewrite csv_line_length; [rewrite Hrow'; lia|].
    intros ->. discriminate Hrow'.
Qed.

Lemma save_test_csv_lines_witness :
  exists y x lines,
    load_pair tiny_labels tiny_images = inr (y, x)
    /\ save_test_csv x = inr lines
    /\ length lines = 1%nat
    /\ List.Forall (fun line => String.length line = (784 * 24 + 783)%nat) lines.
Proof.
  destruct (load_pair tiny_labels tiny_images) as [e|[y x]] eqn:Hload;
    [vm_compute in Hload; discriminate Hload|].
  assert (Hn : (length tiny_labels - 8)%nat <> 0%nat) by (vm_compute; lia).
  destruct (save_test_csv_lines _ _ _ _ Hload Hn)
    as (lines & Hsave & Hlen & _ & Hall).
  exists y, x, lines. auto.
Defined.

(** X18. The csv file loses nothing: two loaded test sets with the same
    number of images, at least one, for which the cell writes the same lines
    have the same pixels. *)
Theorem save_test_csv_inj (labels_file images_file : list Byte.byte)
    (labels_file' images_file' : list Byte.byte) (y x y' x' : ndarray) :
  load_pair labels_file images_file = inr (y, x) ->
  load_pair labels_file' images_file' = inr (y', x') ->
  length labels_file = length labels_file' ->
  (length labels_file - 8)%nat <> 0%nat ->
  save_test_csv x = save_test_csv x' ->
  drop 16 images_file = drop 16 images_file'.
Proof.
  intros Hload Hload' Hsame Hn Heq.
  destruct (save_test_csv_loaded _ _ _ _ Hload Hn) as [Hsave Hlen].
  destruct (save_test_csv_loaded _ _ _ _ Hload' ltac:(lia)) as [Hsave' Hlen'].
  rewrite Hsave, Hsave', <- Hsame in Heq. injection Heq as Heq.
  rewrite <- Hsame in Hlen'.
  set (n := (length labels_file - 8)%nat) in *.
  rewrite <- (rows_of_concat n 784 _ Hlen), <- (rows_of_concat n 784 _ Hlen').
  f_equal.
  pose proof (rows_of_widths n 784 _ Hlen) as Hw.
  pose proof (rows_of_widths n 784 _ Hlen') as Hw'.
  revert Heq Hw Hw'.
  generalize (rows_of n 784 (drop 16 images_file)).
  generalize (rows_of n 784 (drop 16 images_file')).
  intros rows' rows. revert rows'.
  induction rows as [|row rows IH]; intros [|row' rows'] Heq Hw Hw';
    try discriminate Heq; [reflexivity|].
  cbn in Heq. injection Heq as Hrow Hrest.
  inversion Hw as [|? ? Hr Hrs]; subst.
  inversion Hw' as [|? ? Hr' Hrs']; subst.
  f_equal; [|by apply IH].
  apply csv_line_inj; [by rewrite Hr' | exact Hrow].
Qed.

Lemma save_test_csv_inj_witness :
  exists y x,
    load_pair tiny_labels tiny_images = inr (y, x)
    /\ drop 16 tiny_images = drop 16 tiny_images.
Proof.
  destruct (load_pair tiny_labels tiny_images) as [e|[y x]] eqn:Hload;
    [vm_compute in Hload; discriminate Hload|].
  exists y, x. split; [reflexivity|].
  apply (save_test_csv_inj tiny_labels tiny_images tiny_labels tiny_images
           y x y x Hload Hload eq_refl).
  - vm_compute. lia.
  - reflexivity.
Defined.

(** * The DAG file and the notebook's uploads *)

(** X19. For every region and account the DAG file works on the bucket the
    notebook creates: its [train_input] is the URI the notebook uploads the
    training files to, and its [test_input] is the URI of the test upload
    followed by the file name of the uploaded [x_test.csv]. *)
Theorem dag_inputs_are_uploads (region_name account_id : string) :
  bucket_name region_name account_id = bucket region_name account_id
  /\ train_input region_name account_id
     = train_desired_s3_uri region_name account_id
  /\ test_input region_name account_id
     = test_desired_s3_uri region_name account_id ++ "/"
       ++ os_path_basename test_local_path.
Proof.
  assert (Hassoc : forall a b c : string, (a ++ b) ++ c = a ++ b ++ c).
  { intros a b c. induction a as [|x a IH]; [reflexivity|].
    change (String x ((a ++ b) ++ c) = String x (a ++ b ++ c)).
    by rewrite IH. }
  split; [reflexivity|]. split; [reflexivity|].
  unfold test_input, test_desired_s3_uri, data_prefix.
  change (os_path_basename test_local_path) with "x_test.csv".
  rewrite !Hassoc. reflexivity.
Qed.

